(** * llama-mcp-proxy: tool-call orchestration and tool-client subsystem

    A shallow embedding of [main.py] and of the [mcp_client] package
    ([base_client.py], [stdio_client.py], [register.py], [schemas.py],
    [mcp_enums.py]), followed by the properties of the specification
    that concern them.

    Python values that travel through the proxy are JSON documents; a
    [dict] is a finite map with string keys.  Exceptions are explicit:
    every fallible function returns a [result].  Effects on the outside
    world (the upstream inference API, the provider subprocesses, the
    descriptor file) go through an interface of collaborators and are
    recorded in a trace.  Calls to the logger change neither data nor
    control flow and are left out.  A finite map does not keep the
    insertion order of a [dict]: where the code iterates over a
    [dict], the model visits the same entries in the order of
    [map_to_list]; none of the properties below depends on it. *)

From Stdlib Require Import ZArith String Ascii List Bool Lia DecimalString.
From stdpp Require Import gmap strings list fin_maps.

Local Open Scope Z_scope.
Local Open Scope string_scope.
Local Open Scope list_scope.

(** ** Python values *)

(** What [json.loads] produces: [None], [bool], [int], [float], [str],
    [list] and [dict].  Of a float the code only ever observes its type
    and whether it is zero, so it is kept as mantissa and binary
    exponent. *)
#[warnings="-register-all"]
Inductive json : Type :=
| JNull
| JBool (b : bool)
| JNum (n : Z)
| JFloat (m e : Z)
| JStr (s : string)
| JArr (l : list json)
| JObj (d : gmap string json).

(** Truth value of an object in a condition ([if x], [not x], [x or y]). *)
Definition truthy (v : json) : bool :=
  match v with
  | JNull => false
  | JBool b => b
  | JNum n => negb (n =? 0)%Z
  | JFloat m _ => negb (m =? 0)%Z
  | JStr s => negb (String.eqb s "")
  | JArr l => match l with [] => false | _ :: _ => true end
  | JObj d => negb (bool_decide (d = ∅))
  end.

(** ** Exceptions *)

Inductive exn_class : Set :=
| Exception
| ValueError
| JSONDecodeError
| KeyError
| IndexError
| TypeError
| AttributeError
| RuntimeError
| NotImplementedError
| UnboundLocalError
| OSError
| FileNotFoundError
| DaciteError
| MCPConnectionError.

#[global] Instance exn_class_eq_dec : EqDecision exn_class.
Proof. solve_decision. Defined.

(** The direct base class, as in the Python class hierarchy. *)
Definition base_class (c : exn_class) : option exn_class :=
  match c with
  | Exception => None
  | JSONDecodeError => Some ValueError
  | NotImplementedError => Some RuntimeError
  | FileNotFoundError => Some OSError
  | _ => Some Exception
  end.

(** [except c':] catches an exception of class [c]. *)
Definition is_subclass (c c' : exn_class) : bool :=
  bool_decide (c = c')
  || match base_class c with
     | Some b => bool_decide (b = c')
                 || match base_class b with
                    | Some b' => bool_decide (b' = c')
                    | None => false
                    end
     | None => false
     end.

(** An exception object: its class and [str(e)]. *)
Record exn : Set := Exn { exn_kind : exn_class; exn_msg : string }.

Inductive result (A : Type) : Type :=
| Ok (a : A)
| Raise (e : exn).
Arguments Ok {A} a.
Arguments Raise {A} e.

Definition rbind {A B} (r : result A) (k : A -> result B) : result B :=
  match r with
  | Ok a => k a
  | Raise e => Raise e
  end.

Declare Scope result_scope.
Delimit Scope result_scope with result.
Notation "x <- r ;; k" := (rbind r (fun x => k))
  (at level 100, r at next level, right associativity) : result_scope.

(** ** Library functions the code calls

    [json.loads], [json.dumps] and the builtin [str] belong to the
    Python runtime, not to the proxy: the development is parametric in
    them.  [json_loads s = None] stands for [JSONDecodeError]. *)
Class PyRuntime : Type := {
  json_loads : string -> option json;
  json_dumps : json -> string;
  py_str : json -> string
}.

(** ** Operations on values *)

(** [d.get(k, default)]: only a [dict] has the method. *)
Definition py_get (v : json) (k : string) (dflt : json) : result json :=
  match v with
  | JObj d => Ok (default dflt (d !! k))
  | _ => Raise (Exn AttributeError "object has no attribute 'get'")
  end.

(** [v[k]] with a string key. *)
Definition py_getitem (v : json) (k : string) : result json :=
  match v with
  | JObj d =>
      match d !! k with
      | Some x => Ok x
      | None => Raise (Exn KeyError ("'" +:+ k +:+ "'"))
      end
  | JArr _ => Raise (Exn TypeError "list indices must be integers or slices, not str")
  | JStr _ => Raise (Exn TypeError "string indices must be integers, not 'str'")
  | _ => Raise (Exn TypeError "object is not subscriptable")
  end.

(** [v[0]]. *)
Definition py_first (v : json) : result json :=
  match v with
  | JArr (x :: _) => Ok x
  | JArr [] => Raise (Exn IndexError "list index out of range")
  | JStr (String c _) => Ok (JStr (String c ""))
  | JStr "" => Raise (Exn IndexError "string index out of range")
  | JObj _ => Raise (Exn KeyError "0")
  | _ => Raise (Exn TypeError "object is not subscriptable")
  end.

(** [len(v) > 0]: numbers, booleans and [None] have no length. *)
Definition py_len_pos (v : json) : result bool :=
  match v with
  | JArr l => Ok (match l with [] => false | _ => true end)
  | JStr s => Ok (negb (String.eqb s ""))
  | JObj d => Ok (negb (bool_decide (d = ∅)))
  | _ => Raise (Exn TypeError "object has no len()")
  end.

(** [s.split(sep)] for a one-character separator: the pieces between
    the occurrences of [sep], never an empty list. *)
Fixpoint py_split (sep : ascii) (s : string) : list string :=
  match s with
  | EmptyString => [EmptyString]
  | String c s' =>
      if Ascii.eqb c sep then EmptyString :: py_split sep s'
      else match py_split sep s' with
           | [] => [String c EmptyString]
           | piece :: pieces => String c piece :: pieces
           end
  end.

(** [s in l] for a string [s] and a list [l] of values: equality with
    a [str] holds for equal strings only. *)
Definition str_in_list (s : string) (l : list json) : bool :=
  existsb (fun v => match v with JStr s' => String.eqb s s' | _ => false end) l.

(** [s in t] for two strings: [s] occurs in [t]. *)
Definition str_in_str (s t : string) : bool :=
  match String.index 0 s t with Some _ => true | None => false end.

(** [str(v)] where [v] may already be a string; also what an f-string
    puts for [{v}]. *)
Definition py_format {py : PyRuntime} (v : json) : string :=
  match v with
  | JStr s => s
  | _ => py_str v
  end.

(** Decimal text of an [int]. *)
Definition str_of_int (n : Z) : string :=
  NilZero.string_of_int (Z.to_int n).

(** ** Schema translator ([base_client.py]) *)

(** A tool as a provider declares it.  [_convert_single_tool] accepts
    the object the MCP library returns ([name: str], [description:
    Optional[str]], [inputSchema: dict]) and a plain [dict]. *)
Inductive mcp_tool : Type :=
| ToolObject (name : string) (description : option string) (inputSchema : gmap string json)
| ToolDict (d : gmap string json).

(** [if key not in schema: schema[key] = value] *)
Definition ensure_key (key : string) (value : json) (schema : gmap string json)
  : gmap string json :=
  match schema !! key with
  | Some _ => schema
  | None => <[key := value]> schema
  end.

Definition empty_parameters : gmap string json :=
  {[ "type" := JStr "object"; "properties" := JObj ∅; "required" := JArr [] ]}.

(** [BaseMCPClient._convert_input_schema].  A falsy schema gives the
    default.  A [dict] is copied and completed.  A non-empty list also
    has [copy()] and [in], but no assignment by key; other values have
    no [copy()]. *)
Definition _convert_input_schema (input_schema : json) : result json :=
  if negb (truthy input_schema) then Ok (JObj empty_parameters)
  else
    match input_schema with
    | JObj schema =>
        let schema := ensure_key "type" (JStr "object") schema in
        let schema := ensure_key "properties" (JObj ∅) schema in
        let schema := ensure_key "required" (JArr []) schema in
        Ok (JObj schema)
    | JArr schema =>
        if str_in_list "type" schema && str_in_list "properties" schema
           && str_in_list "required" schema
        then Ok (JArr schema)
        else Raise (Exn TypeError "list indices must be integers or slices, not str")
    | _ => Raise (Exn AttributeError "object has no attribute 'copy'")
    end.

Section Translator.
Context {py : PyRuntime}.

(** The three locals [name], [description], [input_schema] read at
    the start of [_convert_single_tool]. *)
Definition tool_fields (t : mcp_tool) : json * json * json :=
  match t with
  | ToolObject name description inputSchema =>
      (JStr name, from_option JStr JNull description, JObj inputSchema)
  | ToolDict d =>
      (default JNull (d !! "name"),
       default (JStr "") (d !! "description"),
       default (JObj ∅) (d !! "inputSchema"))
  end.

(** [BaseMCPClient._convert_single_tool] *)
Definition _convert_single_tool (namespace : string) (t : mcp_tool) : result json :=
  let '(name, description, input_schema) := tool_fields t in
  if negb (truthy name) then Raise (Exn RuntimeError "Tool missing name, skipping")
  else
    (parameters <- _convert_input_schema input_schema ;;
     Ok (JObj {[
       "type" := JStr "function";
       "function" := JObj {[
         "name" := JStr (namespace +:+ "." +:+ py_format name);
         "description" :=
           (if truthy description then description
            else JStr ("Execute " +:+ py_format name +:+ " tool"));
         "parameters" := parameters ]} ]}))%result.

(** The [except] handler of [_convert_mcp_tools_to_openai] formats
    [mcp_tool.get('name', 'unknown')]: a tool object has no [get]. *)
Definition conversion_failed (t : mcp_tool) : result unit :=
  match t with
  | ToolDict _ => Ok tt
  | ToolObject _ _ _ => Raise (Exn AttributeError "'Tool' object has no attribute 'get'")
  end.

(** The loop of [BaseMCPClient._convert_mcp_tools_to_openai]. *)
Fixpoint convert_tools_loop (namespace : string) (mcp_tools : list mcp_tool)
    (openai_tools : list json) : result (list json) :=
  match mcp_tools with
  | [] => Ok openai_tools
  | t :: rest =>
      match _convert_single_tool namespace t with
      | Ok openai_tool =>
          convert_tools_loop namespace rest
            (if truthy openai_tool then openai_tools ++ [openai_tool] else openai_tools)
      | Raise _ =>
          (_ <- conversion_failed t ;;
           convert_tools_loop namespace rest openai_tools)%result
      end
  end.

Definition _convert_mcp_tools_to_openai (namespace : string) (mcp_tools : list mcp_tool)
  : result (list json) :=
  convert_tools_loop namespace mcp_tools [].

End Translator.

(** The name a translated tool is exposed under:
    [tool["function"]["name"]]. *)
Definition qualified_name (openai_tool : json) : option string :=
  match openai_tool with
  | JObj t =>
      match t !! "function" with
      | Some (JObj f) =>
          match f !! "name" with
          | Some (JStr s) => Some s
          | _ => None
          end
      | _ => None
      end
  | _ => None
  end.

(** The name a provider declared, when it is a string. *)
Definition declared_name (t : mcp_tool) : option string :=
  match t with
  | ToolObject name _ _ => Some name
  | ToolDict d =>
      match d !! "name" with
      | Some (JStr s) => Some s
      | _ => None
      end
  end.

(** [namespace, tool_name = tool_name.split(".")] in
    [execute_tool_calls]: unpacking needs exactly two pieces. *)
Definition split_qualified (tool_name : string) : result (string * string) :=
  match py_split "." tool_name with
  | [namespace; tool_name] => Ok (namespace, tool_name)
  | [] | [_] => Raise (Exn ValueError "not enough values to unpack (expected 2, got 1)")
  | _ => Raise (Exn ValueError "too many values to unpack (expected 2)")
  end.

(** No ['.'] occurs in [s]. *)
Fixpoint dotless (s : string) : bool :=
  match s with
  | EmptyString => true
  | String c s' => negb (Ascii.eqb c ".") && dotless s'
  end.

(** ** Configuration variants ([schemas.py]) *)

(** The type hints used by the two configuration dataclasses. *)
Inductive pytype : Set :=
| TStr
| TFloat
| TList (item : pytype)
| TDict (key value : pytype)
| TLiteral (choices : list string)
| TOptional (t : pytype).

(** A dataclass field; [field_default = None] means the field has no
    default and must be supplied. *)
Record field : Type := Field {
  field_name : string;
  field_type : pytype;
  field_default : option json
}.

Inductive config_class : Set :=
| StdioServerConfig
| SSEServerConfig.

#[global] Instance config_class_eq_dec : EqDecision config_class.
Proof. solve_decision. Defined.

Definition class_name (c : config_class) : string :=
  match c with
  | StdioServerConfig => "StdioServerConfig"
  | SSEServerConfig => "SSEServerConfig"
  end.

Definition fields (c : config_class) : list field :=
  match c with
  | StdioServerConfig =>
      [ Field "command" TStr None;
        Field "args" (TOptional (TList TStr)) (Some JNull);
        Field "env" (TOptional (TDict TStr TStr)) (Some JNull);
        Field "timeout" (TOptional TFloat) (Some JNull) ]
  | SSEServerConfig =>
      [ Field "url" TStr None;
        Field "transport" (TOptional TStr) (Some JNull);
        Field "headers" (TOptional (TDict TStr (TLiteral ["sse"; "websocket"]))) (Some JNull) ]
  end.

(** An instance of a configuration dataclass: its class and its
    attribute values. *)
Record server_config : Type := ServerConfig {
  config_type : config_class;
  config_values : gmap string json
}.

(** ** [dacite.from_dict] with [Config(strict=True)]

    The library is not part of the repository; this follows its
    documented behaviour.  In strict mode a key of the data that is no
    field of the dataclass is an error; a field absent from the data
    takes its default or is an error when it has none; a value must be
    an instance of the field's type, where [float] also admits [int].
    All three errors derive from [DaciteError]. *)
Fixpoint is_instance (v : json) (t : pytype) {struct t} : bool :=
  match t with
  | TStr => match v with JStr _ => true | _ => false end
  | TFloat => match v with JNum _ | JFloat _ _ | JBool _ => true | _ => false end
  | TList item =>
      match v with
      | JArr l => forallb (fun x => is_instance x item) l
      | _ => false
      end
  | TDict key value =>
      match v with
      | JObj d =>
          forallb (fun kv : string * json =>
                     is_instance (JStr kv.1) key && is_instance kv.2 value)
                  (map_to_list d)
      | _ => false
      end
  | TLiteral choices =>
      match v with
      | JStr s => bool_decide (s ∈ choices)
      | _ => false
      end
  | TOptional t' =>
      match v with
      | JNull => true
      | _ => is_instance v t'
      end
  end.

Definition field_names (c : config_class) : gset string :=
  list_to_set (field_name <$> fields c).

Fixpoint build_values (fs : list field) (data init_values : gmap string json)
  : result (gmap string json) :=
  match fs with
  | [] => Ok init_values
  | f :: fs' =>
      match data !! field_name f with
      | Some value =>
          if is_instance value (field_type f)
          then build_values fs' data (<[field_name f := value]> init_values)
          else Raise (Exn DaciteError ("wrong value type for field " +:+ field_name f))
      | None =>
          match field_default f with
          | Some value => build_values fs' data (<[field_name f := value]> init_values)
          | None => Raise (Exn DaciteError ("missing value for field " +:+ field_name f))
          end
      end
  end.

Definition from_dict (data_class : config_class) (data : json) : result server_config :=
  match data with
  | JObj d =>
      if bool_decide (dom d ⊆ field_names data_class)
      then (init_values <- build_values (fields data_class) d ∅ ;;
            Ok (ServerConfig data_class init_values))%result
      else Raise (Exn DaciteError "can not match the data to any data class field")
  | _ => Raise (Exn AttributeError "object has no attribute 'keys'")
  end.

(** [data_class] accepts [data]. *)
Definition matches (data_class : config_class) (data : json) : bool :=
  match from_dict data_class data with
  | Ok _ => true
  | Raise _ => false
  end.

(** ** Config resolver ([register.py]) *)

Definition _config_types : list config_class := [StdioServerConfig; SSEServerConfig].

Definition no_known_type : exn :=
  Exn ValueError
    "Configuration doesn't match any known types: ['StdioServerConfig', 'SSEServerConfig']".

(** The [for] loop of [MCPClientRegister._parse_config]: the first type
    that [from_dict] accepts wins; a [DaciteError] moves on to the next
    type, any other exception propagates. *)
Fixpoint parse_config_loop (types : list config_class) (config_dict : json)
  : result server_config :=
  match types with
  | [] => Raise no_known_type
  | config_type :: rest =>
      match from_dict config_type config_dict with
      | Ok server_config => Ok server_config
      | Raise e =>
          if is_subclass (exn_kind e) DaciteError
          then parse_config_loop rest config_dict
          else Raise e
      end
  end.

Definition _parse_config (config_dict : json) : result server_config :=
  parse_config_loop _config_types config_dict.

(** ** Tool client ([mcp_enums.py], [base_client.py], [stdio_client.py]) *)

Inductive ConnectionState : Set :=
| DISCONNECTED
| CONNECTING
| CONNECTED
| ERROR.

#[global] Instance ConnectionState_eq_dec : EqDecision ConnectionState.
Proof. solve_decision. Defined.

Record StdioServerParameters : Type := {
  command : json;
  args : json;
  env : json
}.

(** Handles of the transport library; the proxy only stores them. *)
Inductive AsyncExitStack : Set := ExitStackOf (server : string).
Inductive ClientSession : Set := SessionOf (server : string).

(** The attributes of a [MCPStdioClient] (those of [BaseMCPClient] and
    [stdio_params]).  [tools] is the attribute that [disconnect]
    creates; it does not exist before. *)
Record MCPStdioClient : Type := {
  name : string;
  state : ConnectionState;
  session : option ClientSession;
  exit_stack : option AsyncExitStack;
  mcp_tools : option (list mcp_tool);
  openai_tools : option (list json);
  tools : option json;
  stdio_params : StdioServerParameters
}.

Definition set_state (s : ConnectionState) (c : MCPStdioClient) : MCPStdioClient :=
  {| name := name c; state := s; session := session c; exit_stack := exit_stack c;
     mcp_tools := mcp_tools c; openai_tools := openai_tools c; tools := tools c;
     stdio_params := stdio_params c |}.

Definition set_session (s : option ClientSession) (c : MCPStdioClient) : MCPStdioClient :=
  {| name := name c; state := state c; session := s; exit_stack := exit_stack c;
     mcp_tools := mcp_tools c; openai_tools := openai_tools c; tools := tools c;
     stdio_params := stdio_params c |}.

Definition set_exit_stack (s : option AsyncExitStack) (c : MCPStdioClient) : MCPStdioClient :=
  {| name := name c; state := state c; session := session c; exit_stack := s;
     mcp_tools := mcp_tools c; openai_tools := openai_tools c; tools := tools c;
     stdio_params := stdio_params c |}.

Definition set_mcp_tools (l : option (list mcp_tool)) (c : MCPStdioClient) : MCPStdioClient :=
  {| name := name c; state := state c; session := session c; exit_stack := exit_stack c;
     mcp_tools := l; openai_tools := openai_tools c; tools := tools c;
     stdio_params := stdio_params c |}.

Definition set_openai_tools (l : option (list json)) (c : MCPStdioClient) : MCPStdioClient :=
  {| name := name c; state := state c; session := session c; exit_stack := exit_stack c;
     mcp_tools := mcp_tools c; openai_tools := l; tools := tools c;
     stdio_params := stdio_params c |}.

Definition set_tools (t : option json) (c : MCPStdioClient) : MCPStdioClient :=
  {| name := name c; state := state c; session := session c; exit_stack := exit_stack c;
     mcp_tools := mcp_tools c; openai_tools := openai_tools c; tools := t;
     stdio_params := stdio_params c |}.

(** [MCPStdioClient.__init__] after [BaseMCPClient.__init__]. *)
Definition new_client (server_name : string) (params : StdioServerParameters) : MCPStdioClient :=
  {| name := server_name; state := DISCONNECTED; session := None; exit_stack := None;
     mcp_tools := None; openai_tools := None; tools := None; stdio_params := params |}.

Definition is_connected (self : MCPStdioClient) : bool :=
  bool_decide (state self = CONNECTED).

(** [x or y] *)
Definition py_or (x y : json) : json := if truthy x then x else y.

(** Attribute read on a configuration instance. *)
Definition config_attr (c : server_config) (attr : string) : json :=
  default JNull (config_values c !! attr).

Definition create_stdio_client (server_name : string) (config : server_config)
  : result MCPStdioClient :=
  let server_params :=
    {| command := config_attr config "command";
       args := py_or (config_attr config "args") (JArr []);
       env := py_or (config_attr config "env") JNull |} in
  Ok (new_client server_name server_params).

Definition create_sse_client (server_name : string) (config : server_config)
  : result MCPStdioClient :=
  Raise (Exn NotImplementedError "").

(** [MCPClientRegister._client_creators], filled by the two
    [@MCPClientRegister.register] decorators. *)
Definition _client_creators (t : config_class)
  : string -> server_config -> result MCPStdioClient :=
  match t with
  | StdioServerConfig => create_stdio_client
  | SSEServerConfig => create_sse_client
  end.

(** [MCPClientRegister.create_client]: the three handlers log and fall
    through, so the call returns [None]. *)
Definition create_client (server_name : string) (config : json)
  : result (option MCPStdioClient) :=
  match (server_config <- _parse_config config ;;
         _client_creators (config_type server_config) server_name server_config)%result with
  | Ok client => Ok (Some client)
  | Raise e =>
      if is_subclass (exn_kind e) KeyError then Ok None
      else if is_subclass (exn_kind e) NotImplementedError then Ok None
      else if is_subclass (exn_kind e) ValueError then Ok None
      else Raise e
  end.

(** ** The outside world *)

Record http_request : Type := {
  method : string;
  url : string;
  headers : gmap string string;
  json_body : option json
}.

Record http_response : Type := {
  status : Z;
  response_headers : list (string * string);
  content : string
}.

(** The awaited operations, in the order the proxy performs them. *)
Inductive event : Type :=
| OpenRead (path : string)
| EnterStdioClient (server : string) (params : StdioServerParameters)
| EnterClientSession (server : string)
| SessionInitialize (server : string)
| SessionListTools (server : string)
| ExitStackClose (server : string)
| SessionCallTool (server tool : string) (arguments : json)
| SessionRequest (request : http_request).

(** The collaborators of the core: the descriptor file, the transport
    to a provider subprocess and the HTTP session to the upstream API.
    Each operation may raise and may change the world.
    [session_call_tool] stands for [session.call_tool(name, arguments)]
    followed by [response.content[0].text]. *)
Class Collaborators (World : Type) : Type := {
  open_read : string -> World -> result string * World;
  enter_stdio_client : string -> StdioServerParameters -> World -> result unit * World;
  enter_client_session : string -> World -> result unit * World;
  session_initialize : string -> World -> result unit * World;
  session_list_tools : string -> World -> result (list mcp_tool) * World;
  exit_stack_aclose : string -> World -> result unit * World;
  session_call_tool : string -> string -> json -> World -> result json * World;
  session_request : http_request -> World -> result http_response * World
}.

(** The world together with the operations performed on it so far. *)
Record system (World : Type) : Type := System {
  world : World;
  trace : list event
}.
Arguments System {World} world trace.
Arguments world {World} s.
Arguments trace {World} s.

(** ** Computations with state and exceptions *)

Definition io (S A : Type) : Type := S -> result A * S.

Definition ret {S A} (a : A) : io S A := fun s => (Ok a, s).

Definition raise {S A} (e : exn) : io S A := fun s => (Raise e, s).

Definition lift {S A} (r : result A) : io S A := fun s => (r, s).

Definition bind {S A B} (m : io S A) (k : A -> io S B) : io S B :=
  fun s =>
    match m s with
    | (Ok a, s') => k a s'
    | (Raise e, s') => (Raise e, s')
    end.

(** [try: m except Exception as e: handler e] *)
Definition try_except {S A} (m : io S A) (handler : exn -> io S A) : io S A :=
  fun s =>
    match m s with
    | (Ok a, s') => (Ok a, s')
    | (Raise e, s') => handler e s'
    end.

(** A statement that updates the local state. *)
Definition update {S} (f : S -> S) : io S unit := fun s => (Ok tt, f s).

(** Run a computation on the second component of the state. *)
Definition inner {S T A} (m : io T A) : io (S * T) A :=
  fun st =>
    let '(r, t) := m st.2 in (r, (st.1, t)).

(** Run a computation on the first component of the state. *)
Definition local {S T A} (m : io S A) : io (S * T) A :=
  fun st =>
    let '(r, s) := m st.1 in (r, (s, st.2)).

Declare Scope io_scope.
Delimit Scope io_scope with io.
Notation "x <- m ;; k" := (bind m (fun x => k))
  (at level 100, m at next level, right associativity) : io_scope.

(** An awaited operation of a collaborator, recorded in the trace. *)
Definition perform {World A} (ev : event) (op : World -> result A * World)
  : io (system World) A :=
  fun st =>
    let '(r, w) := op (world st) in
    (r, System w (trace st ++ [ev])).

Section Client.
Context {py : PyRuntime} {World : Type} {ext : Collaborators World}.

(** A method runs on its object and on the system. *)
Definition meth (A : Type) : Type := io (MCPStdioClient * system World) A.

(** A statement that reads [self]. *)
Definition with_self {A} (f : MCPStdioClient -> meth A) : meth A :=
  fun st => f st.1 st.

(** An assignment to an attribute of [self]. *)
Definition assign (f : MCPStdioClient -> MCPStdioClient) : meth unit :=
  local (update f).

(** The [try] block of [MCPStdioClient.connect]. *)
Definition connect_attempt : meth unit :=
  (_ <- with_self (fun self => assign (set_exit_stack (Some (ExitStackOf (name self))))) ;;
   _ <- with_self (fun self =>
          inner (perform (EnterStdioClient (name self) (stdio_params self))
                         (enter_stdio_client (name self) (stdio_params self)))) ;;
   _ <- with_self (fun self =>
          inner (perform (EnterClientSession (name self))
                         (enter_client_session (name self)))) ;;
   _ <- with_self (fun self => assign (set_session (Some (SessionOf (name self))))) ;;
   _ <- with_self (fun self =>
          inner (perform (SessionInitialize (name self))
                         (session_initialize (name self)))) ;;
   response_tools <- with_self (fun self =>
          inner (perform (SessionListTools (name self))
                         (session_list_tools (name self)))) ;;
   _ <- assign (set_mcp_tools (Some response_tools)) ;;
   openai_tools <- with_self (fun self =>
          lift (_convert_mcp_tools_to_openai (name self) response_tools)) ;;
   _ <- assign (set_openai_tools (Some openai_tools)) ;;
   assign (set_state CONNECTED))%io.

(** [self.exit_stack.aclose()] *)
Definition aclose : meth unit :=
  with_self (fun self =>
    match exit_stack self with
    | Some _ => inner (perform (ExitStackClose (name self)) (exit_stack_aclose (name self)))
    | None => raise (Exn AttributeError "'NoneType' object has no attribute 'aclose'")
    end).

(** Modelled from the spec: [mcp_client/client_exceptions.py], which
    declares [MCPConnectionError], is not among the sources.  The
    specification says that a failed connect "signals a connection
    failure (carrying the underlying cause)"; [connect] builds it
    from [str(e)].  It is taken to derive from [Exception]. *)
Definition connection_failure (cause : exn) : exn :=
  Exn MCPConnectionError (exn_msg cause).

(** [MCPStdioClient.connect] *)
Definition connect : meth unit :=
  with_self (fun self =>
    if bool_decide (state self = CONNECTED) then ret tt
    else
      (_ <- assign (set_state CONNECTING) ;;
       try_except connect_attempt
         (fun e =>
            _ <- assign (set_state ERROR) ;;
            _ <- aclose ;;
            _ <- assign (set_session None) ;;
            raise (connection_failure e)))%io).

(** [MCPStdioClient.list_tools]: reads the client, changes nothing. *)
Definition list_tools (self : MCPStdioClient) : result (list json) :=
  if negb (is_connected self)
  then Raise (Exn RuntimeError ("Not connected to " +:+ name self))
  else Ok (default [] (openai_tools self)).

(** [MCPStdioClient.call_tool]: no attribute of the client is
    assigned; the handler re-raises. *)
Definition call_tool (self : MCPStdioClient) (tool : string) (arguments : json)
  : io (system World) json :=
  if negb (is_connected self)
  then raise (Exn RuntimeError ("Not connected to " +:+ name self))
  else
    match session self with
    | Some _ =>
        perform (SessionCallTool (name self) tool arguments)
                (session_call_tool (name self) tool arguments)
    | None => raise (Exn AttributeError "'NoneType' object has no attribute 'call_tool'")
    end.

(** [BaseMCPClient.disconnect] *)
Definition disconnect : meth unit :=
  with_self (fun self =>
    if bool_decide (state self = DISCONNECTED) then ret tt
    else
      (_ <- aclose ;;
       _ <- assign (set_session None) ;;
       _ <- assign (set_tools (Some JNull)) ;;
       assign (set_state DISCONNECTED))%io).

(** The four public operations of a client. *)
Inductive operation : Type :=
| OpConnect
| OpDisconnect
| OpCallTool (tool : string) (arguments : json)
| OpListTools.

(** The client and the system after an operation, whether it
    returned or raised. *)
Definition after (op : operation) (st : MCPStdioClient * system World)
  : MCPStdioClient * system World :=
  match op with
  | OpConnect => (connect st).2
  | OpDisconnect => (disconnect st).2
  | OpCallTool tool arguments => (st.1, (call_tool st.1 tool arguments st.2).2)
  | OpListTools => st
  end.

End Client.

(** ** Client registry ([register.py], [main.py]) *)

(** [json.loads(s)] *)
Definition loads {py : PyRuntime} (s : string) : result json :=
  match json_loads s with
  | Some v => Ok v
  | None => Raise (Exn JSONDecodeError "Expecting value")
  end.

(** [d.items()]: only a [dict] has the method. *)
Definition py_items (v : json) : result (list (string * json)) :=
  match v with
  | JObj d => Ok (map_to_list d)
  | _ => Raise (Exn AttributeError "object has no attribute 'items'")
  end.

(** The [for] loop of [load_mcp_servers]. *)
Fixpoint create_clients (items : list (string * json)) (clients : gmap string MCPStdioClient)
  : result (gmap string MCPStdioClient) :=
  match items with
  | [] => Ok clients
  | (server_name, server_config) :: rest =>
      (client <- create_client server_name server_config ;;
       create_clients rest
         (match client with
          | Some client => <[server_name := client]> clients
          | None => clients
          end))%result
  end.

Section Registry.
Context {py : PyRuntime} {World : Type} {ext : Collaborators World}.
Variable MCP_CONFIG_PATH : string.

(** [load_mcp_servers].  The second handler builds a
    [JSONDecodeError] from the message alone; the constructor needs
    two more arguments, so what leaves the handler is a [TypeError]. *)
Definition load_mcp_servers (path : string)
  : io (system World) (gmap string MCPStdioClient) :=
  try_except
    (text <- perform (OpenRead path) (open_read path) ;;
     config <- lift (loads text) ;;
     match config with
     | JNull =>
         raise (Exn ValueError
           "MCP Config file is empty. Set ENV var 'ENABLE_MCP' if you wish to disable MCP proxy")
     | _ =>
         servers <- lift (py_get config "mcpServers" (JObj ∅)) ;;
         items <- lift (py_items servers) ;;
         lift (create_clients items ∅)
     end)%io
    (fun e =>
       if is_subclass (exn_kind e) FileNotFoundError
       then raise (Exn FileNotFoundError ("MCP Config file not found: " +:+ path))
       else if is_subclass (exn_kind e) JSONDecodeError
       then raise (Exn TypeError
         "JSONDecodeError.__init__() missing 2 required positional arguments: 'doc' and 'pos'")
       else raise (Exn Exception ("Error loading MCP Config file: " +:+ exn_msg e))).

(** The inner loop of [init_mcp_servers]: a provider that fails to
    connect is left out. *)
Fixpoint connect_all (servers : list (string * MCPStdioClient))
    (connected_servers : gmap string MCPStdioClient)
  : io (system World) (gmap string MCPStdioClient) :=
  match servers with
  | [] => ret connected_servers
  | (server_name, mcp_server) :: rest =>
      fun st =>
        match connect (mcp_server, st) with
        | (Ok _, (mcp_server, st')) =>
            connect_all rest (<[server_name := mcp_server]> connected_servers) st'
        | (Raise _, (_, st')) =>
            connect_all rest connected_servers st'
        end
  end.

(** [init_mcp_servers], the startup hook.  It returns the new value
    of the global [connected_servers]. *)
Definition init_mcp_servers (connected_servers : gmap string MCPStdioClient)
  : io (system World) (gmap string MCPStdioClient) :=
  try_except
    (mcp_servers <- load_mcp_servers MCP_CONFIG_PATH ;;
     connect_all (map_to_list mcp_servers) connected_servers)%io
    (fun e => ret connected_servers).



End Registry.

(** ** Tool-call resolver ([main.py]) *)

(** [parse_tools_from_response] *)
Definition parse_tools_from_response (response_data : json) : result json :=
  (choices <- py_get response_data "choices" JNull ;;
   if negb (truthy choices) then Ok (JArr [])
   else
     nonempty <- py_len_pos choices ;;
     if negb nonempty then Ok (JArr [])
     else
       first <- py_first choices ;;
       message <- py_get first "message" (JObj ∅) ;;
       tool_calls <- py_get message "tool_calls" JNull ;;
       if negb (truthy tool_calls) then Ok (JArr [])
       else
         choices <- py_getitem response_data "choices" ;;
         first <- py_first choices ;;
         message <- py_getitem first "message" ;;
         py_getitem message "tool_calls")%result.

Definition assistant_message (tool_calls : json) : json :=
  JObj {[ "role" := JStr "assistant"; "content" := JStr ""; "tool_calls" := tool_calls ]}.

Definition tool_message (tool_call_id : json) (content : string) : json :=
  JObj {[ "role" := JStr "tool"; "tool_call_id" := tool_call_id; "content" := JStr content ]}.

(** [json.loads(v)] for a value that should be a string. *)
Definition loads_value {py : PyRuntime} (v : json) : result json :=
  match v with
  | JStr s => loads s
  | _ => Raise (Exn TypeError "the JSON object must be str, bytes or bytearray")
  end.

(** [namespace, tool_name = v.split(".")] *)
Definition split_name (v : json) : result (string * string) :=
  match v with
  | JStr s => split_qualified s
  | _ => Raise (Exn AttributeError "object has no attribute 'split'")
  end.

(** The items that [for x in v] visits. *)
Definition py_iter (v : json) : result (list json) :=
  match v with
  | JArr l => Ok l
  | JStr s => Ok ((fun c => JStr (String c "")) <$> list_ascii_of_string s)
  | JObj d => Ok (JStr <$> (map_to_list d).*1)
  | _ => Raise (Exn TypeError "object is not iterable")
  end.

(** [x.copy()] *)
Definition py_copy (v : json) : result json :=
  match v with
  | JArr _ | JObj _ => Ok v
  | _ => Raise (Exn AttributeError "object has no attribute 'copy'")
  end.

(** [x.extend(items)] *)
Definition py_extend (v : json) (items : list json) : result json :=
  match v with
  | JArr l => Ok (JArr (l ++ items))
  | _ => Raise (Exn AttributeError "object has no attribute 'extend'")
  end.

(** What happened in one round of the loop of [handle_tool_calls]:
    the loop goes on with an updated request, or the function
    returns. *)
Inductive round_outcome : Type :=
| Continue (follow_up_request : gmap string json) (final_response : json)
| Return (response : json).

Section Resolver.
Context {py : PyRuntime} {World : Type} {ext : Collaborators World}.
Variables (OPENAI_API_BASE_URL : string) (MAX_ITERATION : Z).
Variable connected_servers : gmap string MCPStdioClient.

(** [json.dumps(r) if isinstance(r, (dict, list)) else str(r)] *)
Definition result_content (tool_result : json) : string :=
  match tool_result with
  | JObj _ | JArr _ => json_dumps tool_result
  | _ => py_format tool_result
  end.

(** [mcp_tool.call_tool(tool_name, tool_args)] where [mcp_tool] is
    [connected_servers.get(namespace, {})]: the default [{}] has no
    such method. *)
Definition invoke (namespace tool_name : string) (tool_args : json)
  : io (system World) json :=
  match connected_servers !! namespace with
  | Some mcp_tool => call_tool mcp_tool tool_name tool_args
  | None => raise (Exn AttributeError "'dict' object has no attribute 'call_tool'")
  end.

(** The content of the tool-result message that the [try] statement
    of [execute_tool_calls] appends, by the outcome of the call. *)
Definition outcome_content (outcome : result json) : string :=
  match outcome with
  | Ok tool_result => result_content tool_result
  | Raise e => "Error executing tool: " +:+ exn_msg e
  end.

(** The statements of the loop body of [execute_tool_calls] that
    come before [try]: the identifier, the decoded arguments, the
    provider and the tool of a tool call. *)
Definition read_tool_call (tool_call : json) : result (json * json * string * string) :=
  (function <- py_getitem tool_call "function" ;;
   tool_name <- py_getitem function "name" ;;
   arguments <- py_getitem function "arguments" ;;
   tool_args <- loads_value arguments ;;
   tool_call_id <- py_getitem tool_call "id" ;;
   target <- split_name tool_name ;;
   Ok (tool_call_id, tool_args, target.1, target.2))%result.

(** The body of the [for] loop of [execute_tool_calls].  The local
    list [messages] is the first component of the state. *)
Definition execute_tool_call (tool_call : json) : io (list json * system World) unit :=
  (call <- lift (read_tool_call tool_call) ;;
   let '(tool_call_id, tool_args, namespace, tool_name) := call in
   try_except
     (tool_result <- inner (invoke namespace tool_name tool_args) ;;
      local (update (fun messages =>
        messages ++ [tool_message tool_call_id (result_content tool_result)])))
     (fun e =>
      local (update (fun messages =>
        messages ++ [tool_message tool_call_id ("Error executing tool: " +:+ exn_msg e)]))))%io.

(** The [for] loop of [execute_tool_calls]: the calls are executed
    one after the other, in the order of the list. *)
Fixpoint execute_loop (tool_calls : list json) : io (list json * system World) unit :=
  match tool_calls with
  | [] => ret tt
  | tool_call :: rest =>
      (_ <- execute_tool_call tool_call ;;
       execute_loop rest)%io
  end.

(** [execute_tool_calls] up to its [return], with the local
    [messages] still visible. *)
Definition run_tool_calls (tool_calls : json) (st : system World)
  : result unit * (list json * system World) :=
  (items <- lift (py_iter tool_calls) ;;
   execute_loop items)%io ([assistant_message tool_calls], st).

(** [execute_tool_calls] *)
Definition execute_tool_calls (tool_calls : json) : io (system World) (list json) :=
  fun st =>
    match run_tool_calls tool_calls st with
    | (Ok _, (messages, st')) => (Ok messages, st')
    | (Raise e, (_, st')) => (Raise e, st')
    end.

(** The three statements that [handle_tool_calls] runs before the
    loop on [original_request] and in the loop on
    [follow_up_request]: copy the messages, execute the tool calls,
    extend the copy with the results. *)
Definition extended_messages (request tool_calls : json) : io (system World) json :=
  (messages <- lift (messages <- py_get request "messages" (JArr []) ;;
                     py_copy messages)%result ;;
   tool_responses <- execute_tool_calls tool_calls ;;
   lift (py_extend messages tool_responses))%io.

Definition follow_up_url : string := OPENAI_API_BASE_URL +:+ "/chat/completions".

Definition unbound_final_response : exn :=
  Exn UnboundLocalError
    "cannot access local variable 'final_response' where it is not associated with a value".

Definition max_iteration_reached : exn :=
  Exn RuntimeError ("Reached Max iteration of " +:+ str_of_int MAX_ITERATION +:+ ".").

(** One pass through the body of [for _ in range(MAX_ITERATION)].
    [final_response] is [None] while the local variable is not yet
    bound. *)
Definition follow_up_round (headers : gmap string string)
    (follow_up_request : gmap string json) (final_response : option json)
  : io (system World) round_outcome :=
  let request :=
    {| method := "POST"; url := follow_up_url; headers := headers;
       json_body := Some (JObj follow_up_request) |} in
  (follow_up_response <- perform (SessionRequest request) (session_request request) ;;
   if (status follow_up_response =? 200)%Z then
     final_response <- lift (loads (content follow_up_response)) ;;
     tool_calls <- lift (parse_tools_from_response final_response) ;;
     if truthy tool_calls then
       messages <- extended_messages (JObj follow_up_request) tool_calls ;;
       ret (Continue (<["messages" := messages]> follow_up_request) final_response)
     else ret (Return final_response)
   else
     match final_response with
     | Some final_response => ret (Return final_response)
     | None => raise unbound_final_response
     end)%io.

(** The loop of [handle_tool_calls] with [rounds] passes left, and
    the [raise] after it. *)
Fixpoint follow_up_loop (rounds : nat) (headers : gmap string string)
    (follow_up_request : gmap string json) (final_response : option json)
  : io (system World) json :=
  match rounds with
  | O => raise max_iteration_reached
  | S rounds' =>
      (outcome <- follow_up_round headers follow_up_request final_response ;;
       match outcome with
       | Continue follow_up_request final_response =>
           follow_up_loop rounds' headers follow_up_request (Some final_response)
       | Return response => ret response
       end)%io
  end.

(** The request, the last response and the system after [rounds]
    passes that all went on, that is, that each received a response
    with tool calls and executed them; [None] when an earlier pass
    returned or raised. *)
Fixpoint after_rounds (rounds : nat) (headers : gmap string string)
    (follow_up_request : gmap string json) (final_response : option json)
    (st : system World)
  : option (gmap string json * option json * system World) :=
  match rounds with
  | O => Some (follow_up_request, final_response, st)
  | S rounds' =>
      match follow_up_round headers follow_up_request final_response st with
      | (Ok (Continue follow_up_request final_response), st') =>
          after_rounds rounds' headers follow_up_request (Some final_response) st'
      | _ => None
      end
  end.

(** [handle_tool_calls].  [range(MAX_ITERATION)] is empty for a
    negative bound. *)
Definition handle_tool_calls (tool_calls original_request : json)
    (headers : gmap string string) : io (system World) json :=
  (messages <- extended_messages original_request tool_calls ;;
   match original_request with
   | JObj original_request =>
       let follow_up_request := <["messages" := messages]> original_request in
       let follow_up_request := delete "tool_choice" follow_up_request in
       follow_up_loop (Z.to_nat MAX_ITERATION) headers follow_up_request None
   | _ => raise (Exn AttributeError "object has no attribute 'copy'")
   end)%io.

End Resolver.

(** ** Request forwarder ([main.py]) *)

(** What the handler reads of the inbound [web.Request]. *)
Record web_request : Type := {
  request_method : string;
  request_headers : list (string * string);
  request_body : string
}.

(** The three kinds of response that [proxy_request] builds. *)
Inductive web_response : Type :=
| json_response (data : json) (status : Z)
| Response (body : string) (status : Z) (headers : list (string * string))
| StreamResponse (status : Z) (headers : list (string * string)) (chunks : string).

Definition excluded_headers : list string :=
  [ "host"; "content-length"; "content-encoding"; "connection"; "upgrade";
    "proxy-connection"; "trailer" ].

(** [s.lower()] on ASCII letters. *)
Definition lower_char (c : ascii) : ascii :=
  let n := nat_of_ascii c in
  if (65 <=? n)%nat && (n <=? 90)%nat then ascii_of_nat (n + 32) else c.

Fixpoint lower (s : string) : string :=
  match s with
  | EmptyString => EmptyString
  | String c s' => String (lower_char c) (lower s')
  end.

(** The loop that fills the [headers] dict of [proxy_request]. *)
Fixpoint forwarded_headers (items : list (string * string)) (headers : gmap string string)
  : gmap string string :=
  match items with
  | [] => headers
  | (header_name, header_value) :: rest =>
      forwarded_headers rest
        (if bool_decide (lower header_name ∈ excluded_headers) then headers
         else <[header_name := header_value]> headers)
  end.

(** ["tools" not in request_data] *)
Definition tools_absent (request_data : json) : result bool :=
  match request_data with
  | JObj d => Ok (match d !! "tools" with Some _ => false | None => true end)
  | JArr l => Ok (negb (str_in_list "tools" l))
  | JStr s => Ok (negb (str_in_str "tools" s))
  | _ => Raise (Exn TypeError "argument is not iterable")
  end.

(** [v[k] = x] with a string key. *)
Definition py_setitem (v : json) (k : string) (x : json) : result json :=
  match v with
  | JObj d => Ok (JObj (<[k := x]> d))
  | JArr _ => Raise (Exn TypeError "list indices must be integers or slices, not str")
  | _ => Raise (Exn TypeError "object does not support item assignment")
  end.

(** The loop of [get_mcp_tools] called without [server_names]. *)
Fixpoint collect_tools (servers : list (string * MCPStdioClient)) (tools : list json)
  : result (list json) :=
  match servers with
  | [] => Ok tools
  | (_, mcp_server) :: rest =>
      match openai_tools mcp_server with
      | Some l => collect_tools rest (tools ++ l)
      | None => Raise (Exn TypeError "'NoneType' object is not iterable")
      end
  end.

Definition get_mcp_tools (connected_servers : gmap string MCPStdioClient) : result (list json) :=
  collect_tools (map_to_list connected_servers) [].

Definition invalid_json_body : web_response :=
  json_response (JObj {[ "error" := JStr "Invalid JSON in request body" ]}) 400.

Definition internal_server_error : web_response :=
  json_response (JObj {[ "error" := JStr "Internal server error" ]}) 500.

Definition event_stream_headers : list (string * string) :=
  [ ("Content-Type", "text/event-stream"); ("Cache-Control", "no-cache");
    ("Connection", "keep-alive") ].

Section Forwarder.
Context {py : PyRuntime} {World : Type} {ext : Collaborators World}.
Variables (OPENAI_API_BASE_URL : string) (ENABLE_MCP : bool) (MAX_ITERATION : Z).
Variable connected_servers : gmap string MCPStdioClient.

(** [if inject_tools and "tools" not in request_data: ...] *)
Definition with_tools (inject_tools : bool) (request_data : json) : result json :=
  if inject_tools then
    (absent <- tools_absent request_data ;;
     if absent : bool then
       tools <- get_mcp_tools connected_servers ;;
       py_setitem request_data "tools" (JArr tools)
     else Ok request_data)%result
  else Ok request_data.

(** The part of [proxy_request] under [# Handle non-streaming]. *)
Definition buffered (request_data : json) (headers : gmap string string)
    (response : http_response) : io (system World) web_response :=
  (processed <-
     (if (status response =? 200)%Z && ENABLE_MCP then
        try_except
          (response_data <- lift (loads (content response)) ;;
           tool_calls <- lift (parse_tools_from_response response_data) ;;
           if truthy tool_calls then
             processed_response <-
               handle_tool_calls OPENAI_API_BASE_URL MAX_ITERATION connected_servers
                 tool_calls request_data headers ;;
             ret (Some (json_response processed_response 200))
           else ret None)
          (fun e =>
             if is_subclass (exn_kind e) JSONDecodeError then ret None else raise e)
      else ret None) ;;
   match processed with
   | Some processed => ret processed
   | None =>
       ret (Response (content response) (status response) (response_headers response))
   end)%io.

(** The body of [async with session.request(...) as response]. *)
Definition relay (request_data : json) (headers : gmap string string)
    (response : http_response) : io (system World) web_response :=
  (stream <- lift (py_get request_data "stream" (JBool false)) ;;
   if truthy stream && (status response =? 200)%Z
   then ret (StreamResponse (status response) event_stream_headers (content response))
   else buffered request_data headers response)%io.

(** [proxy_request] *)
Definition proxy_request (path : string) (request : web_request) (inject_tools : bool)
  : io (system World) web_response :=
  let body := request_body request in
  match (if String.eqb body "" then Some (JObj ∅) else json_loads body) with
  | None => ret invalid_json_body
  | Some request_data =>
      let headers := forwarded_headers (request_headers request) ∅ in
      (request_data <- lift (with_tools inject_tools request_data) ;;
       let upstream :=
         {| method := request_method request;
            url := OPENAI_API_BASE_URL +:+ "/" +:+ path;
            headers := headers;
            json_body := if String.eqb body "" then None else Some request_data |} in
       try_except
         (response <- perform (SessionRequest upstream) (session_request upstream) ;;
          relay request_data headers response)
         (fun e => ret internal_server_error))%io
  end.

(** [chat_completions_handler] *)
Definition chat_completions_handler (request : web_request)
  : io (system World) web_response :=
  proxy_request "v1/chat/completions" request true.

End Forwarder.

(** ** Views used to state the properties *)

(** The identifier, the qualified name and the argument text of a tool
    call, when it has them where [execute_tool_calls] reads them. *)
Definition call_view (tool_call : json) : option (json * string * string) :=
  match tool_call with
  | JObj d =>
      match d !! "function", d !! "id" with
      | Some (JObj f), Some tool_call_id =>
          match f !! "name", f !! "arguments" with
          | Some (JStr tool_name), Some (JStr arguments) =>
              Some (tool_call_id, tool_name, arguments)
          | _, _ => None
          end
      | _, _ => None
      end
  | _ => None
  end.

(** The qualified name splits into exactly one provider and one tool,
    and the argument text is valid JSON. *)
Definition well_formed_call {py : PyRuntime} (tool_call : json) : bool :=
  match call_view tool_call with
  | Some (_, tool_name, arguments) =>
      bool_decide (length (py_split "." tool_name) = 2%nat)
      && bool_decide (is_Some (json_loads arguments))
  | None => false
  end.

(** The qualified name does not split into exactly two pieces, or the
    argument text is not valid JSON. *)
Definition malformed_call {py : PyRuntime} (tool_call : json) : bool :=
  match call_view tool_call with
  | Some (_, tool_name, arguments) =>
      negb (bool_decide (length (py_split "." tool_name) = 2%nat))
      || negb (bool_decide (is_Some (json_loads arguments)))
  | None => false
  end.

(** [message] is a tool-result message that answers [tool_call]. *)
Definition answers (tool_call message : json) : Prop :=
  exists tool_call_id tool_name arguments content,
    call_view tool_call = Some (tool_call_id, tool_name, arguments)
    /\ message = tool_message tool_call_id content.

(** The messages of the conversation that an event sends to the
    upstream API, if it is a request with such a body. *)
Definition conversation_sent (ev : event) : option json :=
  match ev with
  | SessionRequest request =>
      match json_body request with
      | Some (JObj body) => body !! "messages"
      | _ => None
      end
  | _ => None
  end.

(** The number of requests to the upstream API among some events. *)
Fixpoint upstream_requests (events : list event) : nat :=
  match events with
  | [] => 0
  | SessionRequest _ :: rest => S (upstream_requests rest)
  | _ :: rest => upstream_requests rest
  end.

(** The number of transports opened among some events. *)
Fixpoint transports_opened (events : list event) : nat :=
  match events with
  | [] => 0
  | EnterStdioClient _ _ :: rest => S (transports_opened rest)
  | _ :: rest => transports_opened rest
  end.

(** The reading of the specification under which [ERROR] is terminal:
    no operation takes a client out of it. *)
Definition error_is_terminal {py : PyRuntime} {World : Type} {ext : Collaborators World}
  : Prop :=
  forall (op : operation) (st : MCPStdioClient * system World),
    state st.1 = ERROR -> state (after op st).1 = ERROR.

(** The trace of [st'] is the trace of [st] followed by events among
    which [requests] are requests to the upstream API. *)
Definition extends {World : Type} (requests : nat) (st st' : system World) : Prop :=
  exists events,
    trace st' = trace st ++ events /\ upstream_requests events = requests.

(** The descriptor file is missing or unreadable (reading it raises)
    or its text is not valid JSON. *)
Definition descriptor_unusable {py : PyRuntime} {World : Type} {ext : Collaborators World}
    (path : string) (w : World) : Prop :=
  match open_read path w with
  | (Raise _, _) => True
  | (Ok text, _) => json_loads text = None
  end.

(** The reading of the specification under which an unusable
    descriptor file halts startup: the startup hook raises. *)
Definition unusable_descriptor_halts_startup
    {py : PyRuntime} {World : Type} {ext : Collaborators World} : Prop :=
  forall (path : string) (connected_servers : gmap string MCPStdioClient)
         (st : system World),
    descriptor_unusable path (world st) ->
    exists e st', init_mcp_servers path connected_servers st = (Raise e, st').

(** ** A scripted world

    A concrete runtime and concrete collaborators, to run the model on
    examples.  The decoder knows the documents of a scenario; files,
    provider catalogues and tool answers are tables; the upstream API
    answers with the next reply of a list. *)

(** JSON text is written with ['] for the double quote. *)
Definition double_quote : ascii := ascii_of_nat 34.

Fixpoint dq (s : string) : string :=
  match s with
  | EmptyString => EmptyString
  | String c s' => String (if Ascii.eqb c "'" then double_quote else c) (dq s')
  end.

Fixpoint assoc {A} (k : string) (table : list (string * A)) : option A :=
  match table with
  | [] => None
  | (k', a) :: rest => if String.eqb k k' then Some a else assoc k rest
  end.

Definition scripted_runtime (documents : list (string * json)) : PyRuntime :=
  {| json_loads := fun s => assoc s documents;
     json_dumps := fun _ => "<json>";
     py_str := fun _ => "<str>" |}.

Record script : Type := {
  files : list (string * string);
  catalogues : list (string * list mcp_tool);
  tool_answers : list (string * json);
  replies : list http_response
}.

Definition refused {A} (what : string) (w : script) : result A * script :=
  (Raise (Exn OSError what), w).

Definition scripted : Collaborators script :=
  {| open_read := fun path w =>
       match assoc path (files w) with
       | Some text => (Ok text, w)
       | None => (Raise (Exn FileNotFoundError "No such file or directory"), w)
       end;
     enter_stdio_client := fun server _ w =>
       match assoc server (catalogues w) with
       | Some _ => (Ok tt, w)
       | None => refused "command not found" w
       end;
     enter_client_session := fun _ w => (Ok tt, w);
     session_initialize := fun _ w => (Ok tt, w);
     session_list_tools := fun server w =>
       match assoc server (catalogues w) with
       | Some catalogue => (Ok catalogue, w)
       | None => refused "not connected" w
       end;
     exit_stack_aclose := fun _ w => (Ok tt, w);
     session_call_tool := fun server tool _ w =>
       match assoc (server +:+ "." +:+ tool) (tool_answers w) with
       | Some answer => (Ok answer, w)
       | None => (Raise (Exn Exception "Unknown tool"), w)
       end;
     session_request := fun _ w =>
       match replies w with
       | reply :: rest =>
           (Ok reply,
            {| files := files w; catalogues := catalogues w;
               tool_answers := tool_answers w; replies := rest |})
       | [] => refused "Cannot connect to host" w
       end |}.

(** A world with no file, no provider and no upstream reply. *)
Definition quiet : script :=
  {| files := []; catalogues := []; tool_answers := []; replies := [] |}.

(** The client for a provider [db] whose command cannot be started,
    before and after a failed [connect]. *)
Definition db_client : MCPStdioClient :=
  new_client "db" {| command := JStr "db-server"; args := JArr []; env := JNull |}.

Definition failed_db_client : MCPStdioClient * system script :=
  (connect (py := scripted_runtime []) (ext := scripted) (db_client, System quiet [])).2.

(** A tool call as the upstream API emits it. *)
Definition tool_call (id tool_name arguments : string) : json :=
  JObj {[ "id" := JStr id; "type" := JStr "function";
          "function" := JObj {[ "name" := JStr tool_name;
                                "arguments" := JStr arguments ]} ]}.

(** A conversation: the request of the caller, a completion that
    calls the tool [read] of the provider [files], and a completion
    that calls no tool; each with its JSON text. *)
Definition user_request_text : string :=
  dq "{'messages': [{'role': 'user', 'content': 'read a.txt'}]}".

Definition user_request : json :=
  JObj {[ "messages" :=
            JArr [ JObj {[ "role" := JStr "user"; "content" := JStr "read a.txt" ]} ] ]}.

Definition tool_round_text : string :=
  dq ("{'choices': [{'message': {'role': 'assistant', 'tool_calls': "
      +:+ "[{'id': 'call_1', 'type': 'function', "
      +:+ "'function': {'name': 'files.read', 'arguments': '{}'}}]}}]}").

Definition tool_round : json :=
  JObj {[ "choices" :=
            JArr [ JObj {[ "message" :=
                     JObj {[ "role" := JStr "assistant";
                             "tool_calls" :=
                               JArr [ tool_call "call_1" "files.read" "{}" ] ]} ]} ] ]}.

Definition final_round_text : string :=
  dq "{'choices': [{'message': {'role': 'assistant', 'content': 'done'}}]}".

Definition final_round : json :=
  JObj {[ "choices" :=
            JArr [ JObj {[ "message" :=
                     JObj {[ "role" := JStr "assistant"; "content" := JStr "done" ]} ]} ] ]}.

(** The decoder of the examples: it knows the argument text [{}] and
    the texts of the conversation. *)
Definition example_runtime : PyRuntime :=
  scripted_runtime
    [ ("{}", JObj ∅);
      (user_request_text, user_request);
      (tool_round_text, tool_round);
      (final_round_text, final_round) ].

(** A world in which the provider [files] starts and answers [hello]
    to [read], and the upstream API gives [replies] in turn. *)
Definition example_world (replies : list http_response) : script :=
  {| files := [];
     catalogues := [ ("files", [ ToolObject "read" (Some "Read a file") ∅ ]) ];
     tool_answers := [ ("files.read", JStr "hello") ];
     replies := replies |}.

(** The client of [files] after its [connect], and the registry that
    holds it. *)
Definition files_client : MCPStdioClient :=
  (connect (py := example_runtime) (ext := scripted)
     (new_client "files" {| command := JStr "files-server"; args := JArr []; env := JNull |},
      System (example_world []) [])).2.1.

Definition example_registry : gmap string MCPStdioClient :=
  {[ "files" := files_client ]}.

Definition ok_reply (text : string) : http_response :=
  {| status := 200;
     response_headers := [ ("Content-Type", "application/json") ];
     content := text |}.

Definition unavailable : http_response :=
  {| status := 503;
     response_headers := [ ("Retry-After", "1") ];
     content := "upstream unavailable" |}.

Definition chat_request : web_request :=
  {| request_method := "POST";
     request_headers := [ ("Host", "proxy:8000"); ("Content-Type", "application/json") ];
     request_body := user_request_text |}.

(** The proxy of the examples handling [chat_request] with the given
    bound on the rounds and the given upstream replies. *)
Definition example_run (max_iteration : Z) (replies : list http_response)
  : result web_response * system script :=
  chat_completions_handler (py := example_runtime) (ext := scripted)
    "http://upstream:9091" true max_iteration example_registry chat_request
    (System (example_world replies) []).

(** ** Further views *)

(** [sep.join(pieces)] *)
Fixpoint py_join (sep : string) (pieces : list string) : string :=
  match pieces with
  | [] => ""
  | [piece] => piece
  | piece :: rest => piece +:+ sep +:+ py_join sep rest
  end.

(** The number of ['.'] in [s]. *)
Fixpoint dots (s : string) : nat :=
  match s with
  | EmptyString => 0
  | String c s' => if Ascii.eqb c "." then S (dots s') else dots s'
  end.

(** The translation of one entry of a catalogue, when it has one. *)
Definition translated {py : PyRuntime} (namespace : string) (t : mcp_tool) : option json :=
  match _convert_single_tool namespace t with
  | Ok openai_tool => Some openai_tool
  | Raise _ => None
  end.

(** The entry is a plain [dict], not a tool object. *)
Definition is_tool_dict (t : mcp_tool) : bool :=
  match t with
  | ToolDict _ => true
  | ToolObject _ _ _ => false
  end.

(** The entry is a plain [dict] or a tool object with a name. *)
Definition named_if_object (t : mcp_tool) : bool :=
  match t with
  | ToolDict _ => true
  | ToolObject name _ _ => negb (String.eqb name "")
  end.

(** The parameters that [create_stdio_client] reads off a descriptor:
    [args or []] and [env or None] for absent or empty values. *)
Definition descriptor_params (descriptor : gmap string json) : StdioServerParameters :=
  {| command := default JNull (descriptor !! "command");
     args := py_or (default JNull (descriptor !! "args")) (JArr []);
     env := py_or (default JNull (descriptor !! "env")) JNull |}.

(** A client that the proxy can use: connected, with a session and a
    translated catalogue. *)
Definition usable (client : MCPStdioClient) : Prop :=
  state client = CONNECTED
  /\ is_Some (session client)
  /\ is_Some (openai_tools client).

#[global] Instance usable_dec (client : MCPStdioClient) : Decision (usable client).
Proof. unfold usable. apply _. Defined.

(** A descriptor file with a Stdio provider and an Sse provider, and
    one in which the entry of a provider is a string; each with its
    JSON text. *)
Definition mcp_config_text : string :=
  dq ("{'mcpServers': {'files': {'command': 'files-server'}, "
      +:+ "'search': {'url': 'http://localhost:9000/sse'}}}").

Definition mcp_config : gmap string json :=
  {[ "mcpServers" :=
       JObj {[ "files" := JObj {[ "command" := JStr "files-server" ]};
               "search" := JObj {[ "url" := JStr "http://localhost:9000/sse" ]} ]} ]}.

Definition broken_config_text : string :=
  dq "{'mcpServers': {'files': {'command': 'files-server'}, 'db': 'db-server'}}".

Definition broken_config : gmap string json :=
  {[ "mcpServers" :=
       JObj {[ "files" := JObj {[ "command" := JStr "files-server" ]};
               "db" := JStr "db-server" ]} ]}.

Definition config_runtime : PyRuntime :=
  scripted_runtime
    [ (mcp_config_text, JObj mcp_config); (broken_config_text, JObj broken_config) ].

(** A world whose descriptor file has the given text and in which the
    provider [files] starts. *)
Definition configured_world (text : string) : script :=
  {| files := [ ("/config/mcp_config.json", text) ];
     catalogues := [ ("files", [ ToolObject "read" (Some "Read a file") ∅ ]) ];
     tool_answers := [ ("files.read", JStr "hello") ];
     replies := [] |}.


(** The value at [choices[0].message.tool_calls] of a completion
    whose [choices] is a list, whose first choice is a [dict] and
    whose message is a [dict]. *)
Definition tool_calls_at (response_data : json) : option json :=
  match response_data with
  | JObj d =>
      match d !! "choices" with
      | Some (JArr (JObj first :: _)) =>
          match first !! "message" with
          | Some (JObj message) => message !! "tool_calls"
          | _ => None
          end
      | _ => None
      end
  | _ => None
  end.

(** What [execute_tool_calls] asks of the providers for one tool
    call: one invocation when the call can be read and its provider
    is registered, connected and has a session, and nothing
    otherwise. *)
Definition invocation {py : PyRuntime} (connected_servers : gmap string MCPStdioClient)
    (tool_call : json) : list event :=
  match read_tool_call tool_call with
  | Ok (_, tool_args, namespace, tool_name) =>
      match connected_servers !! namespace with
      | Some mcp_tool =>
          if is_connected mcp_tool && bool_decide (is_Some (session mcp_tool))
          then [SessionCallTool (name mcp_tool) tool_name tool_args]
          else []
      | None => []
      end
  | Raise _ => []
  end.

(** The value of the last item of [items] whose name is
    [header_name], with the case of the name as it is. *)
Fixpoint last_value (header_name : string) (items : list (string * string))
  : option string :=
  match items with
  | [] => None
  | (name, value) :: rest =>
      match last_value header_name rest with
      | Some later => Some later
      | None => if String.eqb name header_name then Some value else None
      end
  end.

(** The translated catalogue of a client, empty when it has none. *)
Definition catalogue_of (server : string * MCPStdioClient) : list json :=
  default [] (openai_tools server.2).

(** The body of a follow-up request made for the request [original]:
    it has [messages], it has no [tool_choice], and it agrees with
    [original] on every other key. *)
Definition follow_up_body (original body : gmap string json) : Prop :=
  is_Some (body !! "messages")
  /\ body !! "tool_choice" = None
  /\ forall key, key <> "messages" -> key <> "tool_choice" ->
       body !! key = original !! key.

(** What the resolution of the tool calls of a request may do
    outside: invoke a tool, or send a follow-up request, which is a
    [POST] to [target] with the headers [forwarded] and with a
    follow-up body for the request. *)
Definition follow_up_event (target : string) (forwarded : gmap string string)
    (original : gmap string json) (ev : event) : Prop :=
  match ev with
  | SessionCallTool _ _ _ => True
  | SessionRequest request =>
      method request = "POST"
      /\ url request = target
      /\ headers request = forwarded
      /\ exists body,
           json_body request = Some (JObj body) /\ follow_up_body original body
  | _ => False
  end.

(** The messages of a request, when [messages] is a list. *)
Definition messages_of (request : gmap string json) : list json :=
  match request !! "messages" with
  | Some (JArr messages) => messages
  | _ => []
  end.

(** Each conversation of [sent] is a list that starts with the one
    before it, the first one with [previous]. *)
Fixpoint grows (previous : list json) (sent : list json) : Prop :=
  match sent with
  | [] => True
  | JArr messages :: later => previous `prefix_of` messages /\ grows messages later
  | _ :: _ => False
  end.

(** A streaming request, with its JSON text, and the answer of the
    upstream API to it. *)
Definition stream_request_text : string :=
  dq "{'stream': true, 'tools': [], 'messages': []}".

Definition stream_request : json :=
  JObj {[ "stream" := JBool true; "tools" := JArr []; "messages" := JArr [] ]}.

Definition stream_runtime : PyRuntime :=
  scripted_runtime [ (stream_request_text, stream_request) ].

Definition stream_reply : http_response :=
  {| status := 200;
     response_headers := [ ("Content-Type", "text/event-stream") ];
     content := "data: [DONE]" |}.

Definition stream_chat_request : web_request :=
  {| request_method := "POST";
     request_headers := [ ("Host", "proxy:8000"); ("Accept", "text/event-stream") ];
     request_body := stream_request_text |}.

(** * Properties *)

(** ** Schema translator *)

Lemma ensure_key_lookup (key : string) (value : json) (schema : gmap string json) :
  ensure_key key value schema !! key = Some (default value (schema !! key)).
Proof.
  unfold ensure_key.
  destruct (schema !! key) as [present|] eqn:Hkey; simpl.
  - exact Hkey.
  - apply lookup_insert_eq.
Qed.

Lemma ensure_key_lookup_ne (key other : string) (value : json) (schema : gmap string json) :
  other <> key -> ensure_key key value schema !! other = schema !! other.
Proof.
  intros Hne. unfold ensure_key.
  destruct (schema !! key); [reflexivity|].
  apply lookup_insert_ne. congruence.
Qed.

Lemma not_elem_of_three (key a b c : string) :
  key ∉ [a; b; c] -> key <> a /\ key <> b /\ key <> c.
Proof.
  intros Hnot. repeat split; intros ->; apply Hnot; set_solver.
Qed.

(** C9. For every input schema, [_convert_input_schema] returns a
    parameters object that has the keys [type], [properties] and
    [required], each with the value of the input schema when it has
    the key and with the default (["object"], [{}], [[]]) otherwise,
    and that agrees with the input schema on every other key. *)
Theorem convert_input_schema_normalizes (schema : gmap string json) :
  exists parameters,
    _convert_input_schema (JObj schema) = Ok (JObj parameters)
    /\ parameters !! "type" = Some (default (JStr "object") (schema !! "type"))
    /\ parameters !! "properties" = Some (default (JObj ∅) (schema !! "properties"))
    /\ parameters !! "required" = Some (default (JArr []) (schema !! "required"))
    /\ forall key, key ∉ ["type"; "properties"; "required"] ->
         parameters !! key = schema !! key.
Proof.
  unfold _convert_input_schema. simpl.
  case_bool_decide as Hempty; simpl.
  - subst schema. exists empty_parameters.
    split; [reflexivity|].
    repeat split; try reflexivity.
    intros key Hkey. apply not_elem_of_three in Hkey as (Ht & Hp & Hr).
    unfold empty_parameters.
    rewrite !lookup_insert_ne by congruence.
    rewrite lookup_singleton_ne by congruence.
    symmetry. apply lookup_empty.
  - eexists. split; [reflexivity|].
    repeat split.
    + rewrite !ensure_key_lookup_ne by discriminate. apply ensure_key_lookup.
    + rewrite ensure_key_lookup_ne by discriminate.
      rewrite ensure_key_lookup.
      rewrite ensure_key_lookup_ne by discriminate. reflexivity.
    + rewrite ensure_key_lookup.
      rewrite !ensure_key_lookup_ne by discriminate. reflexivity.
    + intros key Hkey. apply not_elem_of_three in Hkey as (Ht & Hp & Hr).
      rewrite !ensure_key_lookup_ne by assumption. reflexivity.
Qed.

Lemma py_split_dotless (s : string) :
  dotless s = true -> py_split "." s = [s].
Proof.
  induction s as [|c s IH]; simpl; [reflexivity|].
  intros Hdot. apply andb_true_iff in Hdot as [Hc Hs].
  destruct (Ascii.eqb c "."); [discriminate|].
  rewrite (IH Hs). reflexivity.
Qed.

Lemma py_split_prefix (prefix rest : string) :
  dotless prefix = true ->
  py_split "." (prefix +:+ "." +:+ rest) = prefix :: py_split "." rest.
Proof.
  induction prefix as [|c prefix IH]; simpl; [reflexivity|].
  intros Hdot. apply andb_true_iff in Hdot as [Hc Hs].
  destruct (Ascii.eqb c "."); [discriminate|].
  simpl in IH. rewrite (IH Hs). reflexivity.
Qed.

Lemma split_qualified_round_trip (namespace tool_name : string) :
  dotless namespace = true -> dotless tool_name = true ->
  split_qualified (namespace +:+ "." +:+ tool_name) = Ok (namespace, tool_name).
Proof.
  intros Hn Ht. unfold split_qualified.
  rewrite (py_split_prefix _ _ Hn), (py_split_dotless _ Ht). reflexivity.
Qed.

Lemma truthy_name (s : string) : truthy (JStr s) = true <-> s <> "".
Proof.
  simpl. destruct (String.eqb_spec s ""); simpl; split; congruence.
Qed.

(** C8. A tool that a provider declares under a name without ['.'],
    translated for a provider whose name has no ['.'], is exposed as
    provider + "." + name; the translation succeeds whenever the name
    is not empty and the input schema converts; and the split step of
    [execute_tool_calls] maps the exposed name back to the pair of
    provider and name. *)
Theorem qualified_name_round_trip {py : PyRuntime}
    (namespace original_name : string) (t : mcp_tool) :
  declared_name t = Some original_name ->
  dotless namespace = true ->
  dotless original_name = true ->
  (forall openai_tool,
     _convert_single_tool namespace t = Ok openai_tool ->
     qualified_name openai_tool = Some (namespace +:+ "." +:+ original_name))
  /\ (original_name <> "" ->
      (exists parameters, _convert_input_schema (tool_fields t).2 = Ok parameters) ->
      exists openai_tool, _convert_single_tool namespace t = Ok openai_tool)
  /\ split_qualified (namespace +:+ "." +:+ original_name) = Ok (namespace, original_name).
Proof.
  intros Hname Hns Htool.
  assert (Hfield : (tool_fields t).1.1 = JStr original_name).
  { destruct t as [n d s|d]; simpl in *.
    - congruence.
    - destruct (d !! "name") as [[]|]; simpl; congruence. }
  split; [|split].
  - intros openai_tool. unfold _convert_single_tool.
    destruct (tool_fields t) as [[name description] input_schema].
    simpl in Hfield. subst name.
    destruct (negb (truthy (JStr original_name))); [discriminate|].
    destruct (_convert_input_schema input_schema) as [parameters|e]; simpl; [|discriminate].
    intros [= <-]. reflexivity.
  - intros Hnonempty [parameters Hparameters]. unfold _convert_single_tool.
    destruct (tool_fields t) as [[name description] input_schema].
    simpl in Hfield, Hparameters. subst name.
    apply truthy_name in Hnonempty. rewrite Hnonempty. simpl.
    rewrite Hparameters. simpl. eexists. reflexivity.
  - apply split_qualified_round_trip; assumption.
Qed.

(** The tool [read] of the provider [files] is exposed as
    [files.read], which splits back into [files] and [read]. *)
Lemma qualified_name_round_trip_witness :
  declared_name (ToolObject "read" None ∅) = Some "read"
  /\ dotless "files" = true
  /\ dotless "read" = true
  /\ (exists openai_tool,
        _convert_single_tool (py := scripted_runtime []) "files" (ToolObject "read" None ∅)
          = Ok openai_tool
        /\ qualified_name openai_tool = Some "files.read")
  /\ split_qualified "files.read" = Ok ("files", "read").
Proof.
  split; [reflexivity|]. split; [reflexivity|]. split; [reflexivity|].
  destruct (qualified_name_round_trip (py := scripted_runtime [])
              "files" "read" (ToolObject "read" None ∅)
              eq_refl eq_refl eq_refl) as (Hexposed & Htranslates & Hsplit).
  split; [|exact Hsplit].
  destruct Htranslates as [openai_tool Htool];
    [discriminate | eexists; reflexivity |].
  exists openai_tool. split; [exact Htool | apply Hexposed, Htool].
Defined.

(** ** Config resolver *)

Lemma build_values_raises (fs : list field) (data init_values : gmap string json) (e : exn) :
  build_values fs data init_values = Raise e -> exn_kind e = DaciteError.
Proof.
  revert init_values.
  induction fs as [|f fs IH]; intros init_values; simpl; [discriminate|].
  destruct (data !! field_name f) as [value|].
  - destruct (is_instance value (field_type f)); [apply IH|].
    intros [= <-]. reflexivity.
  - destruct (field_default f) as [value|]; [apply IH|].
    intros [= <-]. reflexivity.
Qed.

Lemma build_values_required (fs : list field) (data init_values values : gmap string json) :
  build_values fs data init_values = Ok values ->
  forall f, f ∈ fs -> field_default f = None -> field_name f ∈ dom data.
Proof.
  revert init_values.
  induction fs as [|f fs IH]; intros init_values Hbuild g Hg Hrequired.
  - inversion Hg.
  - simpl in Hbuild.
    apply elem_of_cons in Hg as [->|Hg].
    + destruct (data !! field_name f) as [value|] eqn:Hvalue.
      * apply elem_of_dom. eauto.
      * rewrite Hrequired in Hbuild. discriminate.
    + destruct (data !! field_name f) as [value|].
      * destruct (is_instance value (field_type f)); [|discriminate]. eauto.
      * destruct (field_default f); [|discriminate]. eauto.
Qed.

Lemma from_dict_raises (data_class : config_class) (data : gmap string json) (e : exn) :
  from_dict data_class (JObj data) = Raise e -> exn_kind e = DaciteError.
Proof.
  unfold from_dict. case_bool_decide.
  - destruct (build_values _ _ _) eqn:Hbuild; simpl; [discriminate|].
    intros [= <-]. eapply build_values_raises, Hbuild.
  - intros [= <-]. reflexivity.
Qed.

Lemma from_dict_strict (data_class : config_class) (data : gmap string json)
    (config : server_config) :
  from_dict data_class (JObj data) = Ok config ->
  config_type config = data_class
  /\ (forall key, key ∈ dom data -> key ∈ field_name <$> fields data_class)
  /\ (forall f, f ∈ fields data_class -> field_default f = None -> field_name f ∈ dom data).
Proof.
  unfold from_dict. case_bool_decide as Hkeys; [|discriminate].
  destruct (build_values _ _ _) as [values|] eqn:Hbuild; simpl; [|discriminate].
  intros [= <-]. split; [reflexivity|]. split.
  - intros key Hkey. apply Hkeys in Hkey.
    unfold field_names in Hkey. apply elem_of_list_to_set in Hkey. exact Hkey.
  - eapply build_values_required, Hbuild.
Qed.

Lemma parse_config_cases (data : gmap string json) :
  _parse_config (JObj data) =
    match from_dict StdioServerConfig (JObj data) with
    | Ok config => Ok config
    | Raise _ =>
        match from_dict SSEServerConfig (JObj data) with
        | Ok config => Ok config
        | Raise _ => Raise no_known_type
        end
    end.
Proof.
  unfold _parse_config, _config_types. cbn [parse_config_loop].
  destruct (from_dict StdioServerConfig (JObj data)) as [config|e] eqn:Hstdio; [reflexivity|].
  rewrite (from_dict_raises _ _ _ Hstdio). cbn [is_subclass bool_decide decide_rel orb].
  change (is_subclass DaciteError DaciteError) with true. cbv iota.
  destruct (from_dict SSEServerConfig (JObj data)) as [config|e'] eqn:Hsse; [reflexivity|].
  rewrite (from_dict_raises _ _ _ Hsse).
  change (is_subclass DaciteError DaciteError) with true. reflexivity.
Qed.

(** C4. For every descriptor, [_parse_config] tries the Stdio variant
    and then the Sse variant and returns the first one that
    [from_dict] accepts, or raises the classification error when
    neither is accepted (a [result] is never both).  Matching is
    strict: an accepted descriptor has no key outside the fields of the
    variant and has every field without default.  A descriptor with a
    [url] key and no [command] key is never accepted as Stdio: it
    resolves to the Sse variant whenever that variant accepts it, and
    to no variant otherwise. *)
Theorem parse_config_first_match (descriptor : gmap string json) :
  _parse_config (JObj descriptor) =
    match from_dict StdioServerConfig (JObj descriptor) with
    | Ok config => Ok config
    | Raise _ =>
        match from_dict SSEServerConfig (JObj descriptor) with
        | Ok config => Ok config
        | Raise _ => Raise no_known_type
        end
    end
  /\ (forall variant config,
        from_dict variant (JObj descriptor) = Ok config ->
        config_type config = variant
        /\ (forall key, key ∈ dom descriptor -> key ∈ field_name <$> fields variant)
        /\ (forall f, f ∈ fields variant -> field_default f = None ->
              field_name f ∈ dom descriptor))
  /\ ("url" ∈ dom descriptor -> "command" ∉ dom descriptor ->
        matches StdioServerConfig (JObj descriptor) = false
        /\ (forall config, _parse_config (JObj descriptor) = Ok config ->
              config_type config = SSEServerConfig)
        /\ (matches SSEServerConfig (JObj descriptor) = true ->
              exists config, _parse_config (JObj descriptor) = Ok config
                             /\ config_type config = SSEServerConfig)
        /\ (matches SSEServerConfig (JObj descriptor) = false ->
              _parse_config (JObj descriptor) = Raise no_known_type)).
Proof.
  split; [apply parse_config_cases|].
  split; [intros variant config; apply from_dict_strict|].
  intros Hurl Hcommand.
  assert (Hstdio : exists e, from_dict StdioServerConfig (JObj descriptor) = Raise e).
  { destruct (from_dict StdioServerConfig (JObj descriptor)) as [config|e] eqn:Hfrom; [|eauto].
    apply from_dict_strict in Hfrom as (_ & _ & Hrequired).
    exfalso. apply Hcommand.
    apply (Hrequired (Field "command" TStr None)); [|reflexivity].
    simpl. set_solver. }
  destruct Hstdio as [e Hstdio].
  rewrite parse_config_cases. unfold matches. rewrite Hstdio.
  split; [reflexivity|].
  destruct (from_dict SSEServerConfig (JObj descriptor)) as [config|e'] eqn:Hsse.
  - split; [|split].
    + intros config' [= <-]. apply (from_dict_strict _ _ _ Hsse).
    + intros _. exists config. split; [reflexivity|]. apply (from_dict_strict _ _ _ Hsse).
    + discriminate.
  - split; [|split].
    + discriminate.
    + discriminate.
    + reflexivity.
Qed.

(** A descriptor with only a [url] resolves to the Sse variant. *)
Lemma parse_config_first_match_witness :
  let descriptor : gmap string json := {[ "url" := JStr "http://localhost:8080/sse" ]} in
  ("url" ∈ dom descriptor)
  /\ ("command" ∉ dom descriptor)
  /\ matches SSEServerConfig (JObj descriptor) = true
  /\ (exists config, _parse_config (JObj descriptor) = Ok config
                     /\ config_type config = SSEServerConfig).
Proof.
  intros descriptor.
  assert (Hurl : "url" ∈ dom descriptor).
  { unfold descriptor. rewrite dom_singleton_L. set_solver. }
  assert (Hcommand : "command" ∉ dom descriptor).
  { unfold descriptor. rewrite dom_singleton_L. set_solver. }
  assert (Hsse : matches SSEServerConfig (JObj descriptor) = true) by reflexivity.
  split; [exact Hurl|]. split; [exact Hcommand|]. split; [exact Hsse|].
  destruct (parse_config_first_match descriptor) as (_ & _ & Hnetwork).
  destruct (Hnetwork Hurl Hcommand) as (_ & _ & Haccepted & _).
  exact (Haccepted Hsse).
Defined.

(** ** Tool client state machine *)

Section ClientProperties.
Context {py : PyRuntime} {World : Type} {ext : Collaborators World}.

(** Unfold the combinators of a method body and case on the outcome
    of each awaited operation. *)
Ltac await_all :=
  repeat
    (match goal with
     | |- context [enter_stdio_client ?a ?b ?c] =>
         destruct (enter_stdio_client a b c) as [[?|?] ?]
     | |- context [enter_client_session ?a ?b] =>
         destruct (enter_client_session a b) as [[?|?] ?]
     | |- context [session_initialize ?a ?b] =>
         destruct (session_initialize a b) as [[?|?] ?]
     | |- context [session_list_tools ?a ?b] =>
         destruct (session_list_tools a b) as [[?|?] ?]
     | |- context [exit_stack_aclose ?a ?b] =>
         destruct (exit_stack_aclose a b) as [[?|?] ?]
     | |- context [_convert_mcp_tools_to_openai ?a ?b] =>
         destruct (_convert_mcp_tools_to_openai a b)
     end;
     cbn -[_convert_mcp_tools_to_openai]).

Ltac run_method :=
  unfold connect, connect_attempt, disconnect, aclose, with_self, assign, try_except,
    bind, local, inner, update, perform, lift, ret, raise;
  cbn -[_convert_mcp_tools_to_openai];
  try (case_bool_decide; [congruence|]);
  cbn -[_convert_mcp_tools_to_openai];
  await_all.

Ltac trace_extension :=
  repeat rewrite <- app_assoc; cbn [app]; eexists; split; [reflexivity|reflexivity].

(** A [connect] on a client that is not connected makes one attempt:
    the client is [CONNECTED] when the call returns and [ERROR] when
    it raises, and one transport has been opened. *)
Lemma connect_outcome (st : MCPStdioClient * system World) :
  state st.1 <> CONNECTED ->
  match connect st with
  | (Ok _, st') => state st'.1 = CONNECTED
  | (Raise _, st') => state st'.1 = ERROR
  end
  /\ exists events, trace (connect st).2.2 = trace st.2 ++ events
                    /\ transports_opened events = 1%nat.
Proof.
  destruct st as [self st]. cbn [fst snd]. intros Hstate.
  split.
  - run_method; reflexivity.
  - run_method; trace_extension.
Qed.

(** A [disconnect] leaves the client [DISCONNECTED] when it returns
    and in its previous state when closing the transport raises. *)
Lemma disconnect_outcome (st : MCPStdioClient * system World) :
  match disconnect st with
  | (Ok _, st') => state st'.1 = DISCONNECTED
  | (Raise _, st') => state st'.1 = state st.1
  end.
Proof.
  destruct st as [self st]. cbn [fst snd].
  unfold disconnect, with_self. cbn [fst].
  case_bool_decide as Hstate; [exact Hstate|].
  destruct (exit_stack self) eqn:Hstack.
  - unfold aclose, with_self, assign, bind, local, inner, update, perform.
    cbn. rewrite Hstack. await_all; reflexivity.
  - unfold aclose, with_self, assign, bind, local, inner, update, raise.
    cbn. rewrite Hstack. reflexivity.
Qed.

(** C7, amended. A client in [ERROR] stays there under [list_tools]
    and [call_tool], which both raise without touching the client or
    the outside world.  An explicit [connect] makes exactly one new
    attempt and leaves the client [CONNECTED] when it returns and
    [ERROR] when it raises; an explicit [disconnect] leaves it
    [DISCONNECTED] when it returns and [ERROR] when it raises. *)
Theorem error_state_transitions (st : MCPStdioClient * system World) :
  state st.1 = ERROR ->
  (exists e, list_tools st.1 = Raise e)
  /\ after OpListTools st = st
  /\ (forall tool arguments,
        (exists e, call_tool st.1 tool arguments st.2 = (Raise e, st.2))
        /\ after (OpCallTool tool arguments) st = st)
  /\ match connect st with
     | (Ok _, st') => state st'.1 = CONNECTED
     | (Raise _, st') => state st'.1 = ERROR
     end
  /\ (exists events, trace (connect st).2.2 = trace st.2 ++ events
                     /\ transports_opened events = 1%nat)
  /\ match disconnect st with
     | (Ok _, st') => state st'.1 = DISCONNECTED
     | (Raise _, st') => state st'.1 = ERROR
     end.
Proof.
  intros Herror.
  assert (Hnot : is_connected st.1 = false).
  { unfold is_connected. rewrite Herror. reflexivity. }
  split; [|split; [|split; [|split; [|split]]]].
  - unfold list_tools. rewrite Hnot. simpl. eauto.
  - reflexivity.
  - intros tool arguments.
    assert (Hcall : call_tool st.1 tool arguments st.2
                    = (Raise (Exn RuntimeError ("Not connected to " +:+ name st.1)), st.2)).
    { unfold call_tool. rewrite Hnot. reflexivity. }
    split; [eauto|].
    unfold after. rewrite Hcall. destruct st; reflexivity.
  - apply connect_outcome. congruence.
  - apply connect_outcome. congruence.
  - pose proof (disconnect_outcome st) as Hout.
    destruct (disconnect st) as [[]]; congruence.
Qed.

End ClientProperties.

(** The client of the example is in [ERROR] after its failed
    [connect]. *)
Lemma failed_db_client_state : state failed_db_client.1 = ERROR.
Proof. reflexivity. Qed.

(** C7, as stated, fails: [disconnect] takes the client that failed to
    connect from [ERROR] to [DISCONNECTED]. *)
Lemma error_is_not_terminal :
  ~ error_is_terminal (py := scripted_runtime []) (ext := scripted).
Proof.
  intros Hterminal.
  specialize (Hterminal OpDisconnect failed_db_client failed_db_client_state).
  vm_compute in Hterminal. discriminate.
Qed.

(** The client that failed to connect is in [ERROR], and its
    [disconnect] returns and leaves it [DISCONNECTED]. *)
Lemma error_state_transitions_witness :
  state failed_db_client.1 = ERROR
  /\ state (disconnect (ext := scripted) failed_db_client).2.1
     = DISCONNECTED.
Proof.
  split; [reflexivity|].
  destruct (error_state_transitions (py := scripted_runtime []) (ext := scripted)
              failed_db_client failed_db_client_state)
    as (_ & _ & _ & _ & _ & Hdisconnect).
  destruct (disconnect failed_db_client) as [[[]|e] st'] eqn:Hrun.
  - exact Hdisconnect.
  - vm_compute in Hrun. discriminate.
Defined.

(** ** Client registry *)

Section RegistryProperties.
Context {py : PyRuntime} {World : Type} {ext : Collaborators World}.

(** Whatever a failed read or a failed decoding raises,
    [load_mcp_servers] raises in turn. *)
Lemma load_mcp_servers_unusable (path : string) (st : system World) :
  descriptor_unusable path (world st) ->
  exists e w,
    load_mcp_servers path st = (Raise e, System w (trace st ++ [OpenRead path])).
Proof.
  unfold descriptor_unusable, load_mcp_servers, try_except, bind, perform, lift, loads.
  destruct (open_read path (world st)) as [[text|e] w]; intros Hunusable.
  - rewrite Hunusable. cbn. eauto.
  - cbn. unfold raise.
    destruct (is_subclass (exn_kind e) FileNotFoundError); [eauto|].
    destruct (is_subclass (exn_kind e) JSONDecodeError); eauto.
Qed.

Lemma connect_all_returns (servers : list (string * MCPStdioClient))
    (connected_servers : gmap string MCPStdioClient) (st : system World) :
  exists connected st', connect_all servers connected_servers st = (Ok connected, st').
Proof.
  revert connected_servers st.
  induction servers as [|[server_name mcp_server] rest IH]; intros connected_servers st.
  - cbn. unfold ret. eauto.
  - cbn [connect_all].
    destruct (connect (mcp_server, st)) as [[[]|e] [mcp_server' st']]; apply IH.
Qed.

(** The startup hook never raises: every exception is caught. *)
Lemma init_mcp_servers_returns (path : string)
    (connected_servers : gmap string MCPStdioClient) (st : system World) :
  exists connected st', init_mcp_servers path connected_servers st = (Ok connected, st').
Proof.
  unfold init_mcp_servers, try_except, bind.
  destruct (load_mcp_servers path st) as [[mcp_servers|e] st1].
  - destruct (connect_all_returns (map_to_list mcp_servers) connected_servers st1)
      as (connected & st' & Hall).
    rewrite Hall. eauto.
  - unfold ret. eauto.
Qed.

(** C6, amended. When the descriptor file is missing, unreadable or
    not valid JSON, [load_mcp_servers] raises, and the startup hook
    [init_mcp_servers] catches the exception and returns normally
    with the registry of connected providers unchanged: startup goes
    on without tool providers. *)
Theorem unusable_descriptor_is_caught (path : string)
    (connected_servers : gmap string MCPStdioClient) (st : system World) :
  descriptor_unusable path (world st) ->
  exists e st',
    load_mcp_servers path st = (Raise e, st')
    /\ init_mcp_servers path connected_servers st = (Ok connected_servers, st').
Proof.
  intros Hunusable.
  destruct (load_mcp_servers_unusable path st Hunusable) as (e & w & Hload).
  exists e, (System w (trace st ++ [OpenRead path])).
  split; [exact Hload|].
  unfold init_mcp_servers, try_except, bind. rewrite Hload. reflexivity.
Qed.

End RegistryProperties.

(** C6, as stated, fails: with no descriptor file at all the startup
    hook returns normally, so startup is not halted. *)
Lemma unusable_descriptor_does_not_halt_startup :
  ~ unusable_descriptor_halts_startup (py := scripted_runtime []) (ext := scripted).
Proof.
  intros Hhalts.
  destruct (Hhalts "/config/mcp_config.json" ∅ (System quiet [])) as (e & st' & Hinit).
  - exact I.
  - vm_compute in Hinit. discriminate.
Qed.

(** With no descriptor file, the startup hook returns the empty
    registry. *)
Lemma unusable_descriptor_is_caught_witness :
  descriptor_unusable (py := scripted_runtime []) (ext := scripted)
    "/config/mcp_config.json" quiet
  /\ exists st',
       init_mcp_servers (py := scripted_runtime []) (ext := scripted)
         "/config/mcp_config.json" ∅ (System quiet []) = (Ok ∅, st').
Proof.
  split; [exact I|].
  destruct (unusable_descriptor_is_caught (py := scripted_runtime []) (ext := scripted)
              "/config/mcp_config.json" ∅ (System quiet []) I)
    as (e & st' & _ & Hinit).
  exists st'. exact Hinit.
Defined.

(** ** Batch execution *)

Lemma py_getitem_Ok (v : json) (k : string) (x : json) :
  py_getitem v k = Ok x -> exists d, v = JObj d /\ d !! k = Some x.
Proof.
  destruct v as [| | | | |l|d]; simpl; try discriminate.
  destruct (d !! k) as [y|] eqn:Hk; [|discriminate].
  intros [= <-]. eauto.
Qed.

Lemma split_qualified_Ok (s namespace tool_name : string) :
  split_qualified s = Ok (namespace, tool_name) <-> py_split "." s = [namespace; tool_name].
Proof.
  unfold split_qualified.
  destruct (py_split "." s) as [|a [|b [|c l]]]; split; intros Heq;
    try discriminate; congruence.
Qed.

Lemma split_qualified_raises (s : string) :
  length (py_split "." s) <> 2%nat ->
  exists e, split_qualified s = Raise e /\ exn_kind e = ValueError.
Proof.
  unfold split_qualified.
  destruct (py_split "." s) as [|a [|b [|c l]]]; simpl; intros Hlen;
    try (eexists; split; reflexivity).
  congruence.
Qed.

Section BatchProperties.
Context {py : PyRuntime}.

Lemma loads_value_Ok (v j : json) :
  loads_value v = Ok j -> exists s, v = JStr s /\ json_loads s = Some j.
Proof.
  destruct v; simpl; try discriminate.
  unfold loads. destruct (json_loads s) as [x|] eqn:Hs; [|discriminate].
  intros [= <-]. eauto.
Qed.

Lemma split_name_Ok (v : json) (namespace tool_name : string) :
  split_name v = Ok (namespace, tool_name) ->
  exists s, v = JStr s /\ py_split "." s = [namespace; tool_name].
Proof.
  destruct v; simpl; try discriminate.
  intros Hsplit. apply split_qualified_Ok in Hsplit. eauto.
Qed.

(** A tool call with the expected fields is read by decoding its
    arguments and splitting its name. *)
Lemma read_tool_call_view (tool_call tool_call_id : json) (tool_name arguments : string) :
  call_view tool_call = Some (tool_call_id, tool_name, arguments) ->
  read_tool_call tool_call =
    (tool_args <- loads arguments ;;
     target <- split_qualified tool_name ;;
     Ok (tool_call_id, tool_args, target.1, target.2))%result.
Proof.
  intros Hview. unfold call_view in Hview.
  repeat case_match; try discriminate. simplify_eq.
  unfold read_tool_call. cbn [py_getitem rbind].
  repeat match goal with Hk : _ !! _ = Some _ |- _ => rewrite Hk; clear Hk end.
  cbn [py_getitem rbind loads_value split_name].
  repeat match goal with Hk : _ !! _ = Some _ |- _ => rewrite Hk; clear Hk end.
  cbn [py_getitem rbind loads_value split_name].
  destruct (loads arguments); cbn [rbind]; [|reflexivity].
  repeat match goal with Hk : _ !! _ = Some _ |- _ => rewrite Hk; clear Hk end.
  reflexivity.
Qed.

(** Reading succeeds on well-formed tool calls only. *)
Lemma read_tool_call_Ok (tool_call tool_call_id tool_args : json)
    (namespace tool_name : string) :
  read_tool_call tool_call = Ok (tool_call_id, tool_args, namespace, tool_name) ->
  well_formed_call tool_call = true
  /\ exists qualified arguments,
       call_view tool_call = Some (tool_call_id, qualified, arguments).
Proof.
  unfold read_tool_call.
  destruct (py_getitem tool_call "function") as [function|] eqn:Hfunction;
    cbn [rbind]; [|discriminate].
  destruct (py_getitem function "name") as [name|] eqn:Hname;
    cbn [rbind]; [|discriminate].
  destruct (py_getitem function "arguments") as [arguments|] eqn:Harguments;
    cbn [rbind]; [|discriminate].
  destruct (loads_value arguments) as [args|] eqn:Hargs; cbn [rbind]; [|discriminate].
  destruct (py_getitem tool_call "id") as [id|] eqn:Hid; cbn [rbind]; [|discriminate].
  destruct (split_name name) as [[ns t]|] eqn:Hsplit; cbn [rbind]; [|discriminate].
  intros [= <- <- <- <-].
  apply py_getitem_Ok in Hfunction as (d & -> & Hfunction).
  apply py_getitem_Ok in Hname as (f & -> & Hname).
  apply py_getitem_Ok in Harguments as (f' & [= <-] & Harguments).
  apply py_getitem_Ok in Hid as (d' & [= <-] & Hid).
  apply loads_value_Ok in Hargs as (text & -> & Hargs).
  apply split_name_Ok in Hsplit as (qualified & -> & Hsplit).
  assert (Hview : call_view (JObj d) = Some (id, qualified, text)).
  { unfold call_view. rewrite Hfunction, Hid, Hname, Harguments. reflexivity. }
  split; [|eauto].
  unfold well_formed_call. rewrite Hview, Hsplit, Hargs.
  apply andb_true_iff. split; apply bool_decide_eq_true; [reflexivity|eauto].
Qed.

Lemma read_tool_call_well_formed (tool_call : json) :
  well_formed_call tool_call = true ->
  exists tool_call_id tool_args namespace tool_name,
    read_tool_call tool_call = Ok (tool_call_id, tool_args, namespace, tool_name).
Proof.
  unfold well_formed_call.
  destruct (call_view tool_call) as [[[id qualified] arguments]|] eqn:Hview; [|discriminate].
  intros Hwf. apply andb_true_iff in Hwf as [Hlen Hargs].
  apply bool_decide_eq_true in Hlen. apply bool_decide_eq_true in Hargs as [args Hargs].
  rewrite (read_tool_call_view _ _ _ _ Hview). unfold loads. rewrite Hargs.
  cbn [rbind]. unfold split_qualified.
  destruct (py_split "." qualified) as [|a [|b [|c l]]]; try discriminate.
  cbn [rbind]. eauto.
Qed.

Lemma read_tool_call_ill_formed (tool_call : json) :
  well_formed_call tool_call = false -> exists e, read_tool_call tool_call = Raise e.
Proof.
  intros Hill.
  destruct (read_tool_call tool_call) as [[[[id args] ns] t]|e] eqn:Hread; [|eauto].
  apply read_tool_call_Ok in Hread as [Hwf _]. congruence.
Qed.

Lemma malformed_not_well_formed (tool_call : json) :
  malformed_call tool_call = true -> well_formed_call tool_call = false.
Proof.
  unfold malformed_call, well_formed_call.
  destruct (call_view tool_call) as [[[id qualified] arguments]|]; [|reflexivity].
  destruct (bool_decide (length (py_split "." qualified) = 2%nat));
    destruct (bool_decide (is_Some (json_loads arguments))); simpl; congruence.
Qed.

(** A malformed call raises from [json.loads] or from unpacking the
    split name. *)
Lemma read_tool_call_malformed (tool_call : json) :
  malformed_call tool_call = true ->
  exists e, read_tool_call tool_call = Raise e
            /\ (exn_kind e = JSONDecodeError \/ exn_kind e = ValueError).
Proof.
  unfold malformed_call.
  destruct (call_view tool_call) as [[[id qualified] arguments]|] eqn:Hview; [|discriminate].
  rewrite (read_tool_call_view _ _ _ _ Hview). unfold loads.
  intros Hbad.
  destruct (json_loads arguments) as [args|] eqn:Hargs; cbn [rbind].
  - assert (Hsome : bool_decide (is_Some (Some args)) = true)
      by (apply bool_decide_eq_true; eauto).
    rewrite Hsome in Hbad. cbn [negb] in Hbad. rewrite orb_false_r in Hbad.
    apply negb_true_iff, bool_decide_eq_false in Hbad.
    destruct (split_qualified_raises _ Hbad) as (e & -> & Hkind).
    cbn [rbind]. eauto.
  - eexists. split; [reflexivity|]. left. reflexivity.
Qed.

End BatchProperties.

Section ExecutionProperties.
Context {py : PyRuntime} {World : Type} {ext : Collaborators World}.
Variable connected_servers : gmap string MCPStdioClient.

(** One pass through the loop body: a call that cannot be read
    raises and leaves [messages] and the system as they were; a call
    that is read appends exactly one tool-result message, whatever
    the invocation does. *)
Lemma execute_tool_call_run (tool_call : json) (messages : list json) (st : system World) :
  execute_tool_call connected_servers tool_call (messages, st) =
    match read_tool_call tool_call with
    | Raise e => (Raise e, (messages, st))
    | Ok (tool_call_id, tool_args, namespace, tool_name) =>
        let run := invoke connected_servers namespace tool_name tool_args st in
        (Ok tt, (messages ++ [tool_message tool_call_id (outcome_content run.1)], run.2))
    end.
Proof.
  unfold execute_tool_call, bind, lift.
  destruct (read_tool_call tool_call) as [[[[id args] ns] t]|e]; [|reflexivity].
  unfold try_except, bind, inner, local, update. cbn [fst snd].
  destruct (invoke connected_servers ns t args st) as [[tool_result|e] st']; reflexivity.
Qed.

(** The loop executes the longest prefix of well-formed calls, with
    one answer per call in call order, and either reaches the end of
    the batch or raises while reading the first call that is not
    well-formed. *)
Lemma execute_loop_run (tool_calls : list json) (messages : list json) (st : system World) :
  exists done rest results st',
    tool_calls = done ++ rest
    /\ Forall (fun tool_call => well_formed_call tool_call = true) done
    /\ Forall2 answers done results
    /\ execute_loop connected_servers done (messages, st)
       = (Ok tt, (messages ++ results, st'))
    /\ match rest with
       | [] =>
           execute_loop connected_servers tool_calls (messages, st)
           = (Ok tt, (messages ++ results, st'))
       | bad :: _ =>
           well_formed_call bad = false
           /\ exists e,
                read_tool_call bad = Raise e
                /\ execute_loop connected_servers tool_calls (messages, st)
                   = (Raise e, (messages ++ results, st'))
       end.
Proof.
  revert messages st.
  induction tool_calls as [|tool_call tool_calls IH]; intros messages st.
  - exists [], [], [], st. rewrite (app_nil_r messages).
    split; [reflexivity|]. split; [apply Forall_nil_2|]. split; [apply Forall2_nil_2|].
    split; reflexivity.
  - destruct (well_formed_call tool_call) eqn:Hwf.
    + destruct (read_tool_call_well_formed _ Hwf) as (id & args & ns & t & Hread).
      pose proof (execute_tool_call_run tool_call messages st) as Hstep.
      rewrite Hread in Hstep. cbn zeta in Hstep.
      set (run := invoke connected_servers ns t args st) in Hstep.
      set (message := tool_message id (outcome_content run.1)) in Hstep.
      destruct (IH (messages ++ [message]) run.2)
        as (done & rest & results & st' & -> & Hdone & Hanswers & Hprefix & Hrest).
      exists (tool_call :: done), rest, (message :: results), st'.
      assert (Hcons : forall l,
                execute_loop connected_servers (tool_call :: l) (messages, st)
                = execute_loop connected_servers l (messages ++ [message], run.2)).
      { intros l. cbn [execute_loop]. unfold bind at 1. rewrite Hstep. reflexivity. }
      rewrite <- app_assoc in Hprefix, Hrest. cbn [app] in Hprefix, Hrest.
      split; [reflexivity|].
      split; [constructor; assumption|].
      split.
      { constructor; [|exact Hanswers].
        apply read_tool_call_Ok in Hread as (_ & qualified & arguments & Hview).
        exists id, qualified, arguments, (outcome_content run.1). split; [exact Hview|reflexivity]. }
      split; [rewrite Hcons; exact Hprefix|].
      destruct rest as [|bad rest].
      * rewrite Hcons. exact Hrest.
      * destruct Hrest as (Hbad & e & Hread' & Hrun).
        split; [exact Hbad|]. exists e. split; [exact Hread'|].
        rewrite Hcons. exact Hrun.
    + destruct (read_tool_call_ill_formed _ Hwf) as [e Hread].
      exists [], (tool_call :: tool_calls), [], st. rewrite (app_nil_r messages).
      split; [reflexivity|]. split; [apply Forall_nil_2|]. split; [apply Forall2_nil_2|].
      split; [reflexivity|]. split; [exact Hwf|].
      exists e. split; [exact Hread|].
      cbn [execute_loop]. unfold bind. rewrite execute_tool_call_run, Hread. reflexivity.
Qed.

Lemma run_tool_calls_list (tool_calls : list json) (st : system World) :
  run_tool_calls connected_servers (JArr tool_calls) st
  = execute_loop connected_servers tool_calls
      ([assistant_message (JArr tool_calls)], st).
Proof. reflexivity. Qed.

(** C1. For every batch of tool calls whose names split into exactly
    one provider and one tool and whose argument texts are valid
    JSON, [execute_tool_calls] returns the assistant message
    followed by exactly one tool-result message per call, in call
    order: the [i]-th result carries the identifier of the [i]-th
    call.  The statement holds for every registry and every
    behaviour of the providers, so however many invocations fail. *)
Theorem execute_tool_calls_one_result_per_call (tool_calls : list json) (st : system World) :
  Forall (fun tool_call => well_formed_call tool_call = true) tool_calls ->
  exists results st',
    execute_tool_calls connected_servers (JArr tool_calls) st
    = (Ok (assistant_message (JArr tool_calls) :: results), st')
    /\ length results = length tool_calls
    /\ Forall2 answers tool_calls results.
Proof.
  intros Hwf.
  destruct (execute_loop_run tool_calls [assistant_message (JArr tool_calls)] st)
    as (done & rest & results & st' & Hsplit & _ & Hanswers & _ & Hrest).
  destruct rest as [|bad rest].
  - rewrite app_nil_r in Hsplit. subst done.
    exists results, st'.
    split; [|split].
    + unfold execute_tool_calls. rewrite run_tool_calls_list, Hrest. reflexivity.
    + symmetry. eapply Forall2_length, Hanswers.
    + exact Hanswers.
  - exfalso. destruct Hrest as [Hbad _].
    rewrite Forall_forall in Hwf.
    rewrite (Hwf bad) in Hbad; [discriminate|].
    rewrite Hsplit. apply elem_of_app. right. left.
Qed.

(** C10. When some call of the batch has a name that does not split
    into exactly two pieces or an argument text that is not valid
    JSON, [execute_tool_calls] raises.  The exception leaves the
    loop while a call [bad] is being read, before its [try]
    statement; no malformed call comes before [bad]; at that point
    the local [messages] holds the assistant message and one result
    for each call before [bad], and the system is as those calls
    left it: nothing has been done for [bad] or for a later call.
    When [bad] itself is malformed the exception is a
    [JSONDecodeError] or a [ValueError]. *)
Theorem execute_tool_calls_aborts_on_malformed (tool_calls : list json) (st : system World) :
  Exists (fun tool_call => malformed_call tool_call = true) tool_calls ->
  exists e messages st' done bad rest results,
    run_tool_calls connected_servers (JArr tool_calls) st = (Raise e, (messages, st'))
    /\ execute_tool_calls connected_servers (JArr tool_calls) st = (Raise e, st')
    /\ tool_calls = done ++ bad :: rest
    /\ Forall (fun tool_call => malformed_call tool_call = false) done
    /\ read_tool_call bad = Raise e
    /\ (malformed_call bad = true ->
        exn_kind e = JSONDecodeError \/ exn_kind e = ValueError)
    /\ messages = assistant_message (JArr tool_calls) :: results
    /\ Forall2 answers done results
    /\ execute_loop connected_servers done ([assistant_message (JArr tool_calls)], st)
       = (Ok tt, (messages, st')).
Proof.
  intros Hmalformed.
  destruct (execute_loop_run tool_calls [assistant_message (JArr tool_calls)] st)
    as (done & rest & results & st' & Hsplit & Hdone & Hanswers & Hprefix & Hrest).
  assert (Hclean : Forall (fun tool_call => malformed_call tool_call = false) done).
  { eapply Forall_impl; [exact Hdone|]. cbn beta. intros tool_call Hwf.
    destruct (malformed_call tool_call) eqn:Hbad; [|reflexivity].
    apply malformed_not_well_formed in Hbad. congruence. }
  destruct rest as [|bad rest].
  - exfalso. rewrite app_nil_r in Hsplit. subst done.
    apply Exists_exists in Hmalformed as (tool_call & Hin & Hbad).
    rewrite Forall_forall in Hclean. rewrite (Hclean _ Hin) in Hbad. discriminate.
  - destruct Hrest as (Hbad & e & Hread & Hrun).
    exists e, (assistant_message (JArr tool_calls) :: results), st', done, bad, rest, results.
    split; [rewrite run_tool_calls_list; exact Hrun|].
    split; [unfold execute_tool_calls; rewrite run_tool_calls_list, Hrun; reflexivity|].
    split; [exact Hsplit|]. split; [exact Hclean|]. split; [exact Hread|].
    split.
    { intros Hbad'. destruct (read_tool_call_malformed _ Hbad') as (e' & Hread' & Hkind).
      congruence. }
    split; [reflexivity|]. split; [exact Hanswers|]. exact Hprefix.
Qed.

(** A call to a provider that is not in the registry is answered
    with the text of the [AttributeError] that the lookup default
    [{}] causes. *)
Lemma unknown_provider_answer (tool_call tool_call_id tool_args : json)
    (namespace tool_name : string) (messages : list json) (st : system World) :
  read_tool_call tool_call = Ok (tool_call_id, tool_args, namespace, tool_name) ->
  connected_servers !! namespace = None ->
  execute_tool_call connected_servers tool_call (messages, st)
  = (Ok tt,
     (messages ++
        [tool_message tool_call_id
           "Error executing tool: 'dict' object has no attribute 'call_tool'"],
      st)).
Proof.
  intros Hread Hunknown.
  rewrite execute_tool_call_run, Hread. unfold invoke. rewrite Hunknown. reflexivity.
Qed.

End ExecutionProperties.

(** ** Resolution loop *)

Lemma upstream_requests_app (events events' : list event) :
  upstream_requests (events ++ events')
  = (upstream_requests events + upstream_requests events')%nat.
Proof.
  induction events as [|[] events IH]; cbn [app upstream_requests]; rewrite ?IH; reflexivity.
Qed.

Section TraceProperties.
Context {World : Type}.

Lemma extends_refl (st : system World) : extends 0 st st.
Proof. exists []. rewrite app_nil_r. split; reflexivity. Qed.

Lemma extends_trans (a b : nat) (st1 st2 st3 : system World) :
  extends a st1 st2 -> extends b st2 st3 -> extends (a + b) st1 st3.
Proof.
  intros (events & Htrace & Hcount) (events' & Htrace' & Hcount').
  exists (events ++ events'). split.
  - rewrite Htrace', Htrace, app_assoc. reflexivity.
  - rewrite upstream_requests_app. congruence.
Qed.

Lemma perform_extends {A} (ev : event) (op : World -> result A * World) (st : system World) :
  extends (upstream_requests [ev]) st (perform ev op st).2.
Proof.
  unfold perform. destruct (op (world st)) as [r w]. exists [ev]. split; reflexivity.
Qed.

End TraceProperties.

Section LoopProperties.
Context {py : PyRuntime} {World : Type} {ext : Collaborators World}.
Variables (OPENAI_API_BASE_URL : string) (MAX_ITERATION : Z).
Variable connected_servers : gmap string MCPStdioClient.

Lemma invoke_extends (namespace tool_name : string) (tool_args : json) (st : system World) :
  extends 0 st (invoke connected_servers namespace tool_name tool_args st).2.
Proof.
  unfold invoke. destruct (connected_servers !! namespace) as [mcp_tool|];
    [|apply extends_refl].
  unfold call_tool. destruct (negb (is_connected mcp_tool)); [apply extends_refl|].
  destruct (session mcp_tool); [|apply extends_refl].
  apply (perform_extends (SessionCallTool (name mcp_tool) tool_name tool_args)).
Qed.

Lemma execute_loop_extends (tool_calls : list json) (messages : list json)
    (st : system World) :
  extends 0 st (execute_loop connected_servers tool_calls (messages, st)).2.2.
Proof.
  revert messages st.
  induction tool_calls as [|tool_call tool_calls IH]; intros messages st.
  - apply extends_refl.
  - cbn [execute_loop]. unfold bind. rewrite execute_tool_call_run.
    destruct (read_tool_call tool_call) as [[[[id args] ns] t]|e];
      [|apply extends_refl].
    cbn zeta. apply (extends_trans 0 0 _ _ _ (invoke_extends ns t args st)), IH.
Qed.

Lemma execute_tool_calls_extends (tool_calls : json) (st : system World) :
  extends 0 st (execute_tool_calls connected_servers tool_calls st).2.
Proof.
  unfold execute_tool_calls, run_tool_calls, bind, lift.
  destruct (py_iter tool_calls) as [items|e]; [|apply extends_refl].
  pose proof (execute_loop_extends items [assistant_message tool_calls] st) as Hloop.
  destruct (execute_loop connected_servers items ([assistant_message tool_calls], st))
    as [[[]|e] [messages st']]; exact Hloop.
Qed.

Lemma extended_messages_extends (request tool_calls : json) (st : system World) :
  extends 0 st (extended_messages connected_servers request tool_calls st).2.
Proof.
  unfold extended_messages, bind, lift.
  destruct (rbind _ _) as [messages|e]; [|apply extends_refl].
  pose proof (execute_tool_calls_extends tool_calls st) as Hcalls.
  destruct (execute_tool_calls connected_servers tool_calls st)
    as [[tool_responses|e] st']; exact Hcalls.
Qed.

(** A round sends exactly one request to the upstream API. *)
Lemma follow_up_round_extends (headers : gmap string string)
    (follow_up_request : gmap string json) (final_response : option json)
    (st : system World) :
  extends 1 st
    (follow_up_round OPENAI_API_BASE_URL connected_servers headers
       follow_up_request final_response st).2.
Proof.
  unfold follow_up_round, bind.
  match goal with
  | |- context [perform ?ev ?op st] =>
      pose proof (perform_extends ev op st) as Hrequest;
      destruct (perform ev op st) as [[follow_up_response|e] st1]
  end; [|exact Hrequest].
  cbn [snd] in Hrequest.
  assert (Hstay : extends 1 st st1) by exact Hrequest.
  destruct (status follow_up_response =? 200)%Z.
  - unfold lift. destruct (loads (content follow_up_response)) as [response|e];
      [|exact Hstay].
    destruct (parse_tools_from_response response) as [tool_calls|e]; [|exact Hstay].
    destruct (truthy tool_calls); [|exact Hstay].
    pose proof (extended_messages_extends (JObj follow_up_request) tool_calls st1)
      as Hcalls.
    destruct (extended_messages connected_servers (JObj follow_up_request) tool_calls st1)
      as [[messages|e] st2]; exact (extends_trans 1 0 _ _ _ Hstay Hcalls).
  - destruct final_response; exact Hstay.
Qed.

(** The loop sends at most one request per pass. *)
Lemma follow_up_loop_bound (rounds : nat) (headers : gmap string string)
    (follow_up_request : gmap string json) (final_response : option json)
    (st : system World) :
  exists requests,
    (requests <= rounds)%nat
    /\ extends requests st
         (follow_up_loop OPENAI_API_BASE_URL MAX_ITERATION connected_servers rounds
            headers follow_up_request final_response st).2.
Proof.
  revert follow_up_request final_response st.
  induction rounds as [|rounds IH]; intros follow_up_request final_response st.
  - exists 0%nat. split; [lia|apply extends_refl].
  - cbn [follow_up_loop]. unfold bind.
    pose proof (follow_up_round_extends headers follow_up_request final_response st)
      as Hround.
    destruct (follow_up_round OPENAI_API_BASE_URL connected_servers headers
                follow_up_request final_response st)
      as [[[follow_up_request' final_response'|response]|e] st1]; cbn [snd] in Hround.
    + destruct (IH follow_up_request' (Some final_response') st1)
        as (requests & Hle & Hrest).
      exists (1 + requests)%nat. split; [lia|].
      exact (extends_trans 1 requests _ _ _ Hround Hrest).
    + exists 1%nat. split; [lia|exact Hround].
    + exists 1%nat. split; [lia|exact Hround].
Qed.

Lemma handle_tool_calls_bound (tool_calls original_request : json)
    (headers : gmap string string) (st : system World) :
  exists requests,
    (requests <= Z.to_nat MAX_ITERATION)%nat
    /\ extends requests st
         (handle_tool_calls OPENAI_API_BASE_URL MAX_ITERATION connected_servers
            tool_calls original_request headers st).2.
Proof.
  unfold handle_tool_calls, bind.
  pose proof (extended_messages_extends original_request tool_calls st) as Hfirst.
  destruct (extended_messages connected_servers original_request tool_calls st)
    as [[messages|e] st1]; cbn [snd] in Hfirst.
  - destruct original_request as [| | | | | |request].
    7: {
      match goal with
      | |- context [follow_up_loop _ _ _ ?n ?h ?r ?f st1] =>
          destruct (follow_up_loop_bound n h r f st1) as (requests & Hle & Hrest)
      end.
      exists requests. split; [exact Hle|].
      exact (extends_trans 0 requests _ _ _ Hfirst Hrest). }
    all: exists 0%nat; split; [lia|exact Hfirst].
  - exists 0%nat. split; [lia|exact Hfirst].
Qed.

(** A pass that goes on received a [200] response whose body decodes
    to a completion with tool calls. *)
Lemma continue_has_tool_calls (headers : gmap string string)
    (follow_up_request follow_up_request' : gmap string json)
    (final_response : option json) (final_response' : json) (st st' : system World) :
  follow_up_round OPENAI_API_BASE_URL connected_servers headers
    follow_up_request final_response st
  = (Ok (Continue follow_up_request' final_response'), st') ->
  exists request response w tool_calls,
    session_request request (world st) = (Ok response, w)
    /\ json_body request = Some (JObj follow_up_request)
    /\ status response = 200
    /\ loads (content response) = Ok final_response'
    /\ parse_tools_from_response final_response' = Ok tool_calls
    /\ truthy tool_calls = true.
Proof.
  unfold follow_up_round, bind, perform.
  match goal with
  | |- context [session_request ?request (world st)] =>
      destruct (session_request request (world st)) as [[response|e] w] eqn:Hrequest;
      [|discriminate];
      intros Hrun; exists request, response, w
  end.
  destruct (status response =? 200)%Z eqn:Hstatus.
  - unfold lift in Hrun.
    destruct (loads (content response)) as [final|e] eqn:Hloads; [|discriminate].
    destruct (parse_tools_from_response final) as [tool_calls|e] eqn:Hparse;
      [|discriminate].
    destruct (truthy tool_calls) eqn:Htruthy; [|discriminate].
    destruct (extended_messages _ _ _ _) as [[messages|e] st2]; [|discriminate].
    unfold ret in Hrun. injection Hrun as <- <- <-.
    exists tool_calls. apply Z.eqb_eq in Hstatus.
    repeat split; assumption || reflexivity.
  - destruct final_response; unfold ret, raise in Hrun; discriminate.
Qed.

(** Conversely, a pass goes on whenever it receives a [200] response
    whose body decodes to a completion with a non-empty list of
    well-formed tool calls, the messages of the request being a
    list: the assistant message and one result per call are added to
    the conversation. *)
Lemma round_with_tool_calls_continues (headers : gmap string string)
    (follow_up_request : gmap string json) (final_response : option json)
    (st : system World) (response : http_response) (w : World)
    (completion : json) (tool_calls messages : list json) :
  session_request
    {| method := "POST"; url := follow_up_url OPENAI_API_BASE_URL; headers := headers;
       json_body := Some (JObj follow_up_request) |} (world st)
  = (Ok response, w) ->
  status response = 200 ->
  loads (content response) = Ok completion ->
  parse_tools_from_response completion = Ok (JArr tool_calls) ->
  tool_calls <> [] ->
  Forall (fun tool_call => well_formed_call tool_call = true) tool_calls ->
  follow_up_request !! "messages" = Some (JArr messages) ->
  exists results st',
    follow_up_round OPENAI_API_BASE_URL connected_servers headers
      follow_up_request final_response st
    = (Ok (Continue
             (<["messages" :=
                  JArr (messages ++ assistant_message (JArr tool_calls) :: results)]>
                follow_up_request)
             completion), st')
    /\ Forall2 answers tool_calls results.
Proof.
  intros Hrequest Hstatus Hloads Hparse Hnonempty Hwf Hmessages.
  unfold follow_up_round, bind, perform.
  rewrite Hrequest, Hstatus. cbn [Z.eqb Pos.eqb].
  unfold lift. rewrite Hloads, Hparse.
  assert (Htruthy : truthy (JArr tool_calls) = true).
  { destruct tool_calls; [congruence|reflexivity]. }
  rewrite Htruthy.
  set (st1 := System w _).
  destruct (execute_loop_run connected_servers tool_calls
              [assistant_message (JArr tool_calls)] st1)
    as (done & rest & results & st' & Hsplit & _ & Hanswers & _ & Hrest).
  destruct rest as [|bad rest].
  - rewrite app_nil_r in Hsplit. subst done.
    exists results, st'. split; [|exact Hanswers].
    unfold extended_messages, bind, lift. cbn [py_get rbind].
    rewrite Hmessages. cbn [default py_copy].
    unfold execute_tool_calls. rewrite run_tool_calls_list, Hrest.
    reflexivity.
  - exfalso. destruct Hrest as [Hbad _].
    rewrite Forall_forall in Hwf.
    rewrite (Hwf bad) in Hbad; [discriminate|].
    rewrite Hsplit. apply elem_of_app. right. left.
Qed.

(** After as many passes as the bound allows, all of which went on,
    the loop is left and the function raises. *)
Lemma follow_up_loop_exhausted (rounds : nat) (headers : gmap string string)
    (follow_up_request follow_up_request' : gmap string json)
    (final_response final_response' : option json) (st st' : system World) :
  after_rounds OPENAI_API_BASE_URL connected_servers rounds headers
    follow_up_request final_response st
  = Some (follow_up_request', final_response', st') ->
  follow_up_loop OPENAI_API_BASE_URL MAX_ITERATION connected_servers rounds headers
    follow_up_request final_response st
  = (Raise (max_iteration_reached MAX_ITERATION), st')
  /\ extends rounds st st'.
Proof.
  revert follow_up_request final_response st.
  induction rounds as [|rounds IH]; intros follow_up_request final_response st.
  - cbn. intros [= <- <- <-]. split; [reflexivity|apply extends_refl].
  - cbn [after_rounds follow_up_loop]. unfold bind.
    pose proof (follow_up_round_extends headers follow_up_request final_response st)
      as Hround.
    destruct (follow_up_round OPENAI_API_BASE_URL connected_servers headers
                follow_up_request final_response st)
      as [[[request1 final1|response]|e] st1]; try discriminate.
    intros Hrest. destruct (IH _ _ _ Hrest) as [Hloop Hextends].
    split; [exact Hloop|].
    exact (extends_trans 1 rounds _ _ _ Hround Hextends).
Qed.

End LoopProperties.

(** ** Request forwarder *)

Section ForwarderProperties.
Context {py : PyRuntime} {World : Type} {ext : Collaborators World}.
Variables (OPENAI_API_BASE_URL : string) (ENABLE_MCP : bool) (MAX_ITERATION : Z).
Variable connected_servers : gmap string MCPStdioClient.

(** A buffered [200] response with tool calls is answered by the
    resolver; of its exceptions only [JSONDecodeError] is caught
    there. *)
Lemma buffered_resolves (request_data response_data tool_calls : json)
    (headers : gmap string string) (response : http_response) (st : system World) :
  status response = 200 ->
  ENABLE_MCP = true ->
  loads (content response) = Ok response_data ->
  parse_tools_from_response response_data = Ok tool_calls ->
  truthy tool_calls = true ->
  buffered OPENAI_API_BASE_URL ENABLE_MCP MAX_ITERATION connected_servers
    request_data headers response st
  = match handle_tool_calls OPENAI_API_BASE_URL MAX_ITERATION connected_servers
            tool_calls request_data headers st with
    | (Ok processed_response, st') => (Ok (json_response processed_response 200), st')
    | (Raise e, st') =>
        if is_subclass (exn_kind e) JSONDecodeError
        then (Ok (Response (content response) (status response)
                    (response_headers response)), st')
        else (Raise e, st')
    end.
Proof.
  intros Hstatus Henabled Hloads Hparse Htruthy.
  unfold buffered, bind, try_except, lift.
  rewrite Hstatus, Henabled, Hloads, Hparse, Htruthy. cbn [Z.eqb Pos.eqb andb].
  destruct (handle_tool_calls _ _ _ _ _ _ _) as [[processed|e] st']; [reflexivity|].
  destruct (is_subclass (exn_kind e) JSONDecodeError); reflexivity.
Qed.

(** Once the upstream API has answered, [proxy_request] relays the
    answer under the handler that turns every exception into the
    internal-server-error response. *)
Lemma proxy_request_forwards (path : string) (request : web_request) (inject_tools : bool)
    (request_data0 request_data : json) (response : http_response)
    (st : system World) (w : World) :
  let headers := forwarded_headers (request_headers request) ∅ in
  let upstream :=
    {| method := request_method request;
       url := OPENAI_API_BASE_URL +:+ "/" +:+ path;
       headers := headers;
       json_body := if String.eqb (request_body request) "" then None
                    else Some request_data |} in
  (if String.eqb (request_body request) "" then Some (JObj ∅)
   else json_loads (request_body request)) = Some request_data0 ->
  with_tools connected_servers inject_tools request_data0 = Ok request_data ->
  session_request upstream (world st) = (Ok response, w) ->
  proxy_request OPENAI_API_BASE_URL ENABLE_MCP MAX_ITERATION connected_servers
    path request inject_tools st
  = try_except
      (relay OPENAI_API_BASE_URL ENABLE_MCP MAX_ITERATION connected_servers
         request_data headers response)
      (fun _ => ret internal_server_error)
      (System w (trace st ++ [SessionRequest upstream])).
Proof.
  intros headers upstream Hbody Htools Hupstream.
  unfold proxy_request. rewrite Hbody.
  unfold bind at 1. unfold lift at 1. rewrite Htools.
  unfold try_except, bind, perform.
  fold headers. fold upstream. rewrite Hupstream. reflexivity.
Qed.

(** A response of the first upstream call whose status is not [200]
    is relayed as it is: status, headers and body. *)
Lemma upstream_error_is_relayed (request_data : gmap string json)
    (headers : gmap string string) (response : http_response) (st : system World) :
  status response <> 200 ->
  relay OPENAI_API_BASE_URL ENABLE_MCP MAX_ITERATION connected_servers
    (JObj request_data) headers response st
  = (Ok (Response (content response) (status response) (response_headers response)), st).
Proof.
  intros Hstatus. apply Z.eqb_neq in Hstatus.
  unfold relay, bind, lift. cbn [py_get]. rewrite Hstatus, andb_false_r.
  unfold buffered, bind. rewrite Hstatus. reflexivity.
Qed.

(** C5. The resolution loop of [handle_tool_calls] sends at most
    [MAX_ITERATION] follow-up requests to the upstream API, whatever
    the upstream API and the providers do.  When every one of the
    [MAX_ITERATION] rounds, the last one included, receives tool
    calls and executes them, [handle_tool_calls] stops after exactly
    that many requests and raises the [RuntimeError] that reports
    the exhausted budget; and [proxy_request] answers the caller
    with the internal-server-error response of status 500. *)
Theorem resolution_loop_is_bounded :
  (forall (tool_calls original_request : json) (headers : gmap string string)
          (st : system World),
     exists requests,
       (requests <= Z.to_nat MAX_ITERATION)%nat
       /\ extends requests st
            (handle_tool_calls OPENAI_API_BASE_URL MAX_ITERATION connected_servers
               tool_calls original_request headers st).2)
  /\ (forall (tool_calls messages : json) (request follow_up_request : gmap string json)
             (headers : gmap string string) (final_response : option json)
             (st st1 st' : system World),
        extended_messages connected_servers (JObj request) tool_calls st
        = (Ok messages, st1) ->
        after_rounds OPENAI_API_BASE_URL connected_servers (Z.to_nat MAX_ITERATION)
          headers (delete "tool_choice" (<["messages" := messages]> request)) None st1
        = Some (follow_up_request, final_response, st') ->
        handle_tool_calls OPENAI_API_BASE_URL MAX_ITERATION connected_servers
          tool_calls (JObj request) headers st
        = (Raise (max_iteration_reached MAX_ITERATION), st')
        /\ extends (Z.to_nat MAX_ITERATION) st st')
  /\ (forall (path : string) (request : web_request) (inject_tools : bool)
             (request_data0 request_data response_data tool_calls stream : json)
             (response : http_response) (st st' : system World) (w : World),
        let headers := forwarded_headers (request_headers request) ∅ in
        let upstream :=
          {| method := request_method request;
             url := OPENAI_API_BASE_URL +:+ "/" +:+ path;
             headers := headers;
             json_body := if String.eqb (request_body request) "" then None
                          else Some request_data |} in
        (if String.eqb (request_body request) "" then Some (JObj ∅)
         else json_loads (request_body request)) = Some request_data0 ->
        with_tools connected_servers inject_tools request_data0 = Ok request_data ->
        session_request upstream (world st) = (Ok response, w) ->
        py_get request_data "stream" (JBool false) = Ok stream ->
        truthy stream = false ->
        status response = 200 ->
        ENABLE_MCP = true ->
        loads (content response) = Ok response_data ->
        parse_tools_from_response response_data = Ok tool_calls ->
        truthy tool_calls = true ->
        handle_tool_calls OPENAI_API_BASE_URL MAX_ITERATION connected_servers
          tool_calls request_data headers
          (System w (trace st ++ [SessionRequest upstream]))
        = (Raise (max_iteration_reached MAX_ITERATION), st') ->
        proxy_request OPENAI_API_BASE_URL ENABLE_MCP MAX_ITERATION connected_servers
          path request inject_tools st
        = (Ok internal_server_error, st')).
Proof.
  split; [|split].
  - intros tool_calls original_request headers st. apply handle_tool_calls_bound.
  - intros tool_calls messages request follow_up_request headers final_response
      st st1 st' Hfirst Hrounds.
    pose proof (extended_messages_extends connected_servers (JObj request) tool_calls st)
      as Hquiet.
    rewrite Hfirst in Hquiet. cbn [snd] in Hquiet.
    destruct (follow_up_loop_exhausted OPENAI_API_BASE_URL MAX_ITERATION connected_servers
                _ _ _ _ _ _ _ _ Hrounds) as [Hloop Hextends].
    split.
    + unfold handle_tool_calls, bind. rewrite Hfirst. exact Hloop.
    + exact (extends_trans 0 _ _ _ _ Hquiet Hextends).
  - intros path request inject_tools request_data0 request_data response_data tool_calls
      stream response st st' w headers upstream
      Hbody Htools Hupstream Hstream Hbuffered Hstatus Henabled Hloads Hparse Htruthy
      Hbudget.
    rewrite (proxy_request_forwards path request inject_tools request_data0 request_data
               response st w Hbody Htools Hupstream).
    fold headers. fold upstream.
    unfold try_except, relay, bind, lift. rewrite Hstream, Hbuffered. cbn [andb].
    rewrite (buffered_resolves request_data response_data tool_calls headers response _
               Hstatus Henabled Hloads Hparse Htruthy).
    rewrite Hbudget. reflexivity.
Qed.

End ForwarderProperties.

(** With a budget of one round and an upstream API that keeps asking
    for the tool, the request of the example ends in the
    internal-server-error response, after the first request and one
    follow-up request. *)
Lemma resolution_loop_is_bounded_witness :
  exists st',
    handle_tool_calls (py := example_runtime) (ext := scripted)
      "http://upstream:9091" 1 example_registry
      (JArr [ tool_call "call_1" "files.read" "{}" ])
      (JObj {[ "messages" := JArr [] ]}) ∅
      (System (example_world [ ok_reply tool_round_text ]) [])
    = (Raise (max_iteration_reached 1), st')
    /\ extends 1 (System (example_world [ ok_reply tool_round_text ]) []) st'.
Proof.
  destruct (resolution_loop_is_bounded (py := example_runtime) (ext := scripted)
              "http://upstream:9091" true 1 example_registry) as (_ & Hexhausted & _).
  set (st := System (example_world [ ok_reply tool_round_text ]) []).
  set (tool_calls := JArr [ tool_call "call_1" "files.read" "{}" ]).
  set (request := {[ "messages" := JArr [] ]} : gmap string json).
  set (first := extended_messages (py := example_runtime) (ext := scripted)
                  example_registry (JObj request) tool_calls st).
  set (messages := match first.1 with Ok messages => messages | Raise _ => JNull end).
  set (rounds := after_rounds (py := example_runtime) (ext := scripted)
                   "http://upstream:9091" example_registry (Z.to_nat 1) ∅
                   (delete "tool_choice" (<["messages" := messages]> request))
                   None first.2).
  set (outcome := default (∅, None, st) rounds).
  exists outcome.2.
  apply (Hexhausted tool_calls messages request outcome.1.1 ∅ outcome.1.2
           st first.2 outcome.2).
  - vm_compute. reflexivity.
  - vm_compute. reflexivity.
Defined.

(** ** The properties on the example conversation *)

(** A batch of three well-formed calls, of which the second names a
    provider that is not connected and the third a tool that the
    provider [files] does not have: the three are answered in order. *)
Lemma execute_tool_calls_one_result_per_call_witness :
  let batch :=
    [ tool_call "call_1" "files.read" "{}";
      tool_call "call_2" "ghost.run" "{}";
      tool_call "call_3" "files.write" "{}" ] in
  Forall (fun tool_call => well_formed_call (py := example_runtime) tool_call = true) batch
  /\ exists results st',
       execute_tool_calls (py := example_runtime) (ext := scripted) example_registry
         (JArr batch) (System (example_world []) [])
       = (Ok (assistant_message (JArr batch) :: results), st')
       /\ length results = 3%nat.
Proof.
  intros batch.
  assert (Hbatch : Forall (fun tool_call =>
                     well_formed_call (py := example_runtime) tool_call = true) batch).
  { repeat constructor. }
  split; [exact Hbatch|].
  destruct (execute_tool_calls_one_result_per_call (py := example_runtime) (ext := scripted)
              example_registry batch (System (example_world []) []) Hbatch)
    as (results & st' & Hrun & Hlength & _).
  exists results, st'. split; [exact Hrun|exact Hlength].
Defined.

(** A batch whose second call has a name without provider: the batch
    raises, and only the first call has been answered. *)
Lemma execute_tool_calls_aborts_on_malformed_witness :
  let batch :=
    [ tool_call "call_1" "files.read" "{}";
      tool_call "call_2" "read" "{}";
      tool_call "call_3" "files.read" "{}" ] in
  Exists (fun tool_call => malformed_call (py := example_runtime) tool_call = true) batch
  /\ exists e messages st',
       run_tool_calls (py := example_runtime) (ext := scripted) example_registry
         (JArr batch) (System (example_world []) [])
       = (Raise e, (messages, st'))
       /\ length messages = 2%nat.
Proof.
  intros batch.
  assert (Hbatch : Exists (fun tool_call =>
                     malformed_call (py := example_runtime) tool_call = true) batch).
  { apply Exists_cons_tl, Exists_cons_hd. reflexivity. }
  split; [exact Hbatch|].
  destruct (execute_tool_calls_aborts_on_malformed (py := example_runtime) (ext := scripted)
              example_registry batch (System (example_world []) []) Hbatch)
    as (e & messages & st' & done & bad & rest & results & Hrun & _ & _ & _ & _ & _ & _ & _ & _).
  exists e, messages, st'. split; [exact Hrun|].
  assert (Hlength : length (run_tool_calls (py := example_runtime) (ext := scripted)
                              example_registry (JArr batch)
                              (System (example_world []) [])).2.1 = 2%nat)
    by (vm_compute; reflexivity).
  rewrite Hrun in Hlength. exact Hlength.
Defined.

(** C3, on the code. The model calls [ghost.run] and no provider
    [ghost] is connected.  The batch is not aborted and a tool-result
    message is recorded, but its text is that of the [AttributeError]
    raised on the lookup default [{}], not a statement that the tool
    does not exist. *)
Theorem unknown_provider_is_answered_with_attribute_error :
  execute_tool_calls (py := example_runtime) (ext := scripted) example_registry
    (JArr [ tool_call "call_1" "ghost.run" "{}" ]) (System (example_world []) [])
  = (Ok [ assistant_message (JArr [ tool_call "call_1" "ghost.run" "{}" ]);
          tool_message (JStr "call_1")
            "Error executing tool: 'dict' object has no attribute 'call_tool'" ],
     System (example_world []) []).
Proof. vm_compute. reflexivity. Qed.

(** C2, on the code. The first upstream response asks for a tool and
    a follow-up request is answered with status 503.  When this
    happens in the first follow-up round, [final_response] is not yet
    bound and the caller receives the internal-server-error response;
    when it happens in the second round, the caller receives, with
    status 200, the completion of the first round, which still asks
    for the tool.  In neither case is the 503 response relayed. *)
Theorem follow_up_failure_is_not_relayed :
  (example_run 25 [ ok_reply tool_round_text; unavailable ]).1
  = Ok internal_server_error
  /\ (example_run 25 [ ok_reply tool_round_text; ok_reply tool_round_text; unavailable ]).1
     = Ok (json_response tool_round 200).
Proof. split; vm_compute; reflexivity. Qed.

(** The happy path of the specification: the model calls
    [files.read], the provider answers [hello], the follow-up round
    calls no tool, and the caller receives that final completion.  The
    proxy has sent the conversation, called the tool and sent the
    conversation again, extended with the assistant message and the
    tool result. *)
Example happy_path :
  let run := example_run 25 [ ok_reply tool_round_text; ok_reply final_round_text ] in
  let user_message := JObj {[ "role" := JStr "user"; "content" := JStr "read a.txt" ]} in
  run.1 = Ok (json_response final_round 200)
  /\ conversation_sent <$> trace run.2 =
       [ Some (JArr [ user_message ]);
         None;
         Some (JArr [ user_message;
                      assistant_message (JArr [ tool_call "call_1" "files.read" "{}" ]);
                      tool_message (JStr "call_1") "hello" ]) ].
Proof. split; vm_compute; reflexivity. Qed.

(** * Further properties of the code *)

(** ** Names and [str.split] *)

Lemma py_split_nonempty (s : string) : py_split "." s <> [].
Proof.
  destruct s as [|c s]; cbn [py_split]; [discriminate|].
  destruct (Ascii.eqb c "."); [discriminate|].
  destruct (py_split "." s); discriminate.
Qed.

Lemma py_join_split (s : string) : py_join "." (py_split "." s) = s.
Proof.
  induction s as [|c s IH]; [reflexivity|].
  cbn [py_split].
  destruct (Ascii.eqb_spec c ".") as [->|Hc].
  - pose proof (py_split_nonempty s) as Hne.
    destruct (py_split "." s) as [|piece pieces]; [congruence|].
    change (py_join "." ("" :: piece :: pieces))
      with ("" +:+ "." +:+ py_join "." (piece :: pieces)).
    rewrite IH. reflexivity.
  - pose proof (py_split_nonempty s) as Hne.
    destruct (py_split "." s) as [|piece pieces]; [congruence|].
    destruct pieces as [|piece' pieces].
    + cbn [py_join] in *. congruence.
    + change (py_join "." (String c piece :: piece' :: pieces))
        with (String c (piece +:+ "." +:+ py_join "." (piece' :: pieces))).
      change (py_join "." (piece :: piece' :: pieces))
        with (piece +:+ "." +:+ py_join "." (piece' :: pieces)) in IH.
      rewrite IH. reflexivity.
Qed.

Lemma py_split_pieces_dotless (s : string) :
  Forall (fun piece => dotless piece = true) (py_split "." s).
Proof.
  induction s as [|c s IH]; cbn [py_split].
  - repeat constructor.
  - destruct (Ascii.eqb c ".") eqn:Hc.
    + constructor; [reflexivity|exact IH].
    + destruct (py_split "." s) as [|piece pieces]; [repeat constructor; cbn; rewrite Hc; reflexivity|].
      inversion IH as [|? ? Hpiece Hpieces]; subst.
      constructor; [|exact Hpieces]. cbn. rewrite Hc, Hpiece. reflexivity.
Qed.

Lemma py_split_length (s : string) : length (py_split "." s) = S (dots s).
Proof.
  induction s as [|c s IH]; [reflexivity|].
  cbn [py_split dots].
  destruct (Ascii.eqb c "."); cbn [length]; [congruence|].
  destruct (py_split "." s) as [|piece pieces]; cbn [length] in *; congruence.
Qed.

Lemma dots_app (s t : string) : dots (s +:+ t) = (dots s + dots t)%nat.
Proof.
  induction s as [|c s IH]; [reflexivity|].
  simpl. destruct (Ascii.eqb c "."); rewrite IH; reflexivity.
Qed.

Lemma dotless_dots (s : string) : dotless s = true <-> dots s = 0%nat.
Proof.
  induction s as [|c s IH]; cbn [dotless dots]; [tauto|].
  destruct (Ascii.eqb c "."); cbn [negb andb]; [split; discriminate|exact IH].
Qed.

(** X1. The split step of [execute_tool_calls] accepts a name exactly
    when it has one ['.']: [split_qualified] returns the pair
    (provider, tool) if and only if the name is provider + "." + tool
    with no ['.'] in either part. *)
Theorem split_qualified_iff (qualified namespace tool_name : string) :
  split_qualified qualified = Ok (namespace, tool_name)
  <-> qualified = namespace +:+ "." +:+ tool_name
      /\ dotless namespace = true /\ dotless tool_name = true.
Proof.
  split.
  - intros Hsplit. apply split_qualified_Ok in Hsplit.
    pose proof (py_join_split qualified) as Hjoin.
    pose proof (py_split_pieces_dotless qualified) as Hpieces.
    rewrite Hsplit in Hjoin, Hpieces.
    apply Forall_cons in Hpieces as [Hn Hrest].
    apply Forall_cons in Hrest as [Ht _].
    split; [symmetry; exact Hjoin|]. split; assumption.
  - intros (-> & Hn & Ht). apply split_qualified_round_trip; assumption.
Qed.

Section TranslatorProperties.
Context {py : PyRuntime}.

Lemma convert_single_tool_exposes (namespace original_name : string) (t : mcp_tool)
    (openai_tool : json) :
  declared_name t = Some original_name ->
  _convert_single_tool namespace t = Ok openai_tool ->
  qualified_name openai_tool = Some (namespace +:+ "." +:+ original_name).
Proof.
  intros Hname. unfold _convert_single_tool.
  assert (Hfield : (tool_fields t).1.1 = JStr original_name).
  { destruct t as [n d s|d]; cbn in *; [congruence|].
    destruct (d !! "name") as [[]|]; cbn; congruence. }
  destruct (tool_fields t) as [[name description] input_schema].
  cbn in Hfield. subst name.
  destruct (negb (truthy (JStr original_name))); [discriminate|].
  destruct (_convert_input_schema input_schema) as [parameters|e]; cbn [rbind];
    [|discriminate].
  intros [= <-]. reflexivity.
Qed.

(** X2. A tool whose declared name contains a ['.'] is still
    translated and exposed, but its exposed name has more than one
    ['.']: the split step rejects it with [ValueError], so every tool
    call that names it is malformed. *)
Theorem dotted_tool_is_exposed_but_not_callable (namespace original_name : string)
    (t : mcp_tool) (openai_tool : json) :
  declared_name t = Some original_name ->
  dotless original_name = false ->
  _convert_single_tool namespace t = Ok openai_tool ->
  exists e,
    qualified_name openai_tool = Some (namespace +:+ "." +:+ original_name)
    /\ split_qualified (namespace +:+ "." +:+ original_name) = Raise e
    /\ exn_kind e = ValueError
    /\ forall id arguments,
         malformed_call (tool_call id (namespace +:+ "." +:+ original_name) arguments) = true.
Proof.
  intros Hname Hdotted Hconvert.
  assert (Hlength : length (py_split "." (namespace +:+ "." +:+ original_name)) <> 2%nat).
  { rewrite py_split_length, !dots_app. cbn [dots Ascii.eqb Bool.eqb].
    assert (dots original_name <> 0%nat).
    { intros Hzero. apply dotless_dots in Hzero. congruence. }
    lia. }
  destruct (split_qualified_raises _ Hlength) as (e & Hsplit & Hkind).
  exists e. split; [exact (convert_single_tool_exposes _ _ _ _ Hname Hconvert)|].
  split; [exact Hsplit|]. split; [exact Hkind|].
  intros id arguments. unfold malformed_call.
  change (call_view (tool_call id (namespace +:+ "." +:+ original_name) arguments))
    with (Some (JStr id, namespace +:+ "." +:+ original_name, arguments)).
  cbv beta iota. rewrite (bool_decide_eq_false_2 _ Hlength). reflexivity.
Qed.

End TranslatorProperties.

(** The tool [fs.read] of the provider [files] is exposed as
    [files.fs.read], which the split step rejects. *)
Lemma dotted_tool_is_exposed_but_not_callable_witness :
  exists openai_tool e,
    _convert_single_tool (py := example_runtime) "files" (ToolObject "fs.read" None ∅)
    = Ok openai_tool
    /\ qualified_name openai_tool = Some "files.fs.read"
    /\ split_qualified "files.fs.read" = Raise e.
Proof.
  assert (Htranslated : exists openai_tool,
            _convert_single_tool (py := example_runtime) "files"
              (ToolObject "fs.read" None ∅) = Ok openai_tool)
    by (eexists; reflexivity).
  destruct Htranslated as [openai_tool Htranslated].
  destruct (dotted_tool_is_exposed_but_not_callable (py := example_runtime)
              "files" "fs.read" (ToolObject "fs.read" None ∅) openai_tool
              eq_refl eq_refl Htranslated) as (e & Hname & Hsplit & _).
  exists openai_tool, e. split; [exact Htranslated|]. split; [exact Hname|exact Hsplit].
Defined.

(** ** Schema translator, continued *)

Lemma ensure_key_present (key : string) (value present : json) (schema : gmap string json) :
  schema !! key = Some present -> ensure_key key value schema = schema.
Proof. intros Hkey. unfold ensure_key. rewrite Hkey. reflexivity. Qed.

(** X3. Converting an input schema is idempotent: whatever
    [_convert_input_schema] returns, it returns unchanged when
    converted again. *)
Theorem convert_input_schema_idempotent (input_schema parameters : json) :
  _convert_input_schema input_schema = Ok parameters ->
  _convert_input_schema parameters = Ok parameters.
Proof.
  unfold _convert_input_schema at 1.
  destruct (negb (truthy input_schema)) eqn:Hfalsy.
  - intros [= <-]. reflexivity.
  - destruct input_schema as [| | | | |l|schema]; try discriminate.
    + destruct (str_in_list "type" l && str_in_list "properties" l
                && str_in_list "required" l) eqn:Hkeys; [|discriminate].
      intros [= <-]. unfold _convert_input_schema. rewrite Hfalsy, Hkeys. reflexivity.
    + intros [= <-].
      set (normal := ensure_key "required" (JArr [])
                       (ensure_key "properties" (JObj ∅)
                          (ensure_key "type" (JStr "object") schema))).
      assert (Htype : is_Some (normal !! "type")).
      { unfold normal. rewrite !ensure_key_lookup_ne by discriminate.
        rewrite ensure_key_lookup. eauto. }
      assert (Hproperties : is_Some (normal !! "properties")).
      { unfold normal. rewrite ensure_key_lookup_ne by discriminate.
        rewrite ensure_key_lookup. eauto. }
      assert (Hrequired : is_Some (normal !! "required")).
      { unfold normal. rewrite ensure_key_lookup. eauto. }
      destruct Htype as [t Ht], Hproperties as [p Hp], Hrequired as [r Hr].
      unfold _convert_input_schema. cbn [truthy].
      case_bool_decide as Hempty.
      { rewrite Hempty, lookup_empty in Ht. discriminate. }
      cbn [negb].
      rewrite (ensure_key_present _ _ _ _ Ht), (ensure_key_present _ _ _ _ Hp),
        (ensure_key_present _ _ _ _ Hr).
      reflexivity.
Qed.

(** A schema with a title only: its conversion is a fixed point. *)
Lemma convert_input_schema_idempotent_witness :
  exists parameters,
    _convert_input_schema (JObj {[ "title" := JStr "Arguments" ]}) = Ok parameters
    /\ _convert_input_schema parameters = Ok parameters.
Proof.
  assert (Hfirst : exists parameters,
            _convert_input_schema (JObj {[ "title" := JStr "Arguments" ]}) = Ok parameters)
    by (eexists; reflexivity).
  destruct Hfirst as [parameters Hfirst].
  exists parameters. split; [exact Hfirst|].
  exact (convert_input_schema_idempotent _ _ Hfirst).
Defined.

Section CatalogueProperties.
Context {py : PyRuntime}.

Lemma convert_single_tool_truthy (namespace : string) (t : mcp_tool) (openai_tool : json) :
  _convert_single_tool namespace t = Ok openai_tool -> truthy openai_tool = true.
Proof.
  unfold _convert_single_tool.
  destruct (tool_fields t) as [[name description] input_schema].
  destruct (negb (truthy name)); [discriminate|].
  destruct (_convert_input_schema input_schema) as [parameters|e]; cbn [rbind];
    [|discriminate].
  intros [= <-]. cbn [truthy].
  rewrite bool_decide_eq_false_2; [reflexivity|].
  apply insert_non_empty.
Qed.

Lemma convert_input_schema_dict (schema : gmap string json) :
  exists parameters, _convert_input_schema (JObj schema) = Ok parameters.
Proof.
  unfold _convert_input_schema. destruct (negb (truthy (JObj schema))); eauto.
Qed.

(** An entry that is a [dict], or a tool object with a name, is
    either translated or skipped: the handler of the loop does not
    raise on it. *)
Lemma convert_tools_step (namespace : string) (t : mcp_tool) (rest : list mcp_tool)
    (openai_tools : list json) :
  named_if_object t = true ->
  convert_tools_loop namespace (t :: rest) openai_tools
  = convert_tools_loop namespace rest
      (openai_tools ++ option_list (translated namespace t)).
Proof.
  intros Hnamed. cbn [convert_tools_loop]. unfold translated.
  destruct (_convert_single_tool namespace t) as [openai_tool|e] eqn:Hconvert.
  - rewrite (convert_single_tool_truthy _ _ _ Hconvert). reflexivity.
  - destruct t as [name description schema|d].
    + exfalso. unfold _convert_single_tool in Hconvert. cbn [tool_fields] in Hconvert.
      cbn [named_if_object] in Hnamed.
      change (truthy (JStr name)) with (negb (String.eqb name "")) in Hconvert.
      rewrite Hnamed in Hconvert. cbn [negb] in Hconvert.
      destruct (convert_input_schema_dict schema) as [parameters Hparameters].
      rewrite Hparameters in Hconvert. discriminate.
    + cbn [conversion_failed rbind option_list]. rewrite app_nil_r. reflexivity.
Qed.

Lemma convert_tools_loop_named (namespace : string) (mcp_tools : list mcp_tool)
    (openai_tools : list json) :
  Forall (fun t => named_if_object t = true) mcp_tools ->
  convert_tools_loop namespace mcp_tools openai_tools
  = Ok (openai_tools ++ omap (translated namespace) mcp_tools).
Proof.
  revert openai_tools.
  induction mcp_tools as [|t rest IH]; intros openai_tools Hnamed.
  - cbn. rewrite app_nil_r. reflexivity.
  - apply Forall_cons in Hnamed as [Ht Hrest].
    rewrite (convert_tools_step _ _ _ _ Ht), (IH _ Hrest), <- app_assoc.
    cbn [omap list_omap]. destruct (translated namespace t); reflexivity.
Qed.

Lemma convert_tools_loop_app (namespace : string) (before after : list mcp_tool)
    (openai_tools : list json) :
  convert_tools_loop namespace (before ++ after) openai_tools
  = match convert_tools_loop namespace before openai_tools with
    | Ok openai_tools' => convert_tools_loop namespace after openai_tools'
    | Raise e => Raise e
    end.
Proof.
  revert openai_tools.
  induction before as [|t before IH]; intros openai_tools; [reflexivity|].
  cbn [app convert_tools_loop].
  destruct (_convert_single_tool namespace t) as [openai_tool|e]; [apply IH|].
  destruct (conversion_failed t); cbn [rbind]; [apply IH|reflexivity].
Qed.

(** X4. Translating a catalogue fails soft on entries that are plain
    [dict]s or tool objects with a name: [_convert_mcp_tools_to_openai]
    does not raise, skips the entries that [_convert_single_tool]
    rejects and keeps the translations of the others in the order of
    the catalogue. *)
Theorem convert_catalogue_skips_rejected (namespace : string) (mcp_tools : list mcp_tool) :
  Forall (fun t => named_if_object t = true) mcp_tools ->
  _convert_mcp_tools_to_openai namespace mcp_tools
  = Ok (omap (translated namespace) mcp_tools).
Proof.
  intros Hnamed. unfold _convert_mcp_tools_to_openai.
  rewrite (convert_tools_loop_named _ _ _ Hnamed). reflexivity.
Qed.

(** X5. A tool object with an empty name aborts the translation of
    the whole catalogue: [_convert_single_tool] rejects it, and the
    handler, which formats [mcp_tool.get('name', 'unknown')], raises
    [AttributeError] on the object; the entries before and after it
    are lost with it. *)
Theorem nameless_tool_object_aborts_catalogue (namespace : string)
    (before after : list mcp_tool) (description : option string)
    (inputSchema : gmap string json) :
  Forall (fun t => named_if_object t = true) before ->
  _convert_mcp_tools_to_openai namespace
    (before ++ ToolObject "" description inputSchema :: after)
  = Raise (Exn AttributeError "'Tool' object has no attribute 'get'").
Proof.
  intros Hnamed. unfold _convert_mcp_tools_to_openai.
  rewrite convert_tools_loop_app, (convert_tools_loop_named _ _ _ Hnamed).
  reflexivity.
Qed.

End CatalogueProperties.

(** A catalogue of three [dict] entries of which the second has no
    name: the first and the third are translated. *)
Lemma convert_catalogue_skips_rejected_witness :
  let catalogue :=
    [ ToolDict {[ "name" := JStr "read" ]};
      ToolDict {[ "description" := JStr "no name" ]};
      ToolDict {[ "name" := JStr "write" ]} ] in
  Forall (fun t => named_if_object t = true) catalogue
  /\ qualified_name <$> default [] (match _convert_mcp_tools_to_openai
                                            (py := example_runtime) "files" catalogue with
                                    | Ok openai_tools => Some openai_tools
                                    | Raise _ => None
                                    end)
     = [ Some "files.read"; Some "files.write" ].
Proof.
  intros catalogue.
  assert (Hnamed : Forall (fun t => named_if_object t = true) catalogue)
    by (repeat constructor).
  split; [exact Hnamed|].
  rewrite (convert_catalogue_skips_rejected (py := example_runtime) "files" catalogue Hnamed).
  reflexivity.
Defined.

(** A catalogue whose second entry is a tool object with an empty
    name. *)
Lemma nameless_tool_object_aborts_catalogue_witness :
  Forall (fun t => named_if_object t = true) [ ToolObject "read" None ∅ ]
  /\ exists e,
       _convert_mcp_tools_to_openai (py := example_runtime) "files"
         [ ToolObject "read" None ∅; ToolObject "" None ∅; ToolObject "write" None ∅ ]
       = Raise e
       /\ exn_kind e = AttributeError.
Proof.
  assert (Hnamed : Forall (fun t => named_if_object t = true) [ ToolObject "read" None ∅ ])
    by (repeat constructor).
  split; [exact Hnamed|].
  eexists. split.
  - exact (nameless_tool_object_aborts_catalogue (py := example_runtime) "files"
             [ ToolObject "read" None ∅ ] [ ToolObject "write" None ∅ ] None ∅ Hnamed).
  - reflexivity.
Defined.

(** ** Config resolver and registry, continued *)

(** Membership in a list that is written out. *)
Ltac in_list := apply list_elem_of_In; cbn; auto 10.

Lemma fields_NoDup (variant : config_class) : NoDup (field_name <$> fields variant).
Proof.
  destruct variant; apply (bool_decide_unpack _); vm_compute; exact I.
Qed.

(** What [from_dict] puts under the name of a field: the value of the
    data, or the default of the field. *)
Lemma build_values_lookup (fs : list field) (data init_values values : gmap string json) :
  build_values fs data init_values = Ok values ->
  NoDup (field_name <$> fs) ->
  (forall f, f ∈ fs ->
     values !! field_name f
     = Some (default (default JNull (field_default f)) (data !! field_name f))
     /\ (forall v, data !! field_name f = Some v -> is_instance v (field_type f) = true))
  /\ (forall key, key ∉ field_name <$> fs -> values !! key = init_values !! key).
Proof.
  revert init_values.
  induction fs as [|f fs IH]; intros init_values Hbuild Hnodup.
  - cbn in Hbuild. injection Hbuild as <-.
    split; [intros f Hf; inversion Hf|reflexivity].
  - cbn [build_values] in Hbuild. cbn [fmap list_fmap] in Hnodup.
    apply NoDup_cons in Hnodup as [Hfresh Hnodup].
    assert (Hstep : exists value,
              build_values fs data (<[field_name f := value]> init_values) = Ok values
              /\ value = default (default JNull (field_default f)) (data !! field_name f)
              /\ (forall v, data !! field_name f = Some v ->
                            is_instance v (field_type f) = true)).
    { destruct (data !! field_name f) as [value|].
      - destruct (is_instance value (field_type f)) eqn:Htype; [|discriminate].
        exists value. split; [exact Hbuild|]. split; [reflexivity|]. congruence.
      - destruct (field_default f) as [value|]; [|discriminate].
        exists value. split; [exact Hbuild|]. split; [reflexivity|]. discriminate. }
    destruct Hstep as (value & Hrest & Hvalue & Htyped).
    destruct (IH _ Hrest Hnodup) as [Hfields Hothers].
    split.
    + intros g Hg. apply elem_of_cons in Hg as [->|Hg]; [|exact (Hfields g Hg)].
      split; [|exact Htyped].
      rewrite (Hothers _ Hfresh), lookup_insert_eq. congruence.
    + intros key Hkey. cbn [fmap list_fmap] in Hkey.
      apply not_elem_of_cons in Hkey as [Hne Hkey].
      rewrite (Hothers _ Hkey), lookup_insert_ne by congruence. reflexivity.
Qed.

(** X6. The two configuration variants exclude each other: no
    descriptor is accepted both as Stdio and as Sse, so the order in
    which [_parse_config] tries them never decides between two
    matches. *)
Theorem config_variants_are_exclusive (descriptor : json) :
  matches StdioServerConfig descriptor && matches SSEServerConfig descriptor = false.
Proof.
  unfold matches.
  destruct descriptor as [| | | | | |d]; try reflexivity.
  destruct (from_dict StdioServerConfig (JObj d)) as [stdio|] eqn:Hstdio; [|reflexivity].
  destruct (from_dict SSEServerConfig (JObj d)) as [sse|] eqn:Hsse; [|reflexivity].
  exfalso.
  apply from_dict_strict in Hstdio as (_ & _ & Hrequired).
  apply from_dict_strict in Hsse as (_ & Hkeys & _).
  assert (Hcommand : "command" ∈ dom d).
  { apply (Hrequired (Field "command" TStr None)); [in_list|reflexivity]. }
  apply Hkeys, list_elem_of_In in Hcommand. cbn in Hcommand.
  intuition discriminate.
Qed.

(** X7. A configuration that [from_dict] builds carries the
    descriptor: under the name of every field of the variant it holds
    the value of the descriptor when the descriptor has the key, and
    the default of the field ([None]) otherwise, and every value taken
    from the descriptor is an instance of the type of its field. *)
Theorem parsed_config_carries_descriptor (variant : config_class)
    (descriptor : gmap string json) (config : server_config) :
  from_dict variant (JObj descriptor) = Ok config ->
  forall f, f ∈ fields variant ->
    config_values config !! field_name f
    = Some (default (default JNull (field_default f)) (descriptor !! field_name f))
    /\ (forall v, descriptor !! field_name f = Some v ->
                  is_instance v (field_type f) = true).
Proof.
  unfold from_dict. case_bool_decide; [|discriminate].
  destruct (build_values (fields variant) descriptor ∅) as [values|] eqn:Hbuild;
    cbn [rbind]; [|discriminate].
  intros [= <-]. cbn [config_values].
  exact (proj1 (build_values_lookup _ _ _ _ Hbuild (fields_NoDup variant))).
Qed.

(** A Stdio descriptor with arguments: the configuration holds the
    command and the arguments, and [None] for the timeout. *)
Lemma parsed_config_carries_descriptor_witness :
  let descriptor : gmap string json :=
    {[ "command" := JStr "files-server"; "args" := JArr [ JStr "--root"; JStr "/srv" ] ]} in
  exists config,
    from_dict StdioServerConfig (JObj descriptor) = Ok config
    /\ config_values config !! "args" = Some (JArr [ JStr "--root"; JStr "/srv" ])
    /\ config_values config !! "timeout" = Some JNull.
Proof.
  intros descriptor.
  assert (Hparsed : exists config, from_dict StdioServerConfig (JObj descriptor) = Ok config)
    by (eexists; vm_compute; reflexivity).
  destruct Hparsed as [config Hparsed].
  exists config. split; [exact Hparsed|].
  pose proof (parsed_config_carries_descriptor _ _ _ Hparsed) as Hfields.
  split.
  - apply (Hfields (Field "args" (TOptional (TList TStr)) (Some JNull))). in_list.
  - apply (Hfields (Field "timeout" (TOptional TFloat) (Some JNull))). in_list.
Defined.

Lemma from_dict_attr (variant : config_class) (descriptor : gmap string json)
    (config : server_config) (f : field) :
  from_dict variant (JObj descriptor) = Ok config ->
  f ∈ fields variant ->
  default JNull (field_default f) = JNull ->
  config_attr config (field_name f) = default JNull (descriptor !! field_name f).
Proof.
  intros Hfrom Hf Hdefault.
  unfold from_dict in Hfrom. case_bool_decide; [|discriminate].
  destruct (build_values (fields variant) descriptor ∅) as [values|] eqn:Hbuild;
    cbn [rbind] in Hfrom; [|discriminate].
  injection Hfrom as <-.
  destruct (proj1 (build_values_lookup _ _ _ _ Hbuild (fields_NoDup variant)) f Hf)
    as [Hvalue _].
  unfold config_attr. cbn [config_values]. rewrite Hvalue, Hdefault.
  destruct (descriptor !! field_name f); reflexivity.
Qed.

(** On a descriptor that is a [dict], [create_client] returns a new
    client when the Stdio variant accepts the descriptor and [None]
    otherwise. *)
Lemma create_client_dict (server_name : string) (descriptor : gmap string json) :
  create_client server_name (JObj descriptor)
  = Ok (if matches StdioServerConfig (JObj descriptor)
        then Some (new_client server_name (descriptor_params descriptor))
        else None).
Proof.
  unfold create_client, matches. rewrite parse_config_cases.
  destruct (from_dict StdioServerConfig (JObj descriptor)) as [config|e] eqn:Hstdio.
  - destruct (from_dict_strict _ _ _ Hstdio) as (Htype & _ & _).
    assert (Hcommand : config_attr config "command"
                       = default JNull (descriptor !! "command"))
      by (apply (from_dict_attr _ _ _ (Field "command" TStr None) Hstdio);
          [in_list|reflexivity]).
    assert (Hargs : config_attr config "args" = default JNull (descriptor !! "args"))
      by (apply (from_dict_attr _ _ _
                   (Field "args" (TOptional (TList TStr)) (Some JNull)) Hstdio);
          [in_list|reflexivity]).
    assert (Henv : config_attr config "env" = default JNull (descriptor !! "env"))
      by (apply (from_dict_attr _ _ _
                   (Field "env" (TOptional (TDict TStr TStr)) (Some JNull)) Hstdio);
          [in_list|reflexivity]).
    cbn [rbind]. rewrite Htype. cbn [_client_creators]. unfold create_stdio_client.
    rewrite Hcommand, Hargs, Henv. reflexivity.
  - destruct (from_dict SSEServerConfig (JObj descriptor)) as [config|e'] eqn:Hsse.
    + destruct (from_dict_strict _ _ _ Hsse) as (Htype & _ & _).
      cbn [rbind]. rewrite Htype. reflexivity.
    + reflexivity.
Qed.

(** A descriptor that is not a [dict] is not skipped: the
    [AttributeError] of [from_dict] is none of the exceptions that
    [create_client] handles. *)
Lemma create_client_not_dict (server_name : string) (descriptor : json) :
  (forall d, descriptor <> JObj d) ->
  create_client server_name descriptor
  = Raise (Exn AttributeError "object has no attribute 'keys'").
Proof.
  intros Hnot. destruct descriptor; try reflexivity.
  exfalso. eapply Hnot. reflexivity.
Qed.

(** X8. [create_client] on a descriptor that is a [dict] never
    raises: when the Stdio variant accepts the descriptor it returns a
    new client that is [DISCONNECTED], has no session and carries the
    command, the arguments ([[]] when absent) and the environment of
    the descriptor; otherwise, for an Sse descriptor (parsed, then
    refused) as for a descriptor of no known type, it returns [None].
    On a descriptor that is not a [dict] it raises [AttributeError]. *)
Theorem create_client_on_descriptor (server_name : string) (descriptor : json) :
  match descriptor with
  | JObj d =>
      if matches StdioServerConfig descriptor
      then exists client,
             create_client server_name descriptor = Ok (Some client)
             /\ name client = server_name
             /\ state client = DISCONNECTED
             /\ session client = None
             /\ stdio_params client = descriptor_params d
      else create_client server_name descriptor = Ok None
  | _ =>
      exists e, create_client server_name descriptor = Raise e
                /\ exn_kind e = AttributeError
  end.
Proof.
  destruct descriptor as [| | | | | |d];
    try (eexists; split; [apply create_client_not_dict; discriminate|reflexivity]).
  rewrite create_client_dict.
  destruct (matches StdioServerConfig (JObj d)); [|reflexivity].
  eexists. split; [reflexivity|]. repeat split.
Qed.

Lemma create_clients_lookup (items : list (string * json))
    (clients : gmap string MCPStdioClient) :
  NoDup items.*1 ->
  Forall (fun item : string * json => exists d, item.2 = JObj d) items ->
  exists created,
    create_clients items clients = Ok created
    /\ forall server_name,
         created !! server_name
         = match (list_to_map items : gmap string json) !! server_name with
           | Some (JObj d) =>
               if matches StdioServerConfig (JObj d)
               then Some (new_client server_name (descriptor_params d))
               else clients !! server_name
           | _ => clients !! server_name
           end.
Proof.
  revert clients.
  induction items as [|[key descriptor] items IH]; intros clients Hnodup Hdicts.
  - exists clients. split; [reflexivity|]. intros server_name.
    cbn. rewrite lookup_empty. reflexivity.
  - cbn [fmap list_fmap fst] in Hnodup. apply NoDup_cons in Hnodup as [Hfresh Hnodup].
    apply Forall_cons in Hdicts as [[d Hd] Hdicts]. cbn [snd] in Hd. subst descriptor.
    cbn [create_clients]. rewrite create_client_dict. cbn [rbind].
    match goal with
    | |- context [create_clients items ?acc] => set (kept := acc)
    end.
    destruct (IH kept Hnodup Hdicts) as (created & Hcreated & Hlookup).
    exists created. split; [exact Hcreated|].
    intros server_name. rewrite Hlookup.
    cbn [list_to_map foldr uncurry]. cbn [fst snd].
    destruct (decide (server_name = key)) as [->|Hne].
    + rewrite lookup_insert_eq.
      rewrite (not_elem_of_list_to_map_1 _ _ Hfresh).
      unfold kept. destruct (matches StdioServerConfig (JObj d));
        [apply lookup_insert_eq|reflexivity].
    + rewrite (lookup_insert_ne _ key server_name) by congruence.
      assert (Hkept : kept !! server_name = clients !! server_name).
      { unfold kept. destruct (matches StdioServerConfig (JObj d)); [|reflexivity].
        apply lookup_insert_ne. congruence. }
      destruct (list_to_map items !! server_name) as [[| | | | | |d']|];
        try exact Hkept.
      destruct (matches StdioServerConfig (JObj d')); [reflexivity|exact Hkept].
Qed.


Section LoadProperties.
Context {py : PyRuntime} {World : Type} {ext : Collaborators World}.

(** X9. When the descriptor file decodes to an object whose
    [mcpServers] entries are all objects, [load_mcp_servers] returns a
    registry with exactly one new, disconnected client for every entry
    that the Stdio variant accepts, under the name of the entry; Sse
    entries and entries of no known type are left out without an
    error.  Without an [mcpServers] key the registry is empty. *)
Theorem load_mcp_servers_creates_stdio_clients (path text : string) (st : system World)
    (w : World) (config servers : gmap string json) :
  open_read path (world st) = (Ok text, w) ->
  json_loads text = Some (JObj config) ->
  py_get (JObj config) "mcpServers" (JObj ∅) = Ok (JObj servers) ->
  map_Forall (fun _ descriptor => exists d, descriptor = JObj d) servers ->
  exists clients,
    load_mcp_servers path st = (Ok clients, System w (trace st ++ [OpenRead path]))
    /\ forall server_name,
         clients !! server_name
         = match servers !! server_name with
           | Some (JObj d) =>
               if matches StdioServerConfig (JObj d)
               then Some (new_client server_name (descriptor_params d))
               else None
           | _ => None
           end.
Proof.
  intros Hread Hloads Hservers Hdicts.
  destruct (create_clients_lookup (map_to_list servers) ∅) as (clients & Hcreated & Hlookup).
  - apply NoDup_fst_map_to_list.
  - apply Forall_forall. intros [key descriptor] Hin.
    apply elem_of_map_to_list in Hin. exact (Hdicts _ _ Hin).
  - exists clients. split.
    + unfold load_mcp_servers, try_except, bind, perform, lift, loads.
      rewrite Hread, Hloads, Hservers. cbn [py_items]. rewrite Hcreated. reflexivity.
    + intros server_name. rewrite Hlookup, list_to_map_to_list, lookup_empty.
      reflexivity.
Qed.


End LoadProperties.

(** With the descriptor file of the example, the registry holds a
    client for [files] and none for the Sse provider [search]. *)
Lemma load_mcp_servers_creates_stdio_clients_witness :
  exists clients st',
    load_mcp_servers (py := config_runtime) (ext := scripted)
      "/config/mcp_config.json" (System (configured_world mcp_config_text) [])
    = (Ok clients, st')
    /\ clients !! "files"
       = Some (new_client "files"
                 {| command := JStr "files-server"; args := JArr []; env := JNull |})
    /\ clients !! "search" = None.
Proof.
  destruct (load_mcp_servers_creates_stdio_clients (py := config_runtime) (ext := scripted)
              "/config/mcp_config.json" mcp_config_text
              (System (configured_world mcp_config_text) [])
              (configured_world mcp_config_text) mcp_config
              {[ "files" := JObj {[ "command" := JStr "files-server" ]};
                 "search" := JObj {[ "url" := JStr "http://localhost:9000/sse" ]} ]})
    as (clients & Hload & Hlookup).
  - reflexivity.
  - reflexivity.
  - reflexivity.
  - apply map_Forall_insert_2; [eauto|]. apply map_Forall_singleton. eauto.
  - exists clients. eexists. split; [exact Hload|].
    rewrite !Hlookup. split; reflexivity.
Defined.


(** ** Tool client life cycle *)

Lemma create_client_new (server_name : string) (descriptor : json)
    (client : MCPStdioClient) :
  create_client server_name descriptor = Ok (Some client) ->
  exists params, client = new_client server_name params.
Proof.
  destruct descriptor as [| | | | | |d]; try discriminate.
  rewrite create_client_dict.
  destruct (matches StdioServerConfig (JObj d)); [|discriminate].
  intros [= <-]. eauto.
Qed.

Lemma create_clients_new (items : list (string * json))
    (clients created : gmap string MCPStdioClient) :
  create_clients items clients = Ok created ->
  map_Forall (fun _ client => state client = DISCONNECTED) clients ->
  map_Forall (fun _ client => state client = DISCONNECTED) created.
Proof.
  revert clients.
  induction items as [|[server_name descriptor] items IH]; intros clients Hcreate Hnew.
  - injection Hcreate as <-. exact Hnew.
  - cbn [create_clients] in Hcreate.
    destruct (create_client server_name descriptor) as [[client|]|e] eqn:Hclient;
      cbn [rbind] in Hcreate; [| |discriminate].
    + apply (IH _ Hcreate). apply map_Forall_insert_2; [|exact Hnew].
      destruct (create_client_new _ _ _ Hclient) as [params ->]. reflexivity.
    + apply (IH _ Hcreate Hnew).
Qed.

Section LifeCycle.
Context {py : PyRuntime} {World : Type} {ext : Collaborators World}.

(** Case on the outcome of every awaited operation of a method. *)
Ltac await :=
  repeat
    (match goal with
     | |- context [enter_stdio_client ?a ?b ?c] =>
         destruct (enter_stdio_client a b c) as [[?|?] ?]
     | |- context [enter_client_session ?a ?b] =>
         destruct (enter_client_session a b) as [[?|?] ?]
     | |- context [session_initialize ?a ?b] =>
         destruct (session_initialize a b) as [[?|?] ?]
     | |- context [session_list_tools ?a ?b] =>
         destruct (session_list_tools a b) as [[?|?] ?]
     | |- context [exit_stack_aclose ?a ?b] =>
         destruct (exit_stack_aclose a b) as [[?|?] ?]
     | |- context [_convert_mcp_tools_to_openai ?a ?b] =>
         destruct (_convert_mcp_tools_to_openai a b)
     end;
     cbn -[_convert_mcp_tools_to_openai]).

Ltac run_connect :=
  unfold connect, connect_attempt, aclose, with_self, assign, try_except,
    bind, local, inner, update, perform, lift, ret, raise;
  cbn -[_convert_mcp_tools_to_openai];
  try (case_bool_decide; [congruence|]);
  cbn -[_convert_mcp_tools_to_openai].

(** Every client that [load_mcp_servers] returns is new. *)
Lemma load_mcp_servers_new (path : string) (st st' : system World)
    (clients : gmap string MCPStdioClient) :
  load_mcp_servers path st = (Ok clients, st') ->
  map_Forall (fun _ client => state client = DISCONNECTED) clients.
Proof.
  unfold load_mcp_servers, try_except, bind, perform, lift, raise.
  destruct (open_read path (world st)) as [[text|e] w]; cbn.
  - destruct (loads text) as [config|e]; cbn.
    + assert (Hitems : forall items : result (list (string * json)),
                match items with
                | Ok items => (create_clients items ∅, System w (trace st ++ [OpenRead path]))
                | Raise e => (Raise e, System w (trace st ++ [OpenRead path]))
                end = (Ok clients, st') ->
                map_Forall (fun _ client => state client = DISCONNECTED) clients).
      { intros [items|e] [= Hcreate _]. eapply create_clients_new; [exact Hcreate|].
        apply map_Forall_empty. }
      destruct config as [| | | | | |config]; cbn;
        repeat (match goal with
                | |- context [if ?b then _ else _] => destruct b
                end; cbn); try discriminate.
      destruct (py_items (default (JObj ∅) (config !! "mcpServers"))) as [items|e]; cbn.
      * destruct (create_clients items ∅) as [created|e] eqn:Hcreate; cbn.
        -- intros [= <- _]. eapply create_clients_new; [exact Hcreate|].
           apply map_Forall_empty.
        -- repeat (match goal with
                   | |- context [if ?b then _ else _] => destruct b
                   end; cbn); discriminate.
      * repeat (match goal with
                | |- context [if ?b then _ else _] => destruct b
                end; cbn); discriminate.
    + repeat (match goal with
              | |- context [if ?b then _ else _] => destruct b
              end; cbn); discriminate.
  - repeat (match goal with
            | |- context [if ?b then _ else _] => destruct b
            end; cbn); discriminate.
Qed.

(** A [connect] that returns on a client that was not connected
    leaves it connected, with a session and a translated catalogue. *)
Lemma connect_usable (self self' : MCPStdioClient) (st st' : system World) :
  state self <> CONNECTED ->
  connect (self, st) = (Ok tt, (self', st')) ->
  usable self'.
Proof.
  intros Hstate. run_connect. await; intros [= <- _]; try discriminate.
  unfold usable. cbn. eauto.
Qed.

Lemma connect_all_usable (servers : list (string * MCPStdioClient))
    (connected_servers : gmap string MCPStdioClient) (st : system World) :
  Forall (fun server : string * MCPStdioClient => state server.2 = DISCONNECTED) servers ->
  map_Forall (fun _ client => usable client) connected_servers ->
  exists registry st',
    connect_all servers connected_servers st = (Ok registry, st')
    /\ map_Forall (fun _ client => usable client) registry
    /\ dom connected_servers ⊆ dom registry.
Proof.
  revert connected_servers st.
  induction servers as [|[server_name mcp_server] servers IH];
    intros connected_servers st Hnew Husable.
  - exists connected_servers, st. split; [reflexivity|]. split; [exact Husable|reflexivity].
  - apply Forall_cons in Hnew as [Hstate Hnew]. cbn [snd] in Hstate.
    cbn [connect_all].
    destruct (connect (mcp_server, st)) as [[[]|e] [mcp_server' st1]] eqn:Hconnect.
    + assert (Hclient : usable mcp_server')
        by (eapply connect_usable; [|exact Hconnect]; congruence).
      destruct (IH (<[server_name := mcp_server']> connected_servers) st1 Hnew)
        as (registry & st' & Hall & Hregistry & Hdom).
      { apply map_Forall_insert_2; assumption. }
      exists registry, st'. split; [exact Hall|]. split; [exact Hregistry|].
      etrans; [|exact Hdom]. rewrite dom_insert. apply union_subseteq_r.
    + apply (IH connected_servers st1 Hnew Husable).
Qed.

(** X11. The startup hook keeps the registry usable: when every
    client of [connected_servers] is connected, with a session and a
    translated catalogue, [init_mcp_servers] returns a registry whose
    clients are all so too.  No provider that was registered is
    removed, and a provider whose [connect] raises is left out rather
    than registered in a state in which it cannot be used. *)
Theorem init_mcp_servers_keeps_registry_usable (path : string)
    (connected_servers : gmap string MCPStdioClient) (st : system World) :
  map_Forall (fun _ client => usable client) connected_servers ->
  exists registry st',
    init_mcp_servers path connected_servers st = (Ok registry, st')
    /\ map_Forall (fun _ client => usable client) registry
    /\ dom connected_servers ⊆ dom registry.
Proof.
  intros Husable. unfold init_mcp_servers, try_except, bind.
  destruct (load_mcp_servers path st) as [[mcp_servers|e] st1] eqn:Hload.
  - destruct (connect_all_usable (map_to_list mcp_servers) connected_servers st1)
      as (registry & st' & Hall & Hregistry & Hdom).
    + apply list.Forall_forall. intros [server_name mcp_server] Hin.
      apply elem_of_map_to_list in Hin.
      exact (load_mcp_servers_new _ _ _ _ Hload _ _ Hin).
    + exact Husable.
    + exists registry, st'. rewrite Hall. auto.
  - exists connected_servers, st1. split; [reflexivity|]. split; [exact Husable|reflexivity].
Qed.

(** X12. A [connect] on a client that is not connected, when the
    transport opens, the session initializes, the provider lists its
    tools and the catalogue is translated, performs these four
    operations in this order and nothing else, and leaves the client
    [CONNECTED] with the catalogue of the provider and its
    translation; [list_tools] then returns the translation.  The
    name and the parameters of the client are unchanged. *)
Theorem connect_establishes_session (self : MCPStdioClient) (st : system World)
    (w1 w2 w3 w4 : World) (response_tools : list mcp_tool) (translation : list json) :
  state self <> CONNECTED ->
  enter_stdio_client (name self) (stdio_params self) (world st) = (Ok tt, w1) ->
  enter_client_session (name self) w1 = (Ok tt, w2) ->
  session_initialize (name self) w2 = (Ok tt, w3) ->
  session_list_tools (name self) w3 = (Ok response_tools, w4) ->
  _convert_mcp_tools_to_openai (name self) response_tools = Ok translation ->
  exists self',
    connect (self, st)
    = (Ok tt,
       (self',
        System w4
          (trace st ++ [ EnterStdioClient (name self) (stdio_params self);
                         EnterClientSession (name self);
                         SessionInitialize (name self);
                         SessionListTools (name self) ])))
    /\ state self' = CONNECTED
    /\ is_Some (session self')
    /\ mcp_tools self' = Some response_tools
    /\ openai_tools self' = Some translation
    /\ list_tools self' = Ok translation
    /\ name self' = name self
    /\ stdio_params self' = stdio_params self.
Proof.
  intros Hstate Hopen Hsession Hinit Hlist Htranslate.
  eexists. split.
  - run_connect. rewrite Hopen. cbn -[_convert_mcp_tools_to_openai].
    rewrite Hsession. cbn -[_convert_mcp_tools_to_openai].
    rewrite Hinit. cbn -[_convert_mcp_tools_to_openai].
    rewrite Hlist. cbn -[_convert_mcp_tools_to_openai].
    rewrite Htranslate. cbn.
    repeat rewrite <- app_assoc. reflexivity.
  - cbn. repeat split. eauto.
Qed.

(** X13. A [connect] that raises leaves the client in [ERROR] with
    the translated catalogue it had before, and the last thing it did
    was to close the exit stack: the transport of a failed attempt is
    always released.  What is raised is a connection failure, and the
    session reference is cleared, unless closing the exit stack
    itself raised: then that exception escapes. *)
Theorem failed_connect_closes_transport (self self' : MCPStdioClient)
    (st st' : system World) (e : exn) :
  state self <> CONNECTED ->
  connect (self, st) = (Raise e, (self', st')) ->
  state self' = ERROR
  /\ openai_tools self' = openai_tools self
  /\ (exists events, trace st' = trace st ++ events ++ [ExitStackClose (name self)])
  /\ ((exn_kind e = MCPConnectionError /\ session self' = None)
      \/ exists w, exit_stack_aclose (name self) w = (Raise e, world st')).
Proof.
  intros Hstate. run_connect.
  repeat
    (match goal with
     | |- context [enter_stdio_client ?a ?b ?c] =>
         destruct (enter_stdio_client a b c) as [[?|?] ?]
     | |- context [enter_client_session ?a ?b] =>
         destruct (enter_client_session a b) as [[?|?] ?]
     | |- context [session_initialize ?a ?b] =>
         destruct (session_initialize a b) as [[?|?] ?]
     | |- context [session_list_tools ?a ?b] =>
         destruct (session_list_tools a b) as [[?|?] ?]
     | |- context [exit_stack_aclose ?a ?b] =>
         destruct (exit_stack_aclose a b) as [[?|?] ?] eqn:?
     | |- context [_convert_mcp_tools_to_openai ?a ?b] =>
         destruct (_convert_mcp_tools_to_openai a b)
     end;
     cbn -[_convert_mcp_tools_to_openai]);
    intros [= <- <- <-]; cbn;
    (split; [reflexivity|]); (split; [reflexivity|]);
    (split; [repeat rewrite <- app_assoc; cbn [app];
             match goal with
             | |- exists events, ?t ++ ?l = ?t ++ events ++ [?x] =>
                 let l' := eval cbv in (removelast l) in exists l'; reflexivity
             end|]);
    solve [left; split; reflexivity | right; eauto].
Qed.

(** X14. A [disconnect] that returns on a client that was not
    [DISCONNECTED] has closed the exit stack (and done nothing else
    outside), and leaves the client [DISCONNECTED] without a session;
    the catalogue and its translation stay as they were.  After it, a
    second [disconnect] does nothing, and [list_tools] and
    [call_tool] raise [RuntimeError] without touching the outside
    world. *)
Theorem disconnect_releases_session (self self' : MCPStdioClient)
    (st st' : system World) :
  state self <> DISCONNECTED ->
  disconnect (self, st) = (Ok tt, (self', st')) ->
  state self' = DISCONNECTED
  /\ session self' = None
  /\ mcp_tools self' = mcp_tools self
  /\ openai_tools self' = openai_tools self
  /\ trace st' = trace st ++ [ExitStackClose (name self)]
  /\ disconnect (self', st') = (Ok tt, (self', st'))
  /\ list_tools self' = Raise (Exn RuntimeError ("Not connected to " +:+ name self))
  /\ forall tool arguments,
       call_tool self' tool arguments st'
       = (Raise (Exn RuntimeError ("Not connected to " +:+ name self)), st').
Proof.
  intros Hstate.
  unfold disconnect, with_self. cbn [fst].
  rewrite bool_decide_eq_false_2 by exact Hstate.
  unfold aclose, with_self, assign, bind, local, inner, update, perform, raise. cbn.
  destruct (exit_stack self); [|discriminate]. cbn.
  destruct (exit_stack_aclose (name self) (world st)) as [[[]|e] w]; cbn; [|discriminate].
  intros [= <- <-]. cbn. repeat split.
Qed.



End LifeCycle.

(** With the descriptor file of the example and an empty registry,
    the startup hook registers [files], connected. *)
Lemma init_mcp_servers_keeps_registry_usable_witness :
  map_Forall (fun _ client => usable client) (∅ : gmap string MCPStdioClient)
  /\ exists registry st',
       init_mcp_servers (py := config_runtime) (ext := scripted)
         "/config/mcp_config.json" ∅ (System (configured_world mcp_config_text) [])
       = (Ok registry, st')
       /\ map_Forall (fun _ client => usable client) registry
       /\ dom (∅ : gmap string MCPStdioClient) ⊆ dom registry.
Proof.
  split; [apply map_Forall_empty|].
  apply (init_mcp_servers_keeps_registry_usable (py := config_runtime) (ext := scripted)
           "/config/mcp_config.json" ∅ (System (configured_world mcp_config_text) [])).
  apply map_Forall_empty.
Defined.

(** The client of [files] in the world of the examples: [connect]
    establishes the session and [list_tools] returns the translation
    of the catalogue. *)
Lemma connect_establishes_session_witness :
  let self :=
    new_client "files" {| command := JStr "files-server"; args := JArr []; env := JNull |} in
  state self <> CONNECTED
  /\ exists self' st',
       connect (py := example_runtime) (ext := scripted) (self, System (example_world []) [])
       = (Ok tt, (self', st'))
       /\ state self' = CONNECTED
       /\ length (trace st') = 4%nat
       /\ exists translation,
            list_tools self' = Ok translation /\ length translation = 1%nat.
Proof.
  intros self. split; [discriminate|].
  assert (Htranslate : exists translation,
            _convert_mcp_tools_to_openai (py := example_runtime) "files"
              [ ToolObject "read" (Some "Read a file") ∅ ] = Ok translation
            /\ length translation = 1%nat)
    by (eexists; split; vm_compute; reflexivity).
  destruct Htranslate as (translation & Htranslate & Hlength).
  destruct (connect_establishes_session (py := example_runtime) (ext := scripted)
              self (System (example_world []) [])
              (example_world []) (example_world []) (example_world []) (example_world [])
              [ ToolObject "read" (Some "Read a file") ∅ ] translation)
    as (self' & Hconnect & Hstate & _ & _ & _ & Hlist & _);
    [discriminate|reflexivity|reflexivity|reflexivity|reflexivity|exact Htranslate|].
  exists self'. eexists. split; [exact Hconnect|].
  split; [exact Hstate|]. split; [reflexivity|].
  exists translation. split; [exact Hlist|exact Hlength].
Defined.

(** The client of [db], whose command cannot be started: the failed
    attempt ends by closing the exit stack. *)
Lemma failed_connect_closes_transport_witness :
  state db_client <> CONNECTED
  /\ exists e st',
       connect (py := scripted_runtime []) (ext := scripted) (db_client, System quiet [])
       = (Raise e, st')
       /\ state st'.1 = ERROR
       /\ exists events, trace st'.2 = [] ++ events ++ [ExitStackClose "db"].
Proof.
  split; [discriminate|].
  assert (Hconnect : exists e self' st',
            connect (py := scripted_runtime []) (ext := scripted)
              (db_client, System quiet []) = (Raise e, (self', st')))
    by (do 3 eexists; vm_compute; reflexivity).
  destruct Hconnect as (e & self' & st' & Hconnect).
  destruct (failed_connect_closes_transport (py := scripted_runtime []) (ext := scripted)
              db_client self' (System quiet []) st' e)
    as (Hstate & _ & Htrace & _); [discriminate|exact Hconnect|].
  exists e, (self', st'). split; [exact Hconnect|]. split; [exact Hstate|exact Htrace].
Defined.

(** The client of [files] of the examples, disconnected. *)
Lemma disconnect_releases_session_witness :
  state files_client <> DISCONNECTED
  /\ exists self' st',
       disconnect (ext := scripted)
         (files_client, System (example_world []) [])
       = (Ok tt, (self', st'))
       /\ state self' = DISCONNECTED
       /\ trace st' = [] ++ [ExitStackClose (name files_client)].
Proof.
  split; [vm_compute; discriminate|].
  assert (Hdisconnect : exists self' st',
            disconnect (ext := scripted)
              (files_client, System (example_world []) []) = (Ok tt, (self', st')))
    by (do 2 eexists; vm_compute; reflexivity).
  destruct Hdisconnect as (self' & st' & Hdisconnect).
  destruct (disconnect_releases_session (ext := scripted)
              files_client self' (System (example_world []) []) st')
    as (Hstate & _ & _ & _ & Htrace & _);
    [vm_compute; discriminate|exact Hdisconnect|].
  exists self', st'. split; [exact Hdisconnect|]. split; [exact Hstate|exact Htrace].
Defined.

(** ** Tool-call resolver *)

(** The two ways in which [parse_tools_from_response] finds no tool
    call: it raises, or it returns the empty list. *)
Ltac parse_raises := split; [split; intros [? ?]; discriminate|discriminate].

Ltac parse_finds_none :=
  split; [split; intros [[= <-] ?]; discriminate|intros [= <-] _; reflexivity].

(** X16. [parse_tools_from_response] returns a truthy value exactly
    when that value is at [choices[0].message.tool_calls] of the
    completion; anything else that it returns is the empty list.  So
    the tool calls of the second and later choices are never seen. *)
Theorem parse_tools_reads_first_choice (response_data tool_calls : json) :
  (parse_tools_from_response response_data = Ok tool_calls /\ truthy tool_calls = true
   <-> tool_calls_at response_data = Some tool_calls /\ truthy tool_calls = true)
  /\ (parse_tools_from_response response_data = Ok tool_calls ->
      truthy tool_calls = false -> tool_calls = JArr []).
Proof.
  unfold parse_tools_from_response, tool_calls_at.
  destruct response_data as [| | | | | |d]; try parse_raises.
  cbn [py_get py_getitem rbind].
  destruct (d !! "choices") as [choices|] eqn:Hchoices; cbn [default]; unfold id;
    [|cbn; parse_finds_none].
  destruct choices as [|b|n|m e|s|[|first rest]|choices]; cbn;
    try parse_raises; try parse_finds_none.
  - destruct b; cbn; [parse_raises|parse_finds_none].
  - destruct (n =? 0)%Z; cbn; [parse_finds_none|parse_raises].
  - destruct (m =? 0)%Z; cbn; [parse_finds_none|parse_raises].
  - destruct s as [|c s]; cbn; [parse_finds_none|parse_raises].
  - destruct first as [| | | | | |first]; cbn; try parse_raises.
    destruct (first !! "message") as [message|] eqn:Hmessage; cbn.
    + destruct message as [| | | | | |message]; cbn; try parse_raises.
      destruct (message !! "tool_calls") as [found|] eqn:Hfound; cbn.
      * destruct (truthy found) eqn:Hfound_truthy; cbn.
        -- split; [split; intros [[= <-] ?]; auto|].
           intros [= <-] Hfalse. congruence.
        -- split; [split; [intros [[= <-] ?]; discriminate|intros [[= <-] ?]; congruence]|].
           intros [= <-] _. reflexivity.
      * split; [split; [intros [[= <-] ?]; discriminate|intros [? ?]; discriminate]|].
        intros [= <-] _. reflexivity.
    + rewrite lookup_empty. cbn.
      split; [split; [intros [[= <-] ?]; discriminate|intros [? ?]; discriminate]|].
      intros [= <-] _. reflexivity.
  - case_bool_decide; cbn; [parse_finds_none|parse_raises].
Qed.

Section InvocationProperties.
Context {py : PyRuntime} {World : Type} {ext : Collaborators World}.
Variable connected_servers : gmap string MCPStdioClient.

Lemma invoke_trace (namespace tool_name : string) (tool_args : json) (st : system World) :
  trace (invoke connected_servers namespace tool_name tool_args st).2
  = trace st
    ++ match connected_servers !! namespace with
       | Some mcp_tool =>
           if is_connected mcp_tool && bool_decide (is_Some (session mcp_tool))
           then [SessionCallTool (name mcp_tool) tool_name tool_args]
           else []
       | None => []
       end.
Proof.
  unfold invoke.
  destruct (connected_servers !! namespace) as [mcp_tool|];
    [|symmetry; apply app_nil_r].
  unfold call_tool.
  destruct (is_connected mcp_tool); cbn [negb andb]; [|symmetry; apply app_nil_r].
  destruct (session mcp_tool); cbn; [|symmetry; apply app_nil_r].
  unfold perform.
  destruct (session_call_tool (name mcp_tool) tool_name tool_args (world st)); reflexivity.
Qed.

Lemma execute_tool_call_trace (tool_call : json) (messages : list json)
    (st : system World) :
  trace (execute_tool_call connected_servers tool_call (messages, st)).2.2
  = trace st ++ invocation connected_servers tool_call.
Proof.
  rewrite execute_tool_call_run. unfold invocation.
  destruct (read_tool_call tool_call) as [[[[id args] ns] t]|e]; cbn [fst snd].
  - apply invoke_trace.
  - symmetry. apply app_nil_r.
Qed.

Lemma execute_loop_trace (tool_calls : list json) (messages : list json)
    (st : system World) :
  Forall (fun tool_call => well_formed_call tool_call = true) tool_calls ->
  trace (execute_loop connected_servers tool_calls (messages, st)).2.2
  = trace st ++ concat (invocation connected_servers <$> tool_calls).
Proof.
  revert messages st.
  induction tool_calls as [|tool_call rest IH]; intros messages st Hwell.
  - cbn. symmetry. apply app_nil_r.
  - apply Forall_cons in Hwell as [Hcall Hrest].
    cbn [execute_loop fmap list_fmap concat]. unfold bind.
    pose proof (execute_tool_call_trace tool_call messages st) as Htrace.
    rewrite execute_tool_call_run in Htrace |- *.
    destruct (read_tool_call_well_formed tool_call Hcall)
      as (id & args & ns & t & Hread).
    rewrite Hread in Htrace |- *. cbn [fst snd] in Htrace |- *.
    rewrite IH by exact Hrest. rewrite Htrace, <- app_assoc. reflexivity.
Qed.

(** X17. When every call of a batch is well-formed, what
    [execute_tool_calls] does outside is exactly this: one tool
    invocation for each call whose provider is registered, connected
    and has a session, in the order of the batch, carrying the tool
    name after the dot and the decoded arguments.  Nothing is asked
    of a provider for the other calls, and nothing is sent to the
    upstream API. *)
Theorem tools_are_invoked_in_call_order (tool_calls : list json) (st : system World) :
  Forall (fun tool_call => well_formed_call tool_call = true) tool_calls ->
  trace (execute_tool_calls connected_servers (JArr tool_calls) st).2
  = trace st ++ concat (invocation connected_servers <$> tool_calls).
Proof.
  intros Hwell.
  pose proof (execute_loop_trace tool_calls [assistant_message (JArr tool_calls)] st Hwell)
    as Htrace.
  unfold execute_tool_calls. rewrite run_tool_calls_list.
  destruct (execute_loop connected_servers tool_calls
              ([assistant_message (JArr tool_calls)], st)) as [[[]|e] [messages st']];
    exact Htrace.
Qed.

(** X18. A call to a provider that is registered but not connected
    is answered, not raised: the tool-result message says that the
    provider is not connected, nothing is asked of the provider, and
    the batch goes on. *)
Theorem disconnected_provider_is_answered (tool_call tool_call_id tool_args : json)
    (namespace tool_name : string) (mcp_tool : MCPStdioClient)
    (messages : list json) (st : system World) :
  read_tool_call tool_call = Ok (tool_call_id, tool_args, namespace, tool_name) ->
  connected_servers !! namespace = Some mcp_tool ->
  state mcp_tool <> CONNECTED ->
  execute_tool_call connected_servers tool_call (messages, st)
  = (Ok tt,
     (messages ++
        [tool_message tool_call_id
           ("Error executing tool: Not connected to " +:+ name mcp_tool)],
      st)).
Proof.
  intros Hread Hprovider Hstate.
  rewrite execute_tool_call_run, Hread.
  unfold invoke. rewrite Hprovider. unfold call_tool, is_connected.
  rewrite bool_decide_eq_false_2 by exact Hstate. reflexivity.
Qed.

End InvocationProperties.

(** The completion of the examples that calls [files.read]. *)
Lemma parse_tools_reads_first_choice_witness :
  parse_tools_from_response tool_round = Ok (JArr [ tool_call "call_1" "files.read" "{}" ])
  /\ tool_calls_at tool_round = Some (JArr [ tool_call "call_1" "files.read" "{}" ]).
Proof.
  pose proof (parse_tools_reads_first_choice tool_round
                (JArr [ tool_call "call_1" "files.read" "{}" ])) as [[_ Hparse] _].
  destruct Hparse as [Hparse _]; [split; vm_compute; reflexivity|].
  split; [exact Hparse|vm_compute; reflexivity].
Defined.

(** A batch of three calls, the second to a provider that is not
    registered: two invocations, in call order. *)
Lemma tools_are_invoked_in_call_order_witness :
  let batch :=
    [ tool_call "call_1" "files.read" "{}";
      tool_call "call_2" "ghost.run" "{}";
      tool_call "call_3" "files.write" "{}" ] in
  Forall (fun tool_call => well_formed_call (py := example_runtime) tool_call = true) batch
  /\ trace (execute_tool_calls (py := example_runtime) (ext := scripted) example_registry
              (JArr batch) (System (example_world []) [])).2
     = [ SessionCallTool "files" "read" (JObj ∅);
         SessionCallTool "files" "write" (JObj ∅) ].
Proof.
  intros batch.
  assert (Hwell : Forall (fun tool_call =>
                            well_formed_call (py := example_runtime) tool_call = true) batch)
    by (repeat constructor).
  split; [exact Hwell|].
  rewrite (tools_are_invoked_in_call_order (py := example_runtime) (ext := scripted)
             example_registry batch (System (example_world []) []) Hwell).
  vm_compute. reflexivity.
Defined.

(** The disconnected client of [db] in the registry. *)
Lemma disconnected_provider_is_answered_witness :
  execute_tool_call (py := example_runtime) (ext := scripted) {[ "db" := db_client ]}
    (tool_call "call_1" "db.query" "{}") ([], System quiet [])
  = (Ok tt,
     ([ tool_message (JStr "call_1") "Error executing tool: Not connected to db" ],
      System quiet [])).
Proof.
  apply (disconnected_provider_is_answered (py := example_runtime) (ext := scripted)
           {[ "db" := db_client ]} (tool_call "call_1" "db.query" "{}")
           (JStr "call_1") (JObj ∅) "db" "query" db_client [] (System quiet [])).
  - vm_compute. reflexivity.
  - vm_compute. reflexivity.
  - discriminate.
Defined.

(** ** Request forwarder *)

Lemma forwarded_headers_lookup (items : list (string * string))
    (headers : gmap string string) (header_name : string) :
  forwarded_headers items headers !! header_name
  = match (if bool_decide (lower header_name ∈ excluded_headers) then None
           else last_value header_name items) with
    | Some value => Some value
    | None => headers !! header_name
    end.
Proof.
  revert headers.
  induction items as [|[name value] items IH]; intros headers.
  - cbn. destruct (bool_decide (lower header_name ∈ excluded_headers)); reflexivity.
  - cbn [forwarded_headers last_value]. rewrite IH.
    destruct (decide (lower name ∈ excluded_headers)) as [Hname|Hname].
    + rewrite (bool_decide_eq_true_2 _ Hname).
      destruct (bool_decide (lower header_name ∈ excluded_headers)) eqn:Hexcluded;
        [reflexivity|].
      destruct (last_value header_name items) as [later|]; [reflexivity|].
      destruct (String.eqb_spec name header_name) as [->|Hne]; [|reflexivity].
      apply bool_decide_eq_false_1 in Hexcluded. contradiction.
    + rewrite (bool_decide_eq_false_2 _ Hname).
      destruct (bool_decide (lower header_name ∈ excluded_headers)) eqn:Hexcluded.
      * apply lookup_insert_ne. intros ->.
        apply bool_decide_eq_true_1 in Hexcluded. contradiction.
      * destruct (last_value header_name items) as [later|]; [reflexivity|].
        destruct (String.eqb_spec name header_name) as [->|Hne].
        -- apply lookup_insert_eq.
        -- apply lookup_insert_ne. exact Hne.
Qed.

(** X19. The headers that [proxy_request] forwards: a header whose
    name, in lower case, is one of the seven excluded names is never
    forwarded, in whatever case the caller wrote it; every other
    header is forwarded under its name as written, with the value of
    its last occurrence. *)
Theorem forwarded_headers_drops_hop_by_hop (items : list (string * string))
    (header_name : string) :
  forwarded_headers items ∅ !! header_name
  = if bool_decide (lower header_name ∈ excluded_headers) then None
    else last_value header_name items.
Proof.
  rewrite forwarded_headers_lookup, lookup_empty.
  destruct (bool_decide (lower header_name ∈ excluded_headers)); [reflexivity|].
  destruct (last_value header_name items); reflexivity.
Qed.

Lemma collect_tools_run (servers : list (string * MCPStdioClient)) (tools : list json) :
  match collect_tools servers tools with
  | Ok collected =>
      Forall (fun server : string * MCPStdioClient => is_Some (openai_tools server.2)) servers
      /\ collected = tools ++ (servers ≫= catalogue_of)
  | Raise e =>
      exn_kind e = TypeError
      /\ Exists (fun server : string * MCPStdioClient => openai_tools server.2 = None) servers
  end.
Proof.
  revert tools.
  induction servers as [|[server_name mcp_server] servers IH]; intros tools.
  - cbn. split; [constructor|]. symmetry. apply app_nil_r.
  - cbn [collect_tools].
    destruct (openai_tools mcp_server) as [catalogue|] eqn:Hcatalogue.
    + specialize (IH (tools ++ catalogue)).
      destruct (collect_tools servers (tools ++ catalogue)) as [collected|e].
      * destruct IH as [Hall ->]. split.
        -- constructor; [cbn [snd]; eauto|exact Hall].
        -- cbn [mbind list_bind].
           replace (catalogue_of (server_name, mcp_server)) with catalogue
             by (unfold catalogue_of; cbn [snd]; rewrite Hcatalogue; reflexivity).
           symmetry. apply app_assoc.
      * destruct IH as [Hkind Hexists]. split; [exact Hkind|].
        apply Exists_cons_tl. exact Hexists.
    + split; [reflexivity|]. apply Exists_cons_hd. exact Hcatalogue.
Qed.

(** X20. [get_mcp_tools] returns exactly the tools of the translated
    catalogues of the registered clients, when every one of them has
    a catalogue.  When a registered client has none, it raises
    [TypeError]: the tools of the other clients are not returned. *)
Theorem get_mcp_tools_collects_catalogues
    (connected_servers : gmap string MCPStdioClient) :
  match get_mcp_tools connected_servers with
  | Ok tools =>
      map_Forall (fun _ client => is_Some (openai_tools client)) connected_servers
      /\ forall tool,
           tool ∈ tools
           <-> exists server client catalogue,
                 connected_servers !! server = Some client
                 /\ openai_tools client = Some catalogue
                 /\ tool ∈ catalogue
  | Raise e =>
      exn_kind e = TypeError
      /\ exists server client,
           connected_servers !! server = Some client /\ openai_tools client = None
  end.
Proof.
  unfold get_mcp_tools.
  pose proof (collect_tools_run (map_to_list connected_servers) []) as Hrun.
  destruct (collect_tools (map_to_list connected_servers) []) as [tools|e].
  - destruct Hrun as [Hall ->]. split.
    + intros server client Hclient.
      apply elem_of_map_to_list in Hclient.
      exact (proj1 (list.Forall_forall _ _) Hall _ Hclient).
    + intros tool. cbn [app]. rewrite list_elem_of_bind. split.
      * intros ([server client] & Htool & Hserver).
        apply elem_of_map_to_list in Hserver.
        unfold catalogue_of in Htool. cbn [snd] in Htool.
        destruct (openai_tools client) as [catalogue|] eqn:Hcatalogue;
          [|apply elem_of_nil in Htool; contradiction].
        exists server, client, catalogue. auto.
      * intros (server & client & catalogue & Hclient & Hcatalogue & Htool).
        exists (server, client). split.
        -- unfold catalogue_of. cbn [snd]. rewrite Hcatalogue. exact Htool.
        -- apply elem_of_map_to_list. exact Hclient.
  - destruct Hrun as [Hkind Hexists]. split; [exact Hkind|].
    apply list.Exists_exists in Hexists as ([server client] & Hserver & Hnone).
    apply elem_of_map_to_list in Hserver. eauto.
Qed.

Lemma get_mcp_tools_Ok (connected_servers : gmap string MCPStdioClient) :
  map_Forall (fun _ client => is_Some (openai_tools client)) connected_servers ->
  exists tools, get_mcp_tools connected_servers = Ok tools.
Proof.
  intros Hcatalogues. unfold get_mcp_tools.
  pose proof (collect_tools_run (map_to_list connected_servers) []) as Hrun.
  destruct (collect_tools (map_to_list connected_servers) []) as [tools|e]; [eauto|].
  destruct Hrun as [_ Hexists].
  apply list.Exists_exists in Hexists as ([server client] & Hserver & Hnone).
  apply elem_of_map_to_list in Hserver.
  destruct (Hcatalogues server client Hserver) as [catalogue Hcatalogue].
  cbn [snd] in Hnone. congruence.
Qed.

(** X21. Tool injection on a request that is a JSON object, with a
    registry whose clients all have a catalogue: it never raises; it
    keeps the [tools] of the caller when the request has the key,
    whatever its value; otherwise, when injection is on, it sets
    [tools] to the tools of the registry; and it leaves every other
    key of the request as it is. *)
Theorem with_tools_keeps_request (connected_servers : gmap string MCPStdioClient)
    (inject_tools : bool) (request_data : gmap string json) :
  map_Forall (fun _ client => is_Some (openai_tools client)) connected_servers ->
  exists injected tools,
    with_tools connected_servers inject_tools (JObj request_data) = Ok (JObj injected)
    /\ get_mcp_tools connected_servers = Ok tools
    /\ injected !! "tools"
       = match request_data !! "tools" with
         | Some own => Some own
         | None => if inject_tools then Some (JArr tools) else None
         end
    /\ forall key, key <> "tools" -> injected !! key = request_data !! key.
Proof.
  intros Hcatalogues.
  pose proof (get_mcp_tools_Ok connected_servers Hcatalogues) as [tools Htools].
  unfold with_tools. cbn [tools_absent rbind].
  destruct inject_tools.
  - destruct (request_data !! "tools") as [own|] eqn:Hown.
    + exists request_data, tools. rewrite Hown. auto.
    + rewrite Htools. cbn [rbind py_setitem].
      exists (<["tools" := JArr tools]> request_data), tools.
      split; [reflexivity|]. split; [reflexivity|].
      split; [apply lookup_insert_eq|].
      intros key Hkey. apply lookup_insert_ne. congruence.
  - exists request_data, tools.
    destruct (request_data !! "tools"); auto.
Qed.

Section ForwarderOutcomes.
Context {py : PyRuntime} {World : Type} {ext : Collaborators World}.
Variables (OPENAI_API_BASE_URL : string) (ENABLE_MCP : bool) (MAX_ITERATION : Z).
Variable connected_servers : gmap string MCPStdioClient.







(** X23. A streaming request whose upstream answer has status 200
    is relayed as an event stream with the content of the answer,
    after exactly one upstream request: the content is not decoded
    and no tool is executed, whether or not the proxy has tool
    providers and whatever the answer contains. *)
Theorem streamed_completion_is_relayed (path : string) (request : web_request)
    (inject_tools : bool) (request_data0 request_data stream : json)
    (response : http_response) (st : system World) (w : World) :
  let headers := forwarded_headers (request_headers request) ∅ in
  let upstream :=
    {| method := request_method request;
       url := OPENAI_API_BASE_URL +:+ "/" +:+ path;
       headers := headers;
       json_body := if String.eqb (request_body request) "" then None
                    else Some request_data |} in
  (if String.eqb (request_body request) "" then Some (JObj ∅)
   else json_loads (request_body request)) = Some request_data0 ->
  with_tools connected_servers inject_tools request_data0 = Ok request_data ->
  session_request upstream (world st) = (Ok response, w) ->
  py_get request_data "stream" (JBool false) = Ok stream ->
  truthy stream = true ->
  status response = 200 ->
  proxy_request OPENAI_API_BASE_URL ENABLE_MCP MAX_ITERATION connected_servers
    path request inject_tools st
  = (Ok (StreamResponse 200 event_stream_headers (content response)),
     System w (trace st ++ [SessionRequest upstream])).
Proof.
  intros headers upstream Hbody Htools Hrequest Hstream Htruthy Hstatus.
  rewrite (proxy_request_forwards _ _ _ _ _ _ _ request_data0 request_data response st w
             Hbody Htools Hrequest).
  unfold try_except, relay, bind, lift, ret.
  rewrite Hstream, Htruthy, Hstatus. reflexivity.
Qed.


End ForwarderOutcomes.

(** ** Follow-up requests *)

Section FollowUpProperties.
Context {py : PyRuntime} {World : Type} {ext : Collaborators World}.
Variables (OPENAI_API_BASE_URL : string) (MAX_ITERATION : Z).
Variable connected_servers : gmap string MCPStdioClient.

(** X25. When the first follow-up answer is a completion without
    tool calls, [handle_tool_calls] returns that completion after
    exactly one follow-up request: a [POST] to the chat-completions
    address whose body is the original request with [messages]
    replaced by the extended conversation and [tool_choice]
    removed. *)
Theorem resolution_ends_without_tool_calls (tool_calls messages completion rest : json)
    (original_request : gmap string json) (headers : gmap string string)
    (response : http_response) (st st1 : system World) (w : World) :
  let follow_up_request :=
    {| method := "POST";
       url := follow_up_url OPENAI_API_BASE_URL;
       headers := headers;
       json_body :=
         Some (JObj (delete "tool_choice" (<["messages" := messages]> original_request))) |} in
  (0 < MAX_ITERATION)%Z ->
  extended_messages connected_servers (JObj original_request) tool_calls st
  = (Ok messages, st1) ->
  session_request follow_up_request (world st1) = (Ok response, w) ->
  status response = 200 ->
  json_loads (content response) = Some completion ->
  parse_tools_from_response completion = Ok rest ->
  truthy rest = false ->
  handle_tool_calls OPENAI_API_BASE_URL MAX_ITERATION connected_servers
    tool_calls (JObj original_request) headers st
  = (Ok completion, System w (trace st1 ++ [SessionRequest follow_up_request])).
Proof.
  intros follow_up_request Hmax Hmessages Hrequest Hstatus Hloads Hparse Hnone.
  unfold handle_tool_calls, bind. rewrite Hmessages.
  destruct (Z.to_nat MAX_ITERATION) as [|rounds] eqn:Hrounds; [lia|].
  cbn [follow_up_loop]. unfold bind, follow_up_round, bind, perform, lift, ret, loads.
  fold follow_up_request. rewrite Hrequest, Hstatus. cbn [Z.eqb Pos.eqb].
  rewrite Hloads, Hparse, Hnone. reflexivity.
Qed.

Variables (forwarded : gmap string string) (original : gmap string json).

Lemma execute_loop_events (tool_calls messages : list json) (st : system World) :
  exists events,
    trace (execute_loop connected_servers tool_calls (messages, st)).2.2
    = trace st ++ events
    /\ Forall (follow_up_event (follow_up_url OPENAI_API_BASE_URL) forwarded original)
         events.
Proof.
  revert messages st.
  induction tool_calls as [|tool_call rest IH]; intros messages st.
  - exists []. split; [symmetry; apply app_nil_r|constructor].
  - cbn [execute_loop]. unfold bind.
    pose proof (execute_tool_call_trace connected_servers tool_call messages st) as Htrace.
    assert (Hallowed : Forall (follow_up_event (follow_up_url OPENAI_API_BASE_URL) forwarded original)
                         (invocation connected_servers tool_call)).
    { unfold invocation.
      destruct (read_tool_call tool_call) as [[[[id args] ns] t]|e]; [|constructor].
      destruct (connected_servers !! ns) as [mcp_tool|]; [|constructor].
      destruct (is_connected mcp_tool && bool_decide (is_Some (session mcp_tool)));
        repeat constructor. }
    destruct (execute_tool_call connected_servers tool_call (messages, st))
      as [[[]|e] [messages' st']]; cbn [fst snd] in Htrace |- *.
    + destruct (IH messages' st') as (events & Hrest & Hevents).
      exists (invocation connected_servers tool_call ++ events).
      split; [rewrite Hrest, Htrace, <- app_assoc; reflexivity|].
      apply Forall_app. auto.
    + exists (invocation connected_servers tool_call). auto.
Qed.

Lemma extended_messages_events (request tool_calls : json) (st : system World) :
  exists events,
    trace (extended_messages connected_servers request tool_calls st).2
    = trace st ++ events
    /\ Forall (follow_up_event (follow_up_url OPENAI_API_BASE_URL) forwarded original)
         events.
Proof.
  assert (Hnone : exists events,
            trace st = trace st ++ events
            /\ Forall (follow_up_event (follow_up_url OPENAI_API_BASE_URL) forwarded original)
                 events)
    by (exists []; split; [symmetry; apply app_nil_r|constructor]).
  unfold extended_messages, bind, lift.
  destruct (messages <- py_get request "messages" (JArr []) ;; py_copy messages)%result
    as [messages|e]; [|exact Hnone].
  unfold execute_tool_calls, run_tool_calls, bind, lift.
  destruct (py_iter tool_calls) as [items|e]; [|exact Hnone].
  destruct (execute_loop_events items [assistant_message tool_calls] st)
    as (events & Htrace & Hevents).
  exists events. split; [|exact Hevents].
  destruct (execute_loop connected_servers items ([assistant_message tool_calls], st))
    as [[[]|e] [collected st']]; exact Htrace.
Qed.

Lemma follow_up_round_events (follow_up_request : gmap string json)
    (final_response : option json) (st : system World) :
  follow_up_body original follow_up_request ->
  exists events,
    trace (follow_up_round OPENAI_API_BASE_URL connected_servers forwarded
             follow_up_request final_response st).2
    = trace st ++ events
    /\ Forall (follow_up_event (follow_up_url OPENAI_API_BASE_URL) forwarded original)
         events
    /\ match (follow_up_round OPENAI_API_BASE_URL connected_servers forwarded
                follow_up_request final_response st).1 with
       | Ok (Continue follow_up_request' _) => follow_up_body original follow_up_request'
       | _ => True
       end.
Proof.
  intros Hbody.
  set (request := {| method := "POST"; url := follow_up_url OPENAI_API_BASE_URL;
                     headers := forwarded;
                     json_body := Some (JObj follow_up_request) |}).
  assert (Hrequest : follow_up_event (follow_up_url OPENAI_API_BASE_URL) forwarded original
                       (SessionRequest request))
    by (cbn; repeat split; eauto).
  unfold follow_up_round, bind, perform, lift, ret, raise. fold request.
  destruct (session_request request (world st)) as [[response|e] w];
    [|exists [SessionRequest request]; repeat split; auto].
  destruct (status response =? 200)%Z;
    [|destruct final_response; exists [SessionRequest request]; repeat split; auto].
  destruct (loads (content response)) as [completion|e];
    [|exists [SessionRequest request]; repeat split; auto].
  destruct (parse_tools_from_response completion) as [tool_calls|e];
    [|exists [SessionRequest request]; repeat split; auto].
  destruct (truthy tool_calls);
    [|exists [SessionRequest request]; repeat split; auto].
  destruct (extended_messages_events (JObj follow_up_request) tool_calls
              (System w (trace st ++ [SessionRequest request])))
    as (events & Htrace & Hevents).
  exists (SessionRequest request :: events).
  destruct (extended_messages connected_servers (JObj follow_up_request) tool_calls
              (System w (trace st ++ [SessionRequest request])))
    as [[messages|e] st']; cbn [fst snd trace] in Htrace |- *.
  - split; [rewrite Htrace, <- app_assoc; reflexivity|]. split; [auto|].
    destruct Hbody as (Hmessages & Hchoice & Hkeys). split; [|split].
    + rewrite lookup_insert_eq. eauto.
    + rewrite lookup_insert_ne by discriminate. exact Hchoice.
    + intros key Hkey Hkey'. rewrite lookup_insert_ne by congruence. auto.
  - split; [rewrite Htrace, <- app_assoc; reflexivity|]. auto.
Qed.

Lemma follow_up_loop_events (rounds : nat) (follow_up_request : gmap string json)
    (final_response : option json) (st : system World) :
  follow_up_body original follow_up_request ->
  exists events,
    trace (follow_up_loop OPENAI_API_BASE_URL MAX_ITERATION connected_servers rounds
             forwarded follow_up_request final_response st).2
    = trace st ++ events
    /\ Forall (follow_up_event (follow_up_url OPENAI_API_BASE_URL) forwarded original)
         events.
Proof.
  revert follow_up_request final_response st.
  induction rounds as [|rounds IH]; intros follow_up_request final_response st Hbody.
  - exists []. split; [symmetry; apply app_nil_r|constructor].
  - cbn [follow_up_loop]. unfold bind.
    destruct (follow_up_round_events follow_up_request final_response st Hbody)
      as (events & Htrace & Hevents & Hnext).
    destruct (follow_up_round OPENAI_API_BASE_URL connected_servers forwarded
                follow_up_request final_response st)
      as [[[follow_up_request' final_response'|response]|e] st'];
      cbn [fst snd] in Htrace, Hnext |- *; [|eauto|eauto].
    destruct (IH follow_up_request' (Some final_response') st' Hnext)
      as (events' & Htrace' & Hevents').
    exists (events ++ events'). split.
    + rewrite Htrace', Htrace, <- app_assoc. reflexivity.
    + apply Forall_app. auto.
Qed.

(** X26. Whatever the providers and the upstream API answer, and
    however many rounds the resolution takes, all that
    [handle_tool_calls] does outside is to invoke tools and to send
    follow-up requests; and every follow-up request is a [POST] to
    the chat-completions address, with the headers it was given,
    whose body has [messages], has no [tool_choice], and has every
    other key of the original request (the model, the tools, the
    sampling options) with its original value. *)
Theorem follow_up_requests_keep_the_request (tool_calls : json) (st : system World) :
  exists events,
    trace (handle_tool_calls OPENAI_API_BASE_URL MAX_ITERATION connected_servers
             tool_calls (JObj original) forwarded st).2
    = trace st ++ events
    /\ Forall (follow_up_event (follow_up_url OPENAI_API_BASE_URL) forwarded original)
         events.
Proof.
  unfold handle_tool_calls, bind.
  destruct (extended_messages_events (JObj original) tool_calls st)
    as (events & Htrace & Hevents).
  destruct (extended_messages connected_servers (JObj original) tool_calls st)
    as [[messages|e] st1]; cbn [fst snd] in Htrace |- *; [|eauto].
  destruct (follow_up_loop_events (Z.to_nat MAX_ITERATION)
              (delete "tool_choice" (<["messages" := messages]> original)) None st1)
    as (events' & Htrace' & Hevents').
  { split; [|split].
    - rewrite lookup_delete_ne by discriminate. rewrite lookup_insert_eq. eauto.
    - apply lookup_delete_eq.
    - intros key Hkey Hkey'.
      rewrite lookup_delete_ne by congruence. apply lookup_insert_ne. congruence. }
  exists (events ++ events'). split.
  - rewrite Htrace', Htrace, <- app_assoc. reflexivity.
  - apply Forall_app. auto.
Qed.

Lemma no_request_no_conversation (events : list event) :
  upstream_requests events = 0%nat -> omap conversation_sent events = [].
Proof.
  induction events as [|ev events IH]; [reflexivity|].
  destruct ev; cbn; try exact IH. discriminate.
Qed.

Lemma grows_from_prefix (shorter previous : list json) (sent : list json) :
  shorter `prefix_of` previous -> grows previous sent -> grows shorter sent.
Proof.
  intros Hprefix. destruct sent as [|[| | | | |messages|] later]; cbn; try tauto.
  intros [Hprevious Hlater]. split; [|exact Hlater].
  etrans; [exact Hprefix|exact Hprevious].
Qed.

Lemma extended_messages_Ok (request : gmap string json) (tool_calls messages : json)
    (st st' : system World) :
  extended_messages connected_servers (JObj request) tool_calls st = (Ok messages, st') ->
  exists tool_responses, messages = JArr (messages_of request ++ tool_responses).
Proof.
  unfold extended_messages, bind, lift, messages_of. cbn [py_get rbind].
  destruct (request !! "messages") as [[| | | | |present|present]|]; cbn;
    try discriminate.
  - destruct (execute_tool_calls connected_servers tool_calls st)
      as [[tool_responses|e] st1]; [|discriminate].
    intros [= <- _]. eauto.
  - destruct (execute_tool_calls connected_servers tool_calls st)
      as [[tool_responses|e] st1]; discriminate.
  - destruct (execute_tool_calls connected_servers tool_calls st)
      as [[tool_responses|e] st1]; [|discriminate].
    intros [= <- _]. eauto.
Qed.

Lemma follow_up_round_conversation (follow_up_request : gmap string json)
    (final_response : option json) (messages : list json) (st : system World) :
  follow_up_request !! "messages" = Some (JArr messages) ->
  exists events,
    trace (follow_up_round OPENAI_API_BASE_URL connected_servers forwarded
             follow_up_request final_response st).2
    = trace st ++ events
    /\ omap conversation_sent events = [JArr messages]
    /\ match (follow_up_round OPENAI_API_BASE_URL connected_servers forwarded
                follow_up_request final_response st).1 with
       | Ok (Continue follow_up_request' _) =>
           exists tool_responses,
             follow_up_request' !! "messages" = Some (JArr (messages ++ tool_responses))
       | _ => True
       end.
Proof.
  intros Hmessages.
  set (request := {| method := "POST"; url := follow_up_url OPENAI_API_BASE_URL;
                     headers := forwarded;
                     json_body := Some (JObj follow_up_request) |}).
  assert (Hsent : omap conversation_sent [SessionRequest request] = [JArr messages])
    by (cbn; rewrite Hmessages; reflexivity).
  unfold follow_up_round, bind, perform, lift, ret, raise. fold request.
  destruct (session_request request (world st)) as [[response|e] w];
    [|exists [SessionRequest request]; repeat split; auto].
  destruct (status response =? 200)%Z;
    [|destruct final_response; exists [SessionRequest request]; repeat split; auto].
  destruct (loads (content response)) as [completion|e];
    [|exists [SessionRequest request]; repeat split; auto].
  destruct (parse_tools_from_response completion) as [tool_calls|e];
    [|exists [SessionRequest request]; repeat split; auto].
  destruct (truthy tool_calls);
    [|exists [SessionRequest request]; repeat split; auto].
  destruct (extended_messages_extends connected_servers (JObj follow_up_request) tool_calls
              (System w (trace st ++ [SessionRequest request])))
    as (events & Htrace & Hevents).
  apply no_request_no_conversation in Hevents.
  pose proof (extended_messages_Ok follow_up_request tool_calls) as Hextended.
  exists (SessionRequest request :: events).
  destruct (extended_messages connected_servers (JObj follow_up_request) tool_calls
              (System w (trace st ++ [SessionRequest request])))
    as [[extended|e] st'] eqn:Hrun; cbn [fst snd trace] in Htrace |- *.
  - split; [rewrite Htrace, <- app_assoc; reflexivity|].
    split; [cbn; rewrite Hmessages, Hevents; reflexivity|].
    destruct (Hextended _ _ _ Hrun) as [tool_responses ->].
    exists tool_responses. rewrite lookup_insert_eq.
    unfold messages_of. rewrite Hmessages. reflexivity.
  - split; [rewrite Htrace, <- app_assoc; reflexivity|].
    split; [cbn; rewrite Hmessages, Hevents; reflexivity|exact I].
Qed.

Lemma follow_up_loop_conversation (rounds : nat) (follow_up_request : gmap string json)
    (final_response : option json) (messages : list json) (st : system World) :
  follow_up_request !! "messages" = Some (JArr messages) ->
  exists events,
    trace (follow_up_loop OPENAI_API_BASE_URL MAX_ITERATION connected_servers rounds
             forwarded follow_up_request final_response st).2
    = trace st ++ events
    /\ grows messages (omap conversation_sent events).
Proof.
  revert follow_up_request final_response messages st.
  induction rounds as [|rounds IH];
    intros follow_up_request final_response messages st Hmessages.
  - exists []. split; [symmetry; apply app_nil_r|exact I].
  - cbn [follow_up_loop]. unfold bind.
    destruct (follow_up_round_conversation follow_up_request final_response messages st
                Hmessages) as (events & Htrace & Hsent & Hnext).
    destruct (follow_up_round OPENAI_API_BASE_URL connected_servers forwarded
                follow_up_request final_response st)
      as [[[follow_up_request' final_response'|response]|e] st'];
      cbn [fst snd] in Htrace, Hnext |- *;
      [|exists events; rewrite Hsent; cbn; auto..].
    destruct Hnext as [tool_responses Hnext].
    destruct (IH follow_up_request' (Some final_response') _ st' Hnext)
      as (events' & Htrace' & Hgrows).
    exists (events ++ events'). split.
    + rewrite Htrace', Htrace, <- app_assoc. reflexivity.
    + rewrite omap_app, Hsent. cbn. split; [reflexivity|].
      eapply grows_from_prefix; [|exact Hgrows]. apply prefix_app_r. reflexivity.
Qed.

(** X27. The conversation only grows.  The messages of the first
    follow-up request start with the messages of the original
    request, and the messages of every later follow-up request start
    with those of the one before it: no message that was sent is
    dropped, reordered or rewritten in a later round. *)
Theorem conversation_only_grows (tool_calls : json) (st : system World) :
  exists events,
    trace (handle_tool_calls OPENAI_API_BASE_URL MAX_ITERATION connected_servers
             tool_calls (JObj original) forwarded st).2
    = trace st ++ events
    /\ grows (messages_of original) (omap conversation_sent events).
Proof.
  unfold handle_tool_calls, bind.
  destruct (extended_messages_extends connected_servers (JObj original) tool_calls st)
    as (events & Htrace & Hevents).
  apply no_request_no_conversation in Hevents.
  pose proof (extended_messages_Ok original tool_calls) as Hextended.
  destruct (extended_messages connected_servers (JObj original) tool_calls st)
    as [[messages|e] st1] eqn:Hrun; cbn [fst snd] in Htrace |- *;
    [|exists events; rewrite Hevents; cbn; auto].
  destruct (Hextended _ _ _ Hrun) as [tool_responses ->].
  destruct (follow_up_loop_conversation (Z.to_nat MAX_ITERATION)
              (delete "tool_choice"
                 (<["messages" := JArr (messages_of original ++ tool_responses)]> original))
              None (messages_of original ++ tool_responses) st1)
    as (events' & Htrace' & Hgrows).
  { rewrite lookup_delete_ne by discriminate. apply lookup_insert_eq. }
  exists (events ++ events'). split.
  - rewrite Htrace', Htrace, <- app_assoc. reflexivity.
  - rewrite omap_app, Hevents. cbn [app].
    eapply grows_from_prefix; [|exact Hgrows]. apply prefix_app_r. reflexivity.
Qed.

End FollowUpProperties.

(** ** The forwarder and the resolver on the examples *)

(** The request of the examples gets the tools of the registry and
    keeps its messages. *)
Lemma with_tools_keeps_request_witness :
  map_Forall (fun _ client => is_Some (openai_tools client)) example_registry
  /\ exists injected tools,
       with_tools example_registry true user_request = Ok (JObj injected)
       /\ injected !! "tools" = Some (JArr tools)
       /\ injected !! "messages"
          = Some (JArr [ JObj {[ "role" := JStr "user";
                                 "content" := JStr "read a.txt" ]} ]).
Proof.
  assert (Hcatalogues : map_Forall (fun _ client => is_Some (openai_tools client))
                          example_registry)
    by (apply map_Forall_singleton; vm_compute; eauto).
  split; [exact Hcatalogues|].
  destruct (with_tools_keeps_request example_registry true
              {[ "messages" :=
                   JArr [ JObj {[ "role" := JStr "user";
                                  "content" := JStr "read a.txt" ]} ] ]}
              Hcatalogues)
    as (injected & tools & Hwith & _ & Htools & Hkeys).
  exists injected, tools. split; [exact Hwith|]. split; [exact Htools|].
  rewrite Hkeys by discriminate. reflexivity.
Defined.

(** A streaming request is answered with the stream of the upstream
    API. *)
Lemma streamed_completion_is_relayed_witness :
  exists st',
    proxy_request (py := stream_runtime) (ext := scripted)
      "http://upstream:9091" true 25 example_registry
      "v1/chat/completions" stream_chat_request true
      (System (example_world [ stream_reply ]) [])
    = (Ok (StreamResponse 200 event_stream_headers "data: [DONE]"), st').
Proof.
  eexists.
  apply (streamed_completion_is_relayed (py := stream_runtime) (ext := scripted)
           "http://upstream:9091" true 25 example_registry
           "v1/chat/completions" stream_chat_request true
           stream_request stream_request (JBool true) stream_reply
           (System (example_world [ stream_reply ]) []) (example_world []));
    reflexivity.
Defined.


(** One round of tool calls, then a completion without tool calls. *)
Lemma resolution_ends_without_tool_calls_witness :
  exists st',
    handle_tool_calls (py := example_runtime) (ext := scripted)
      "http://upstream:9091" 1 example_registry
      (JArr [ tool_call "call_1" "files.read" "{}" ])
      (JObj {[ "messages" := JArr []; "tool_choice" := JStr "required" ]}) ∅
      (System (example_world [ ok_reply final_round_text ]) [])
    = (Ok final_round, st').
Proof.
  assert (Hextended : exists messages st1,
            extended_messages (py := example_runtime) (ext := scripted) example_registry
              (JObj {[ "messages" := JArr []; "tool_choice" := JStr "required" ]})
              (JArr [ tool_call "call_1" "files.read" "{}" ])
              (System (example_world [ ok_reply final_round_text ]) [])
            = (Ok messages, st1)
            /\ world st1 = example_world [ ok_reply final_round_text ])
    by (do 2 eexists; split; vm_compute; reflexivity).
  destruct Hextended as (messages & st1 & Hextended & Hworld).
  eexists.
  apply (resolution_ends_without_tool_calls (py := example_runtime) (ext := scripted)
           "http://upstream:9091" 1 example_registry
           (JArr [ tool_call "call_1" "files.read" "{}" ]) messages final_round (JArr [])
           {[ "messages" := JArr []; "tool_choice" := JStr "required" ]} ∅
           (ok_reply final_round_text)
           (System (example_world [ ok_reply final_round_text ]) []) st1
           (example_world []));
    [lia|exact Hextended|rewrite Hworld; reflexivity|reflexivity|reflexivity
    |vm_compute; reflexivity|reflexivity].
Defined.
